(** * koishi-plugin-sticker-convert: a shallow embedding of [src/index.ts]

    The plugin keeps a per-channel album of stickers: a row store
    ([sticker_archive]) plus one blob file per stored sticker.  This file
    embeds the functions of [apply] as Rocq functions over an explicit
    world (rows, auto-increment counter, blob files) and proves properties
    of deduplication, eviction, permissions, confirmation, delivery
    fallback, indexing and fingerprinting.

    Conventions of the embedding:
    - the row store and the blob directory are state: every call on them
      is a function on [World];
    - the network (the HTTP download, [session.send]) and the wall clock
      ([new Date()]) are outside the program: each call takes its result
      from an oracle value supplied with the input;
    - a JS exception is a [Throw] in the [Result] type, [try]/[catch] is
      [tryCatch]. *)

From Stdlib Require Import ZArith List Bool Ascii String Lia.
From Stdlib.Strings Require Import Byte.
From stdpp Require Import base gmap strings list pretty sorting.
Import ListNotations.
Open Scope string_scope.

(** ** Exceptions *)

Inductive Result (A : Type) : Type :=
| Ok (a : A)
| Throw (message : string).
Arguments Ok {A} a.
Arguments Throw {A} message.

Definition bind {A B : Type} (r : Result A) (k : A -> Result B) : Result B :=
  match r with
  | Ok a => k a
  | Throw m => Throw m
  end.

Definition tryCatch {A : Type} (r : Result A) (handler : string -> Result A) : Result A :=
  match r with
  | Ok a => Ok a
  | Throw m => handler m
  end.

Notation "'try!' x := r 'in' k" := (bind r (fun x => k))
  (at level 10, x name, r at level 100, k at level 200).

(** ** Node [Buffer] *)

Definition Buffer : Type := list byte.

Definition hexDigit (n : N) : ascii :=
  nth (N.to_nat n) (list_ascii_of_string "0123456789abcdef") "0"%char.

Definition hexOfByte (b : byte) : string :=
  String (hexDigit (Byte.to_N b / 16)) (String (hexDigit (Byte.to_N b mod 16)) EmptyString).

Definition bufSlice (buffer : Buffer) (start stop : nat) : Buffer :=
  take (stop - start) (drop start buffer).

(** [buffer.toString('hex', start, stop)]. *)
Definition toStringHex (buffer : Buffer) (start stop : nat) : string :=
  fold_right (fun b acc => hexOfByte b ++ acc) EmptyString (bufSlice buffer start stop).

(** [buffer.toString('ascii', start, stop)].  Node decodes ['ascii'] by
    clearing the highest bit of every byte and reading the result as
    latin1 (Buffer documentation, "Buffers and character encodings"). *)
Definition asciiOfByte (b : byte) : ascii :=
  ascii_of_N (N.land (Byte.to_N b) 127).

Definition toStringAscii (buffer : Buffer) (start stop : nat) : string :=
  string_of_list_ascii (map asciiOfByte (bufSlice buffer start stop)).

(** ** Fingerprinting: [downloadImage] (mime detection), [getExtFromMime] *)

(** The detection block of [downloadImage]. *)
Definition detectMime (buffer : Buffer) : string :=
  if (4 <=? length buffer)%nat then
    let header := toStringHex buffer 0 4 in
    if String.prefix "89504e47" header then "image/png"
    else if String.prefix "ffd8ff" header then "image/jpeg"
    else if String.prefix "47494638" header then "image/gif"
    else if String.eqb (toStringAscii buffer 0 4) "RIFF" then "image/webp"
    else "image/unknown"
  else "image/unknown".

Record Download := {
  dl_buffer : Buffer;
  dl_mime : string;
  dl_size : nat
}.

(** [response] is what [ctx.http.get] gives for the URL: the body, or the
    message of the error it throws. *)
Definition downloadImage (response : Result Buffer) : Result Download :=
  tryCatch
    (try! buffer := response in
     Ok {| dl_buffer := buffer; dl_mime := detectMime buffer; dl_size := length buffer |})
    (fun message => Throw ("下载失败: " ++ message)).

Definition mimeMap : gmap string string :=
  list_to_map [("image/png", "png"); ("image/jpeg", "jpg");
               ("image/gif", "gif"); ("image/webp", "webp")].

(** [mimeMap[mime] || 'jpg'].  The keys an object inherits from
    [Object.prototype] are not modelled: [detectMime] yields none of them. *)
Definition getExtFromMime (mime : string) : string :=
  default "jpg" (mimeMap !! mime).

(** The runtime the plugin is linked against: [createHash('md5')] with a hex
    digest, the date part of [Date.prototype.toISOString] for a time in
    milliseconds, and the resolved storage directory. *)
Class Runtime := {
  md5hex : Buffer -> string;
  isoDate : Z -> string;
  storageDir : string
}.

(** What [convertEmoji] and [convertEmojiOnly] compute from a download
    (lines 594-597 and 422-425). *)
Record Fingerprint := {
  fp_md5 : string;
  fp_mime : string;
  fp_ext : string;
  fp_isGif : bool;
  fp_size : nat
}.

Definition fingerprint `{Runtime} (d : Download) : Fingerprint :=
  {| fp_md5 := md5hex (dl_buffer d);
     fp_mime := dl_mime d;
     fp_ext := getExtFromMime (dl_mime d);
     fp_isGif := String.eqb (dl_mime d) "image/gif";
     fp_size := dl_size d |}.

(** ** Configuration, sessions, records *)

Module Config.
Inductive SendMode := buffer | file.

(** [albumMaxSize] and [deletePermissionLevel] are JS numbers; the schema
    keeps them in 5..100 and 1..5.  They are integers here. *)
Record t := mk {
  enableAlbum : bool;
  albumEnabledGroups : list string;
  albumMaxSize : Z;
  albumShowImages : bool;
  deletePermissionLevel : Z;
  staticImageMode : SendMode;
  gifMode : SendMode;
  fileTransferMode : SendMode;
  debug : bool
}.
End Config.

Module Element.
(** A message element with the attributes the plugin reads:
    [el.type], [el.attrs.src], [el.attrs.url]. *)
Record t := mk {
  type : string;
  src : option string;
  url : option string
}.
End Element.

Module Quote.
Record t := mk {
  messageId : option string;
  elements : list Element.t
}.
End Quote.

Module Session.
Record Author := { roles : option (list string) }.

Record t := mk {
  platform : string;
  channelId : string;
  userId : string;
  isDirect : bool;
  author : option Author;
  quote : option Quote.t
}.
End Session.

Module StickerRecord.
Record t := mk {
  id : nat;
  channelId : string;
  md5 : string;
  ext : string;
  mime : string;
  size : nat;
  isGif : bool;
  fileName : string;
  filePath : string;
  uploaderId : string;
  sourceMessageId : string;
  createdAt : Z
}.
End StickerRecord.

(** The fields [ctx.database.create] receives: a row without its [id]. *)
Definition NewRow : Type := nat -> StickerRecord.t.

(** ** The world: row store and blob directory *)

Record World := {
  rows : list StickerRecord.t;   (* table sticker_archive, in insertion order *)
  nextId : nat;                  (* the autoInc counter of the primary key *)
  files : gmap string Buffer     (* the files under storageDir *)
}.

Definition emptyWorld : World :=
  {| rows := []; nextId := 1; files := ∅ |}.

Definition inChannel (channelId : string) (r : StickerRecord.t) : bool :=
  String.eqb (StickerRecord.channelId r) channelId.

(** [ctx.database.get('sticker_archive', { channelId, md5 })]. *)
Definition dbGet (channelId md5 : string) (w : World) : list StickerRecord.t :=
  List.filter (fun r => inChannel channelId r && String.eqb (StickerRecord.md5 r) md5) (rows w).

(** [ctx.database.select('sticker_archive').where({ channelId })]. *)
Definition dbSelect (channelId : string) (w : World) : list StickerRecord.t :=
  List.filter (inChannel channelId) (rows w).

(** [.orderBy('createdAt', 'desc')]: a stable insertion sort, newest first.
    The order a row store gives to rows with equal [createdAt] is its own;
    here they keep their insertion order. *)
Fixpoint insertDesc (r : StickerRecord.t) (l : list StickerRecord.t) : list StickerRecord.t :=
  match l with
  | [] => [r]
  | x :: rest =>
      if (StickerRecord.createdAt r <? StickerRecord.createdAt x)%Z
      then x :: insertDesc r rest
      else r :: l
  end.

Definition orderByCreatedAtDesc (l : list StickerRecord.t) : list StickerRecord.t :=
  fold_right insertDesc [] l.

(** [ctx.database.create]: the store assigns the next id. *)
Definition dbCreate (row : NewRow) (w : World) : World :=
  {| rows := rows w ++ [row (nextId w)];
     nextId := S (nextId w);
     files := files w |}.

(** [ctx.database.remove('sticker_archive', { id })]. *)
Definition dbRemoveId (id : nat) (w : World) : World :=
  {| rows := List.filter (fun r => negb (Nat.eqb (StickerRecord.id r) id)) (rows w);
     nextId := nextId w;
     files := files w |}.

(** [ctx.database.remove('sticker_archive', { channelId })]. *)
Definition dbRemoveChannel (channelId : string) (w : World) : World :=
  {| rows := List.filter (fun r => negb (inChannel channelId r)) (rows w);
     nextId := nextId w;
     files := files w |}.

Definition existsSync (path : string) (w : World) : bool :=
  bool_decide (is_Some (files w !! path)).

Definition unlinkSync (path : string) (w : World) : World :=
  {| rows := rows w; nextId := nextId w; files := delete path (files w) |}.

Definition writeFile (path : string) (data : Buffer) (w : World) : World :=
  {| rows := rows w; nextId := nextId w; files := <[path := data]> (files w) |}.

(** [readFile(path)]: rejects when there is no such file. *)
Definition readFile (path : string) (w : World) : Result Buffer :=
  match files w !! path with
  | Some data => Ok data
  | None => Throw ("ENOENT: no such file or directory, open '" ++ path ++ "'")
  end.

(** [if (existsSync(p)) unlinkSync(p)]. *)
Definition unlinkIfExists (path : string) (w : World) : World :=
  if existsSync path w then unlinkSync path w else w.

(** [array.slice(start)] for an integer [start]. *)
Definition jsSliceFrom {A : Type} (start : Z) (l : list A) : list A :=
  if (start <? 0)%Z
  then drop (Z.to_nat (Z.max (Z.of_nat (length l) + start) 0)) l
  else drop (Z.to_nat start) l.

(** [array[i]] for an integer [i]. *)
Definition jsIndex {A : Type} (l : list A) (i : Z) : option A :=
  if (i <? 0)%Z then None else l !! Z.to_nat i.

(** [path.resolve(storageDir, fileName)] for the plain file names built
    below, and [filePath.split(/[/\\]/).pop()]. *)
Definition resolvePath `{Runtime} (fileName : string) : string :=
  storageDir ++ "/" ++ fileName.

Definition isSeparator (c : ascii) : bool :=
  Ascii.eqb c "/"%char || Ascii.eqb c "\"%char.

Fixpoint lastSegment (acc : string) (s : string) : string :=
  match s with
  | EmptyString => acc
  | String c rest =>
      if isSeparator c then lastSegment EmptyString rest
      else lastSegment (acc ++ String c EmptyString) rest
  end.

Definition basename (path : string) : string := lastSegment EmptyString path.

(** [saveFile]: [now] is the clock read by [new Date()]. *)
Definition saveFile `{Runtime} (buffer : Buffer) (md5 ext : string) (now : Z) (w : World)
  : string * World :=
  let fileName := isoDate now ++ "-" ++ md5 ++ "." ++ ext in
  let filePath := resolvePath fileName in
  (filePath, writeFile filePath buffer w).

(** ** Album switches and capacity *)

Definition isOneBotPlatform (session : Session.t) : bool :=
  String.eqb (Session.platform session) "onebot".

Definition isAlbumEnabledForGroup (config : Config.t) (channelId : string) : bool :=
  if negb (Config.enableAlbum config) then false
  else if (length (Config.albumEnabledGroups config) =? 0)%nat then true
  else bool_decide (channelId ∈ Config.albumEnabledGroups config).

(** The body of the eviction loop: the blob, then the row. *)
Definition evictRecord (w : World) (record : StickerRecord.t) : World :=
  dbRemoveId (StickerRecord.id record) (unlinkIfExists (StickerRecord.filePath record) w).

Definition checkAndCleanAlbum (config : Config.t) (channelId : string) (w : World) : World :=
  let records := orderByCreatedAtDesc (dbSelect channelId w) in
  if (Config.albumMaxSize config <=? Z.of_nat (length records))%Z then
    let toDelete := jsSliceFrom (Config.albumMaxSize config - 1) records in
    fold_left evictRecord toDelete w
  else w.

(** ** Permissions *)

Definition includes (l : list string) (x : string) : bool :=
  bool_decide (x ∈ l).

Definition checkUserPermission (session : Session.t) : Z :=
  match Session.isDirect session, Session.author session with
  | true, _ => 1
  | false, None => 1
  | false, Some author =>
      let roles := default [] (Session.roles author) in
      if includes roles "owner" then 4
      else if includes roles "admin" then 3
      else if includes roles "trusted" then 2
      else 1
  end%Z.

Definition hasDeletePermission (config : Config.t) (session : Session.t) : bool :=
  (Config.deletePermissionLevel config <=? checkUserPermission session)%Z.

(** ** Delivery *)

(** What [session.send] is given. *)
Inductive Payload :=
| Image (data : Buffer) (mime : string)          (* h.image(data, mime) *)
| TempFile (data : Buffer) (filename : string)   (* h.file of a temporary copy of data *)
| File (src : string) (filename : string)        (* h.file(src, { filename }) *)
| Text (content : string).

(** The transport's answers to the sends of one item: [None] when the send
    resolves, [Some message] when it throws. *)
Record Transport := {
  fileSend : option string;    (* the body of sendFileWithName *)
  imageSend : option string    (* session.send(h.image(...)) *)
}.

Definition sessionSend (oracle : option string) (payload : Payload) : Result Payload :=
  match oracle with
  | None => Ok payload
  | Some message => Throw message
  end.

Definition isBufferMode (m : Config.SendMode) : bool :=
  match m with Config.buffer => true | Config.file => false end.

(** [sendFileWithName].  In buffer mode the data is copied to
    [temp_<now>_<fileName>] under [storageDir], sent, and the copy is
    removed by a timer five seconds later; the copy never has the name of a
    blob and is not kept in [files].  The [catch] of the source logs and
    rethrows. *)
Definition sendFileWithName (config : Config.t) (oracle : option string)
    (buffer : Buffer) (fileName : string) (filePath : option string) (forceBuffer : bool)
  : Result Payload :=
  if isBufferMode (Config.fileTransferMode config) || forceBuffer then
    sessionSend oracle (TempFile buffer fileName)
  else
    match filePath with
    | None | Some EmptyString => Throw "文件模式需要已保存的文件路径"
    | Some path => sessionSend oracle (File ("file://" ++ path) (basename path))
    end.

(** The send block shared by [convertEmojiOnly] (lines 439-489, with
    [filePath = undefined] and [forceBuffer = true]) and [convertEmoji]
    (lines 628-672): the line pushed on [results] and the payload sent. *)
Definition deliver (config : Config.t) (tr : Transport) (buffer : Buffer) (mime : string)
    (isGif : bool) (fileName : string) (filePath : option string) (forceBuffer : bool)
  : Result (string * Payload) :=
  if isGif then
    match Config.gifMode config with
    | Config.file =>
        tryCatch
          (try! p := sendFileWithName config (fileSend tr) buffer fileName filePath forceBuffer in
           Ok ("🎞️ GIF 已转为文件: " ++ fileName, p))
          (fun _ =>
           try! p := sessionSend (imageSend tr) (Image buffer "image/gif") in
           Ok ("🎞️ GIF 已转换（作为图片发送）", p))
    | Config.buffer =>
        try! p := sessionSend (imageSend tr) (Image buffer "image/gif") in
        Ok ("🎞️ GIF 已转换为图片", p)
    end
  else
    match Config.staticImageMode config with
    | Config.file =>
        tryCatch
          (try! p := sendFileWithName config (fileSend tr) buffer fileName filePath forceBuffer in
           Ok ("📁 图片已转为文件: " ++ fileName, p))
          (fun _ =>
           try! p := sessionSend (imageSend tr) (Image buffer mime) in
           Ok ("🖼️ 图片已转换", p))
    | Config.buffer =>
        try! p := sessionSend (imageSend tr) (Image buffer mime) in
        Ok ("🖼️ 图片已转换", p)
    end.

(** ** The conversion loops *)

(** The answers of the outside world while one image is processed. *)
Record ItemEnv := {
  response : Result Buffer;   (* ctx.http.get *)
  saveClock : Z;              (* new Date() in saveFile *)
  transport : Transport;
  createClock : Z             (* new Date() for createdAt *)
}.

(** The variables of the loop, and the world it runs in. *)
Record Batch := {
  world : World;
  results : list string;
  successCount : nat;
  sent : list Payload
}.

Definition pushLine (line : string) (b : Batch) : Batch :=
  {| world := world b; results := results b ++ [line];
     successCount := successCount b; sent := sent b |}.

Definition truthy (s : option string) : bool :=
  match s with
  | None | Some EmptyString => false
  | Some _ => true
  end.

(** [img.type === 'mface' ? img.attrs.url : img.attrs.src || img.attrs.url]. *)
Definition imageUrl (img : Element.t) : option string :=
  if String.eqb (Element.type img) "mface" then Element.url img
  else if truthy (Element.src img) then Element.src img else Element.url img.

Definition existsLine (id : nat) : string :=
  "📁 此表情已存在相册中（编号 " ++ pretty id ++ "）".

Definition storeFailedLine (message : string) : string := "❌ 转存失败: " ++ message.

Definition convertFailedLine (message : string) : string := "❌ 转换失败: " ++ message.

(** One iteration of the loop of [convertEmoji]. *)
Definition storeItem `{Runtime} (config : Config.t) (session : Session.t) (quote : Quote.t)
    (img : Element.t) (env : ItemEnv) (b : Batch) : Batch :=
  if negb (truthy (imageUrl img)) then pushLine "⚠️ 发现无效图片链接" b
  else
    match downloadImage (response env) with
    | Throw message => pushLine (storeFailedLine message) b
    | Ok d =>
        let fp := fingerprint d in
        match dbGet (Session.channelId session) (fp_md5 fp) (world b) with
        | existing0 :: _ => pushLine (existsLine (StickerRecord.id existing0)) b
        | [] =>
            let w1 := checkAndCleanAlbum config (Session.channelId session) (world b) in
            let '(filePath, w2) := saveFile (dl_buffer d) (fp_md5 fp) (fp_ext fp) (saveClock env) w1 in
            let fileName := basename filePath in
            match deliver config (transport env) (dl_buffer d) (fp_mime fp) (fp_isGif fp)
                    fileName (Some filePath) false with
            | Throw message =>
                {| world := w2; results := results b ++ [storeFailedLine message];
                   successCount := successCount b; sent := sent b |}
            | Ok (line, payload) =>
                let row (id : nat) :=
                  {| StickerRecord.id := id;
                     StickerRecord.channelId := Session.channelId session;
                     StickerRecord.md5 := fp_md5 fp;
                     StickerRecord.ext := fp_ext fp;
                     StickerRecord.mime := fp_mime fp;
                     StickerRecord.size := fp_size fp;
                     StickerRecord.isGif := fp_isGif fp;
                     StickerRecord.fileName := fileName;
                     StickerRecord.filePath := filePath;
                     StickerRecord.uploaderId := Session.userId session;
                     StickerRecord.sourceMessageId :=
                       (if truthy (Quote.messageId quote)
                        then default EmptyString (Quote.messageId quote) else EmptyString);
                     StickerRecord.createdAt := createClock env |} in
                {| world := dbCreate row w2; results := results b ++ [line];
                   successCount := S (successCount b); sent := sent b ++ [payload] |}
            end
        end
    end.

(** One iteration of the loop of [convertEmojiOnly]. *)
Definition convertItem `{Runtime} (config : Config.t) (img : Element.t) (env : ItemEnv)
    (b : Batch) : Batch :=
  if negb (truthy (imageUrl img)) then pushLine "⚠️ 发现无效图片链接" b
  else
    match downloadImage (response env) with
    | Throw message => pushLine (convertFailedLine message) b
    | Ok d =>
        let fp := fingerprint d in
        let fileName := "temp-" ++ substring 0 8 (fp_md5 fp) ++ "." ++ fp_ext fp in
        match deliver config (transport env) (dl_buffer d) (fp_mime fp) (fp_isGif fp)
                fileName None true with
        | Throw message => pushLine (convertFailedLine message) b
        | Ok (line, payload) =>
            {| world := world b; results := results b ++ [line];
               successCount := S (successCount b); sent := sent b ++ [payload] |}
        end
    end.

(** [h.select(elements, type)] on a flat element list, and
    [[...images, ...imageElements, ...mfaceElements]]. *)
Definition hSelect (elements : list Element.t) (type : string) : list Element.t :=
  List.filter (fun el => String.eqb (Element.type el) type) elements.

Definition allImageLike (quote : Quote.t) : list Element.t :=
  hSelect (Quote.elements quote) "img" ++ hSelect (Quote.elements quote) "image"
  ++ hSelect (Quote.elements quote) "mface".

(** The k-th image of a batch meets the k-th answer of the outside world. *)
Definition withEnv (env : nat -> ItemEnv) (items : list Element.t) : list (Element.t * ItemEnv) :=
  imap (fun k img => (img, env k)) items.

Definition newline : string := String (ascii_of_nat 10) EmptyString.

Definition joinLines (lines : list string) : string :=
  match lines with
  | [] => EmptyString
  | l :: rest => fold_left (fun acc x => acc ++ newline ++ x) rest l
  end.

(** [if (successCount > 0) results.unshift(summary)]. *)
Definition summarize (summary : nat -> string) (b : Batch) : Batch :=
  if (0 <? successCount b)%nat
  then {| world := world b; results := summary (successCount b) :: results b;
          successCount := successCount b; sent := sent b |}
  else b.

Definition startBatch (w : World) : Batch :=
  {| world := w; results := []; successCount := 0; sent := [] |}.

Definition storeLoop `{Runtime} (config : Config.t) (session : Session.t) (quote : Quote.t)
    (items : list (Element.t * ItemEnv)) (b : Batch) : Batch :=
  fold_left (fun acc item => storeItem config session quote (fst item) (snd item) acc) items b.

Definition convertLoop `{Runtime} (config : Config.t)
    (items : list (Element.t * ItemEnv)) (b : Batch) : Batch :=
  fold_left (fun acc item => convertItem config (fst item) (snd item) acc) items b.

(** What a command hands back: the world, the text it returns and the
    payloads it sent meanwhile. *)
Record Reply := {
  after : World;
  text : string;
  delivered : list Payload
}.

Definition say (w : World) (message : string) : Reply :=
  {| after := w; text := message; delivered := [] |}.

Definition finish (b : Batch) : Reply :=
  {| after := world b; text := joinLines (results b); delivered := sent b |}.

Definition dq : string := String (ascii_of_nat 34) EmptyString.

Definition convertEmojiOnly `{Runtime} (config : Config.t) (session : Session.t)
    (env : nat -> ItemEnv) (w : World) : Reply :=
  if negb (isOneBotPlatform session) then say w "此插件仅支持 QQ 平台（OneBot 适配器）"
  else
    match Session.quote session with
    | None => say w "请回复包含表情的消息后使用此命令"
    | Some quote =>
        match allImageLike quote with
        | [] => say w "被回复的消息中没有找到图片表情"
        | items =>
            finish (summarize (fun n => "✅ 成功转换 " ++ pretty n ++ " 个表情")
                      (convertLoop config (withEnv env items) (startBatch w)))
        end
    end.

Definition convertEmoji `{Runtime} (config : Config.t) (session : Session.t)
    (env : nat -> ItemEnv) (w : World) : Reply :=
  if negb (isOneBotPlatform session) then say w "此插件仅支持 QQ 平台（OneBot 适配器）"
  else if negb (isAlbumEnabledForGroup config (Session.channelId session)) then
    say w ("❌ 此群组未启用相册功能，无法使用转存功能。请使用 " ++ dq ++ "表情转换" ++ dq
           ++ " 命令进行临时转换。")
  else
    match Session.quote session with
    | None => say w "请回复包含表情的消息后使用此命令"
    | Some quote =>
        match allImageLike quote with
        | [] => say w "被回复的消息中没有找到图片表情"
        | items =>
            finish (summarize (fun n => "✅ 成功转存 " ++ pretty n ++ " 个表情")
                      (storeLoop config session quote (withEnv env items) (startBatch w)))
        end
    end.

(** ** Album commands *)

Definition disabledLine : string := "❌ 此群组未启用相册功能".

Definition invalidIndexLine (total : nat) : string :=
  "❌ 编号无效，相册中共有 " ++ pretty total ++ " 个表情".

Definition undefinedRecord : string :=
  "Cannot read properties of undefined (reading 'filePath')".

Definition outOfRange (index : Z) (total : nat) : bool :=
  (index <? 1)%Z || (Z.of_nat total <? index)%Z.

(** The records of a channel, newest first: the query of [sendEmoji],
    [deleteEmoji] and [checkAndCleanAlbum]. *)
Definition newestFirst (channelId : string) (w : World) : list StickerRecord.t :=
  orderByCreatedAtDesc (dbSelect channelId w).

(** [sendEmoji].  An uncaught exception is the outer [Throw]. *)
Definition sendEmoji (config : Config.t) (session : Session.t) (index : Z)
    (tr : Transport) (w : World) : Result (string * list Payload) :=
  if negb (isAlbumEnabledForGroup config (Session.channelId session)) then Ok (disabledLine, [])
  else
    let records := newestFirst (Session.channelId session) w in
    if outOfRange index (length records) then Ok (invalidIndexLine (length records), [])
    else
      match jsIndex records (index - 1) with
      | None => Throw undefinedRecord
      | Some record =>
          let name := StickerRecord.fileName record in
          if negb (existsSync (StickerRecord.filePath record) w)
          then Ok ("❌ 文件不存在，可能已被删除", [])
          else
            tryCatch
              (try! fileData := readFile (StickerRecord.filePath record) w in
               if StickerRecord.isGif record then
                 match Config.gifMode config with
                 | Config.file =>
                     tryCatch
                       (try! p := sendFileWithName config (fileSend tr) fileData name
                                    (Some (StickerRecord.filePath record)) false in
                        Ok ("🎞️ 已发送 GIF 文件: " ++ name, [p]))
                       (fun _ =>
                        try! p := sessionSend (imageSend tr) (Image fileData "image/gif") in
                        Ok ("🎞️ 已发送 GIF（作为图片）: " ++ name, [p]))
                 | Config.buffer =>
                     try! p := sessionSend (imageSend tr) (Image fileData "image/gif") in
                     Ok ("🎞️ 已发送 GIF 图片: " ++ name, [p])
                 end
               else
                 match Config.staticImageMode config with
                 | Config.file =>
                     tryCatch
                       (try! p := sendFileWithName config (fileSend tr) fileData name
                                    (Some (StickerRecord.filePath record)) false in
                        Ok ("📁 已发送图片文件: " ++ name, [p]))
                       (fun _ =>
                        try! p := sessionSend (imageSend tr)
                                    (Image fileData (StickerRecord.mime record)) in
                        Ok ("🖼️ 已发送图片: " ++ name, [p]))
                 | Config.buffer =>
                     try! p := sessionSend (imageSend tr)
                                 (Image fileData (StickerRecord.mime record)) in
                     Ok ("🖼️ 已发送图片: " ++ name, [p])
                 end)
              (fun message => Ok ("❌ 发送失败: " ++ message, []))
      end.

Definition levelNames : list string :=
  [""; "普通用户"; "信任用户"; "管理员"; "群主"; "机器人管理员"].

Definition levelName (level : Z) : string :=
  default "undefined" (jsIndex levelNames level).

Definition deleteDeniedLine (config : Config.t) : string :=
  "❌ 权限不足，删除表情需要 " ++ levelName (Config.deletePermissionLevel config) ++ " 或以上权限".

Definition clearDeniedLine (config : Config.t) : string :=
  "❌ 权限不足，清空相册需要 " ++ levelName (Config.deletePermissionLevel config) ++ " 或以上权限".

(** [deleteEmoji]. *)
Definition deleteEmoji (config : Config.t) (session : Session.t) (index : Z) (w : World)
  : World * string :=
  if negb (isAlbumEnabledForGroup config (Session.channelId session)) then (w, disabledLine)
  else if negb (hasDeletePermission config session) then (w, deleteDeniedLine config)
  else
    let records := newestFirst (Session.channelId session) w in
    if outOfRange index (length records) then (w, invalidIndexLine (length records))
    else
      match jsIndex records (index - 1) with
      | None => (w, "❌ 删除失败: " ++ undefinedRecord)
      | Some record =>
          (dbRemoveId (StickerRecord.id record)
             (unlinkIfExists (StickerRecord.filePath record) w),
           "✅ 已删除表情: " ++ StickerRecord.fileName record)
      end.

(** The reply to the confirmation prompt is a JS string: a list of UTF-16
    code units.  [String.prototype.trim] strips white space and line
    terminators from both ends. *)
Definition JsString : Type := list N.

Definition isTrimmed (c : N) : bool :=
  bool_decide (c ∈ [0x9; 0xA; 0xB; 0xC; 0xD; 0x20; 0xA0; 0x1680; 0x2028; 0x2029;
                    0x202F; 0x205F; 0x3000; 0xFEFF]%N)
  || ((0x2000 <=? c)%N && (c <=? 0x200A)%N).

Fixpoint trimStart (s : JsString) : JsString :=
  match s with
  | [] => []
  | c :: rest => if isTrimmed c then trimStart rest else s
  end.

Definition trim (s : JsString) : JsString :=
  rev (trimStart (rev (trimStart s))).

(** The two code units of the confirmation word, U+786E U+8BA4. *)
Definition confirmWord : JsString := [0x786E; 0x8BA4]%N.

(** [session.send(prompt)] then [session.prompt(30000)]: the reply that
    arrives within 30 seconds, if any. *)
Record ClearEnv := {
  promptSend : option string;
  promptReply : option JsString
}.

Definition clearPrompt : string :=
  "⚠️ 确定要清空整个相册吗？此操作不可恢复！" ++ newline ++ "回复 " ++ dq ++ "确认" ++ dq
  ++ " 继续，其他内容取消".

(** [(confirm as string)?.trim() !== '确认'] negated. *)
Definition confirmed (reply : option JsString) : bool :=
  match reply with
  | None => false
  | Some s => bool_decide (trim s = confirmWord)
  end.

(** [clearAlbum] up to the prompt: either it answers at once, or it holds
    the records it read and waits. *)
Definition clearAlbumAsk (config : Config.t) (session : Session.t) (w : World)
  : string + list StickerRecord.t :=
  if negb (isAlbumEnabledForGroup config (Session.channelId session)) then inl disabledLine
  else if negb (hasDeletePermission config session) then inl (clearDeniedLine config)
  else
    match dbSelect (Session.channelId session) w with
    | [] => inl "相册已经是空的了"
    | records => inr records
    end.

(** [clearAlbum] from the reply on. *)
Definition clearAlbumResolve (session : Session.t) (records : list StickerRecord.t)
    (reply : option JsString) (w : World) : World * string :=
  if negb (confirmed reply) then (w, "❌ 操作已取消")
  else
    let w1 := fold_left (fun acc record => unlinkIfExists (StickerRecord.filePath record) acc)
                records w in
    (dbRemoveChannel (Session.channelId session) w1,
     "✅ 已清空相册，删除了 " ++ pretty (length records) ++ " 个表情").

Definition clearAlbum (config : Config.t) (session : Session.t) (env : ClearEnv) (w : World)
  : World * Result string :=
  match clearAlbumAsk config session w with
  | inl line => (w, Ok line)
  | inr records =>
      match sessionSend (promptSend env) (Text clearPrompt) with
      | Throw message => (w, Throw message)
      | Ok _ =>
          let '(w', line) := clearAlbumResolve session records (promptReply env) w in
          (w', Ok line)
      end
  end.

(** [viewAlbum]: the page query, and what the page shows.  The text of a
    line prints the size with [toFixed], which is left out; the view keeps
    the number and the record of every line. *)
Definition albumPage (channelId : string) (page : Z) (w : World) : list StickerRecord.t :=
  take 8 (drop (Z.to_nat ((page - 1) * 8)) (newestFirst channelId w)).

Inductive AlbumView :=
| ViewDisabled
| ViewEmpty
| ViewNoMore
| ViewPage (total : nat) (totalPages : Z) (entries : list (Z * StickerRecord.t))
    (images : list Payload).

Definition viewImages (config : Config.t) (records : list StickerRecord.t) (w : World)
  : list Payload :=
  if Config.albumShowImages config then
    omap (fun record =>
            match files w !! StickerRecord.filePath record with
            | Some fileData => Some (Image fileData (StickerRecord.mime record))
            | None => None
            end) records
  else [].

Definition viewAlbum (config : Config.t) (session : Session.t) (page : Z) (w : World)
  : AlbumView :=
  if negb (isAlbumEnabledForGroup config (Session.channelId session)) then ViewDisabled
  else
    match albumPage (Session.channelId session) page w with
    | [] => if (page =? 1)%Z then ViewEmpty else ViewNoMore
    | records =>
        let total := length (dbSelect (Session.channelId session) w) in
        ViewPage total ((Z.of_nat total + 7) / 8)
          (imap (fun i record => (((page - 1) * 8 + Z.of_nat i + 1)%Z, record)) records)
          (viewImages config records w)
    end.

(** ** Commands *)

Inductive Command :=
| CmdConvertOnly (session : Session.t) (env : nat -> ItemEnv)      (* 表情转换 *)
| CmdConvert (session : Session.t) (env : nat -> ItemEnv)          (* 表情转存 *)
| CmdView (session : Session.t) (page : option Z)                  (* 表情相册 *)
| CmdSend (session : Session.t) (index : option Z) (tr : Transport)  (* 表情相册发送 *)
| CmdDelete (session : Session.t) (index : option Z)               (* 表情相册删除 *)
| CmdClear (session : Session.t) (env : ClearEnv).                 (* 表情相册清空 *)

(** [!index]: no argument, or zero. *)
Definition missing (index : option Z) : bool :=
  match index with
  | None => true
  | Some i => (i =? 0)%Z
  end.

(** The world after a command. *)
Definition exec `{Runtime} (config : Config.t) (w : World) (c : Command) : World :=
  match c with
  | CmdConvertOnly session env => after (convertEmojiOnly config session env w)
  | CmdConvert session env => after (convertEmoji config session env w)
  | CmdView _ _ => w
  | CmdSend _ _ _ => w
  | CmdDelete session index =>
      if missing index then w else fst (deleteEmoji config session (default 0%Z index) w)
  | CmdClear session env => fst (clearAlbum config session env w)
  end.

Definition run `{Runtime} (config : Config.t) (w : World) (cmds : list Command) : World :=
  fold_left (exec config) cmds w.

(** ** Sample runtime, configuration and inputs (used by the examples) *)

Definition pad (width : nat) (n : Z) : string :=
  let digits := pretty (Z.abs n) in
  string_of_list_ascii (replicate (width - String.length digits) "0"%char) ++ digits.

(** Calendar date of a time in milliseconds since the epoch, as
    [toISOString] prints it (proleptic Gregorian, UTC). *)
Definition utcDate (ms : Z) : string :=
  let z := (ms / 86400000 + 719468)%Z in
  let era := (z / 146097)%Z in
  let doe := (z - era * 146097)%Z in
  let yoe := ((doe - doe / 1460 + doe / 36524 - doe / 146096) / 365)%Z in
  let doy := (doe - (365 * yoe + yoe / 4 - yoe / 100))%Z in
  let mp := ((5 * doy + 2) / 153)%Z in
  let d := (doy - (153 * mp + 2) / 5 + 1)%Z in
  let m := (if (mp <? 10)%Z then mp + 3 else mp - 9)%Z in
  let y := (yoe + era * 400 + (if (m <=? 2)%Z then 1 else 0))%Z in
  let year := if (0 <=? y)%Z && (y <=? 9999)%Z then pad 4 y
              else (if (y <? 0)%Z then "-" else "+") ++ pad 6 y in
  year ++ "-" ++ pad 2 m ++ "-" ++ pad 2 d.

(** A stand-in digest for the examples: the hex print of the content. *)
Definition hexDigest (buffer : Buffer) : string :=
  toStringHex buffer 0 (length buffer).

Definition sampleRuntime : Runtime :=
  {| md5hex := hexDigest; isoDate := utcDate; storageDir := "/koishi/data/sticker-convert" |}.

(** The defaults of the schema, and the smallest album it allows. *)
Definition defaultConfig : Config.t :=
  {| Config.enableAlbum := true; Config.albumEnabledGroups := [];
     Config.albumMaxSize := 20; Config.albumShowImages := true;
     Config.deletePermissionLevel := 3;
     Config.staticImageMode := Config.buffer; Config.gifMode := Config.file;
     Config.fileTransferMode := Config.buffer; Config.debug := false |}.

Definition smallConfig : Config.t :=
  {| Config.enableAlbum := true; Config.albumEnabledGroups := [];
     Config.albumMaxSize := 5; Config.albumShowImages := true;
     Config.deletePermissionLevel := 3;
     Config.staticImageMode := Config.file; Config.gifMode := Config.file;
     Config.fileTransferMode := Config.buffer; Config.debug := false |}.

Definition sampleQuote : Quote.t :=
  {| Quote.messageId := Some "m-1";
     Quote.elements := [ {| Element.type := "img"; Element.src := Some "https://example/a";
                            Element.url := None |} ] |}.

Definition sampleImg : Element.t :=
  {| Element.type := "img"; Element.src := Some "https://example/a"; Element.url := None |}.

Definition groupSession (channelId : string) (roles : list string) : Session.t :=
  {| Session.platform := "onebot"; Session.channelId := channelId; Session.userId := "u-1";
     Session.isDirect := false;
     Session.author := Some {| Session.roles := Some roles |};
     Session.quote := Some sampleQuote |}.

Definition directSession : Session.t :=
  {| Session.platform := "onebot"; Session.channelId := "private:1"; Session.userId := "u-1";
     Session.isDirect := true; Session.author := Some {| Session.roles := Some ["owner"] |};
     Session.quote := None |}.

Definition pngBytes (tag : byte) : Buffer := [x89; x50; x4e; x47; tag].
Definition gifBytes (tag : byte) : Buffer := [x47; x49; x46; x38; tag].

Definition quiet : Transport := {| fileSend := None; imageSend := None |}.
Definition fileDown : Transport := {| fileSend := Some "send failed"; imageSend := None |}.
Definition allDown : Transport := {| fileSend := Some "send failed"; imageSend := Some "offline" |}.

(** The answers for an item whose download gives [content] at time [now]. *)
Definition arrives (content : Buffer) (now : Z) (tr : Transport) : ItemEnv :=
  {| response := Ok content; saveClock := now; transport := tr; createClock := now |}.

(** 2023-11-14T22:13:20Z, and later moments of the same day. *)
Definition t0 : Z := 1700000000000.

Definition sampleSteps : list ItemEnv :=
  map (fun k => arrives (pngBytes (default x00 (Byte.of_N (N.of_nat k)))) (t0 + Z.of_nat k) quiet)
      (seq 1 6).

(** ** Vocabulary of the statements *)

(** Reading bytes as a prefix, on the byte level. *)
Fixpoint startsWith (pre buffer : Buffer) : bool :=
  match pre, buffer with
  | [], _ => true
  | _ :: _, [] => false
  | p :: pre', b :: buffer' => bool_decide (Byte.to_N p = Byte.to_N b) && startsWith pre' buffer'
  end.

Definition pngMagic : Buffer := [x89; x50; x4e; x47].
Definition jpegMagic : Buffer := [xff; xd8; xff].
Definition gifMagic : Buffer := [x47; x49; x46; x38].
Definition riffMagic : Buffer := [x52; x49; x46; x46].

(** The RIFF test of the code: the four bytes with their high bit cleared. *)
Definition riffUpToHighBit (buffer : Buffer) : bool :=
  bool_decide (map (fun b => N.land (Byte.to_N b) 127) (take 4 buffer) = [82; 73; 70; 70]%N).

Definition hexString (buffer : Buffer) : string :=
  fold_right (fun b acc => hexOfByte b ++ acc) EmptyString buffer.

Definition byteOfHex (s : string) : option byte :=
  match s with
  | String h (String l EmptyString) =>
      match index 0 (String h EmptyString) "0123456789abcdef",
            index 0 (String l EmptyString) "0123456789abcdef" with
      | Some a, Some b => Byte.of_N (N.of_nat (16 * a + b))
      | _, _ => None
      end
  | _ => None
  end.


(** The role flags of the requester; none when there is no author. *)
Definition rolesOf (session : Session.t) : list string :=
  match Session.author session with
  | Some author => default [] (Session.roles author)
  | None => []
  end.

(** Well-formed worlds: the primary key is unique and below the counter. *)
Definition ids (l : list StickerRecord.t) : list nat := map StickerRecord.id l.

Definition wfWorld (w : World) : Prop :=
  NoDup (ids (rows w)) /\ Forall (fun r => (StickerRecord.id r < nextId w)%nat) (rows w).

(** The record is one of [l], by primary key. *)
Definition idIn (l : list StickerRecord.t) (r : StickerRecord.t) : bool :=
  bool_decide (StickerRecord.id r ∈ ids l).

(** [t] is later than the creation time of every record of [l]. *)
Definition laterThanAll (t : Z) (l : list StickerRecord.t) : Prop :=
  Forall (fun r => (StickerRecord.createdAt r < t)%Z) l.

(** The order of [orderBy('createdAt', 'desc')]. *)
Definition newerFirst (a b : StickerRecord.t) : Prop :=
  (StickerRecord.createdAt b <= StickerRecord.createdAt a)%Z.

(** The records [checkAndCleanAlbum] removes: its [toDelete]. *)
Definition evicted (config : Config.t) (channelId : string) (w : World) : list StickerRecord.t :=
  let records := orderByCreatedAtDesc (dbSelect channelId w) in
  if (Config.albumMaxSize config <=? Z.of_nat (length records))%Z
  then jsSliceFrom (Config.albumMaxSize config - 1) records
  else [].

(** Where [saveFile] puts the blob of [content] at time [now], and the row
    [convertEmoji] creates for it. *)
Definition blobPath `{Runtime} (content : Buffer) (now : Z) : string :=
  resolvePath (isoDate now ++ "-" ++ md5hex content ++ "."
               ++ getExtFromMime (detectMime content)).

Definition recordOf `{Runtime} (session : Session.t) (quote : Quote.t) (content : Buffer)
    (env : ItemEnv) (id : nat) : StickerRecord.t :=
  {| StickerRecord.id := id;
     StickerRecord.channelId := Session.channelId session;
     StickerRecord.md5 := md5hex content;
     StickerRecord.ext := getExtFromMime (detectMime content);
     StickerRecord.mime := detectMime content;
     StickerRecord.size := length content;
     StickerRecord.isGif := String.eqb (detectMime content) "image/gif";
     StickerRecord.fileName := basename (blobPath content (saveClock env));
     StickerRecord.filePath := blobPath content (saveClock env);
     StickerRecord.uploaderId := Session.userId session;
     StickerRecord.sourceMessageId :=
       (if truthy (Quote.messageId quote)
        then default EmptyString (Quote.messageId quote) else EmptyString);
     StickerRecord.createdAt := createClock env |}.

(** The item was stored: the loop counted it. *)
Definition stored `{Runtime} (config : Config.t) (session : Session.t) (quote : Quote.t)
    (img : Element.t) (env : ItemEnv) (b : Batch) : Prop :=
  successCount (storeItem config session quote img env b) = S (successCount b).

(** The transfer mode configured for the kind of the content. *)
Definition modeFor (config : Config.t) (isGif : bool) : Config.SendMode :=
  if isGif then Config.gifMode config else Config.staticImageMode config.

(** The loop variables after an item was stored. *)
Definition storedBatch `{Runtime} (config : Config.t) (session : Session.t) (quote : Quote.t)
    (content : Buffer) (env : ItemEnv) (line : string) (payload : Payload) (b : Batch) : Batch :=
  {| world := dbCreate (recordOf session quote content env)
                (writeFile (blobPath content (saveClock env)) content
                   (checkAndCleanAlbum config (Session.channelId session) (world b)));
     results := results b ++ [line];
     successCount := S (successCount b);
     sent := sent b ++ [payload] |}.

(** A sequence of ingests: each is one iteration of the loop of
    [convertEmoji], in the session and with the answers it meets. *)
Record Ingest := {
  by_session : Session.t;
  of_quote : Quote.t;
  of_image : Element.t;
  answers : ItemEnv
}.

Definition ingest `{Runtime} (config : Config.t) (b : Batch) (i : Ingest) : Batch :=
  storeItem config (by_session i) (of_quote i) (of_image i) (answers i) b.

Definition ingestAll `{Runtime} (config : Config.t) (steps : list Ingest) (b : Batch) : Batch :=
  fold_left (ingest config) steps b.

Fixpoint allStored `{Runtime} (config : Config.t) (steps : list Ingest) (b : Batch) : Prop :=
  match steps with
  | [] => True
  | i :: rest =>
      stored config (by_session i) (of_quote i) (of_image i) (answers i) b
      /\ allStored config rest (ingest config b i)
  end.

Definition createdAtOf (i : Ingest) : Z := createClock (answers i).

(** The clock advances from one ingest to the next, past every record the
    channel already holds. *)
Definition clockAdvances (channelId : string) (w : World) (steps : list Ingest) : Prop :=
  StronglySorted Z.lt (map createdAtOf steps) /\
  Forall (fun i => laterThanAll (createdAtOf i) (dbSelect channelId w)) steps.

Definition contentOf (env : ItemEnv) : Buffer :=
  match response env with
  | Ok content => content
  | Throw _ => []
  end.

(** The rows a sequence of stored ingests creates, from id [n] on. *)
Fixpoint created `{Runtime} (steps : list Ingest) (n : nat) : list StickerRecord.t :=
  match steps with
  | [] => []
  | i :: rest =>
      recordOf (by_session i) (of_quote i) (contentOf (answers i)) (answers i) n
      :: created rest (S n)
  end.

(** Six ingests of distinct contents into channel g1, one millisecond
    apart. *)
Definition sampleIngests : list Ingest :=
  map (fun e => {| by_session := groupSession "g1" []; of_quote := sampleQuote;
                   of_image := sampleImg; answers := e |}) sampleSteps.

(** The blob loop of [clearAlbum]. *)
Definition unlinkAll (records : list StickerRecord.t) (w : World) : World :=
  fold_left (fun acc record => unlinkIfExists (StickerRecord.filePath record) acc) records w.

(** A world with two stickers in g1 and one in g2, and a session of an
    administrator of g1. *)
Definition sampleWorld : World :=
  world (@ingestAll sampleRuntime defaultConfig
           [ {| by_session := groupSession "g1" ["admin"]; of_quote := sampleQuote;
                of_image := sampleImg; answers := arrives (pngBytes x01) t0 quiet |};
             {| by_session := groupSession "g2" []; of_quote := sampleQuote;
                of_image := sampleImg; answers := arrives (pngBytes x01) (t0 + 1) quiet |};
             {| by_session := groupSession "g1" ["admin"]; of_quote := sampleQuote;
                of_image := sampleImg; answers := arrives (gifBytes x02) (t0 + 2) quiet |} ]
           (startBatch emptyWorld)).

(** " 确认\n" *)
Definition paddedConfirm : JsString := [0x20; 0x786E; 0x8BA4; 0xA]%N.

(** The lines of a delivery as a file, and of a delivery that fell back to
    an image, for animated and static content. *)
Definition fileLine (isGif : bool) (fileName : string) : string :=
  if isGif then "🎞️ GIF 已转为文件: " ++ fileName else "📁 图片已转为文件: " ++ fileName.

Definition degradedLine (isGif : bool) : string :=
  if isGif then "🎞️ GIF 已转换（作为图片发送）" else "🖼️ 图片已转换".

Definition isFailureLine (line : string) : bool := String.prefix "❌" line.

(** [w'] comes after [w]: the counter did not go back, and every row of
    [w'] is a row of [w] or has an id the counter of [w] had not reached. *)
Definition grows (w w' : World) : Prop :=
  (nextId w <= nextId w')%nat /\
  forall r, r ∈ rows w' -> r ∈ rows w \/ (nextId w <= StickerRecord.id r)%nat.

(** The bytes a payload carries, when it carries bytes. *)
Definition payloadBytes (p : Payload) : option Buffer :=
  match p with
  | Image data _ | TempFile data _ => Some data
  | File _ _ | Text _ => None
  end.

(** At most one row for a channel and a hash. *)
Definition uniqueKeys (w : World) : Prop :=
  forall channelId md5, (length (dbGet channelId md5 w) <= 1)%nat.

(** ** Vocabulary of the further properties *)

(** The registered commands with an index argument (lines 943-953):
    [!index] answers before the function runs. *)
Definition missingIndexLine : string := "请指定表情编号".

Definition cmdSendEmoji (config : Config.t) (session : Session.t) (index : option Z)
    (tr : Transport) (w : World) : Result (string * list Payload) :=
  if missing index then Ok (missingIndexLine, [])
  else sendEmoji config session (default 0%Z index) tr w.

Definition cmdDeleteEmoji (config : Config.t) (session : Session.t) (index : option Z)
    (w : World) : World * string :=
  if missing index then (w, missingIndexLine)
  else deleteEmoji config session (default 0%Z index) w.

(** No channel holds more records than the bound. *)
Definition withinCapacity (config : Config.t) (w : World) : Prop :=
  forall channelId,
    (Z.of_nat (length (dbSelect channelId w)) <= Config.albumMaxSize config)%Z.

(** A file name without a path separator. *)
Fixpoint noSeparator (s : string) : bool :=
  match s with
  | EmptyString => true
  | String c rest => negb (isSeparator c) && noSeparator rest
  end.

(** The delivery of the item fails: the image send throws, and so does
    the file send when the kind is configured for files. *)
Definition deliveryDown (config : Config.t) (isGif : bool) (tr : Transport) : Prop :=
  imageSend tr <> None /\ (modeFor config isGif = Config.file -> fileSend tr <> None).

(** The mime type [sendEmoji] gives to the image it sends for a record. *)
Definition resendMime (r : StickerRecord.t) : string :=
  if StickerRecord.isGif r then "image/gif" else StickerRecord.mime r.

Definition resendFallbackLine (r : StickerRecord.t) : string :=
  if StickerRecord.isGif r
  then "🎞️ 已发送 GIF（作为图片）: " ++ StickerRecord.fileName r
  else "🖼️ 已发送图片: " ++ StickerRecord.fileName r.

(** The reply is the confirmation word between white space. *)
Definition paddedWord (s : JsString) : Prop :=
  exists pre post,
    Forall (fun c => isTrimmed c = true) pre /\
    Forall (fun c => isTrimmed c = true) post /\
    s = (pre ++ confirmWord ++ post)%list.

(** The channel a command is issued in. *)
Definition commandChannel (c : Command) : string :=
  match c with
  | CmdConvertOnly session _ | CmdConvert session _ | CmdView session _
  | CmdSend session _ _ | CmdDelete session _ | CmdClear session _ =>
      Session.channelId session
  end.
(** * Part 2: properties *)

(** ** Fingerprinting *)

Lemma byteOfHex_hexOfByte (b : byte) : byteOfHex (hexOfByte b) = Some b.
Proof. destruct b; vm_compute; reflexivity. Qed.

Lemma hexOfByte_inj (a b : byte) : hexOfByte a = hexOfByte b -> a = b.
Proof.
  intros E. apply (f_equal byteOfHex) in E.
  rewrite !byteOfHex_hexOfByte in E. congruence.
Qed.

Lemma to_N_inj (a b : byte) : Byte.to_N a = Byte.to_N b -> a = b.
Proof.
  intros E. apply (f_equal Byte.of_N) in E. rewrite !Byte.of_to_N in E. congruence.
Qed.

Lemma append_cons (c : ascii) (s t : string) : String c s ++ t = String c (s ++ t).
Proof. reflexivity. Qed.

Lemma append_empty (t : string) : EmptyString ++ t = t.
Proof. reflexivity. Qed.

Lemma prefix_hexString (pre buffer : Buffer) :
  String.prefix (hexString pre) (hexString buffer) = startsWith pre buffer.
Proof.
  revert buffer. induction pre as [|p pre IH]; intros [|b buffer]; try reflexivity.
  cbn [hexString fold_right startsWith]. fold (hexString pre). fold (hexString buffer).
  unfold hexOfByte at 1 2. rewrite !append_cons, !append_empty. cbn [String.prefix].
  case_bool_decide as E.
  - apply to_N_inj in E. subst b.
    destruct (ascii_dec _ _); [|congruence]. destruct (ascii_dec _ _); [|congruence].
    apply IH.
  - destruct (ascii_dec _ _) as [E1|]; [|reflexivity].
    destruct (ascii_dec _ _) as [E2|]; [|reflexivity].
    exfalso. apply E. f_equal. apply hexOfByte_inj. unfold hexOfByte. congruence.
Qed.

Lemma hexString_take4 (buffer : Buffer) : toStringHex buffer 0 4 = hexString (take 4 buffer).
Proof. reflexivity. Qed.

Lemma startsWith_take (pre buffer : Buffer) (n : nat) :
  (length pre <= n)%nat -> startsWith pre (take n buffer) = startsWith pre buffer.
Proof.
  revert buffer n. induction pre as [|p pre IH]; intros buffer n Hn; [reflexivity|].
  destruct n as [|n]; [simpl in Hn; lia|]. destruct buffer as [|b buffer]; [reflexivity|].
  simpl. f_equal. apply IH. simpl in Hn. lia.
Qed.

Lemma asciiOfByte_eq (b : byte) (c : ascii) :
  asciiOfByte b = c <-> N.land (Byte.to_N b) 127 = N_of_ascii c.
Proof.
  unfold asciiOfByte. split; intros E.
  - rewrite <- E. rewrite N_ascii_embedding; [reflexivity|].
    apply N.le_lt_trans with 127%N; [|reflexivity].
    apply N.ldiff_le, N.bits_inj_iff. intros k.
    rewrite N.ldiff_spec, N.land_spec, N.bits_0.
    destruct (N.testbit (Byte.to_N b) k), (N.testbit 127 k); reflexivity.
  - rewrite E. apply ascii_N_embedding.
Qed.

Lemma riff_test (buffer : Buffer) :
  String.eqb (toStringAscii buffer 0 4) "RIFF" = riffUpToHighBit buffer.
Proof.
  unfold toStringAscii, bufSlice, riffUpToHighBit. rewrite drop_0. cbn [Nat.sub].
  apply eq_true_iff_eq. rewrite String.eqb_eq, bool_decide_eq_true.
  generalize (take 4 buffer). intros l4.
  destruct l4 as [|a [|b [|c [|d [|e l]]]]]; cbn; split; intros E;
    try discriminate E.
  - injection E as E1 E2 E3 E4.
    apply asciiOfByte_eq in E1, E2, E3, E4. rewrite E1, E2, E3, E4. reflexivity.
  - injection E as E1 E2 E3 E4.
    f_equal; [|f_equal; [|f_equal; [|f_equal]]]; apply asciiOfByte_eq; assumption.
Qed.

(** [detectMime] in terms of bytes. *)
Lemma detectMime_bytes (buffer : Buffer) :
  detectMime buffer =
    if (4 <=? length buffer)%nat then
      if startsWith pngMagic buffer then "image/png"
      else if startsWith jpegMagic buffer then "image/jpeg"
      else if startsWith gifMagic buffer then "image/gif"
      else if riffUpToHighBit buffer then "image/webp"
      else "image/unknown"
    else "image/unknown".
Proof.
  unfold detectMime. rewrite hexString_take4, riff_test.
  change "89504e47" with (hexString pngMagic).
  change "ffd8ff" with (hexString jpegMagic).
  change "47494638" with (hexString gifMagic).
  rewrite !prefix_hexString.
  rewrite !startsWith_take by (simpl; lia). reflexivity.
Qed.

Lemma detectMime_png (buffer : Buffer) :
  detectMime buffer = "image/png" <-> exists rest, buffer = (pngMagic ++ rest)%list.
Proof.
  rewrite detectMime_bytes. split.
  - destruct buffer as [|a [|b [|c [|d rest]]]]; try discriminate.
    cbn [length Nat.leb startsWith pngMagic].
    repeat case_bool_decide; cbn [andb]; try discriminate;
      try (repeat match goal with |- context [if ?x then _ else _] => destruct x end;
           discriminate).
    intros _. exists rest.
    repeat match goal with H : Byte.to_N _ = Byte.to_N _ |- _ => apply to_N_inj in H end.
    subst. reflexivity.
  - intros [rest ->]. reflexivity.
Qed.

Lemma detectMime_gif (buffer : Buffer) :
  detectMime buffer = "image/gif" <-> exists rest, buffer = (gifMagic ++ rest)%list.
Proof.
  rewrite detectMime_bytes. split.
  - destruct buffer as [|a [|b [|c [|d rest]]]]; try discriminate.
    cbn [length Nat.leb].
    destruct (startsWith pngMagic _); [discriminate|].
    destruct (startsWith jpegMagic _); [discriminate|].
    cbn [startsWith gifMagic].
    repeat case_bool_decide; cbn [andb];
      try (repeat match goal with |- context [if ?x then _ else _] => destruct x end;
           discriminate).
    intros _. exists rest.
    repeat match goal with H : Byte.to_N _ = Byte.to_N _ |- _ => apply to_N_inj in H end.
    subst. reflexivity.
  - intros [rest ->]. reflexivity.
Qed.

Lemma detectMime_jpeg (buffer : Buffer) :
  detectMime buffer = "image/jpeg" <-> exists b rest, buffer = (jpegMagic ++ b :: rest)%list.
Proof.
  rewrite detectMime_bytes. split.
  - destruct buffer as [|a [|b [|c [|d rest]]]]; try discriminate.
    cbn [length Nat.leb].
    destruct (startsWith pngMagic _); [discriminate|].
    cbn [startsWith jpegMagic].
    repeat case_bool_decide; cbn [andb];
      try (repeat match goal with |- context [if ?x then _ else _] => destruct x end;
           discriminate).
    intros _. exists d, rest.
    repeat match goal with H : Byte.to_N _ = Byte.to_N _ |- _ => apply to_N_inj in H end.
    subst. reflexivity.
  - intros (b & rest & ->). reflexivity.
Qed.

(** [image/webp] is what the four bytes give when they spell RIFF once the
    high bit of each is cleared; a buffer that starts with RIFF is one
    such buffer, and not the only one. *)
Lemma detectMime_webp (buffer : Buffer) :
  detectMime buffer = "image/webp" <->
  (4 <= length buffer)%nat /\ riffUpToHighBit buffer = true.
Proof.
  rewrite detectMime_bytes. split.
  - destruct (4 <=? length buffer)%nat eqn:L; [|discriminate].
    apply Nat.leb_le in L.
    destruct (startsWith pngMagic buffer); [discriminate|].
    destruct (startsWith jpegMagic buffer); [discriminate|].
    destruct (startsWith gifMagic buffer); [discriminate|].
    destruct (riffUpToHighBit buffer); [auto|discriminate].
  - intros [L R]. apply Nat.leb_le in L. rewrite L, R.
    destruct buffer as [|a [|b [|c [|d rest]]]]; try discriminate.
    unfold riffUpToHighBit in R. apply bool_decide_eq_true in R. cbn in R.
    assert (Ra : N.land (Byte.to_N a) 127 = 82%N) by congruence.
    assert (Byte.to_N a <> 137%N /\ Byte.to_N a <> 255%N /\ Byte.to_N a <> 71%N) as (N1 & N2 & N3).
    { repeat split; intros E; rewrite E in Ra; discriminate Ra. }
    cbn [startsWith pngMagic jpegMagic gifMagic].
    rewrite !(bool_decide_eq_false_2 (_ = Byte.to_N a)) by (cbn; congruence).
    reflexivity.
Qed.

Lemma startsWith_riff (buffer : Buffer) :
  startsWith riffMagic buffer = true -> riffUpToHighBit buffer = true.
Proof.
  destruct buffer as [|a [|b [|c [|d rest]]]]; cbn [startsWith riffMagic];
    rewrite ?andb_true_iff, ?bool_decide_eq_true; try (intros; intuition discriminate).
  intros (Ea & Eb & Ec & Ed & _).
  unfold riffUpToHighBit. apply bool_decide_eq_true. cbn [take map].
  rewrite <- Ea, <- Eb, <- Ec, <- Ed. reflexivity.
Qed.


(** The download step fails only when the fetch does: detection is total. *)
Lemma downloadImage_total (buffer : Buffer) :
  downloadImage (Ok buffer) =
    Ok {| dl_buffer := buffer; dl_mime := detectMime buffer; dl_size := length buffer |}.
Proof. reflexivity. Qed.

(** C7, at an input where the detection is not the byte test: a buffer whose first four bytes are
    D2 C9 C6 C6 does not carry the RIFF marker, yet the detection answers
    image/webp with extension webp, because the ['ascii'] decoding clears
    the high bit of every byte before the comparison with "RIFF". *)
Theorem detectMime_high_bit_riff (rt : Runtime) :
  startsWith riffMagic [xd2; xc9; xc6; xc6] = false /\
  detectMime [xd2; xc9; xc6; xc6] = "image/webp" /\
  fp_ext (fingerprint {| dl_buffer := [xd2; xc9; xc6; xc6];
                         dl_mime := detectMime [xd2; xc9; xc6; xc6];
                         dl_size := 4 |}) = "webp".
Proof. split; [|split]; reflexivity. Qed.

(** ** The permission gate *)

Lemma checkUserPermission_range (session : Session.t) :
  (1 <= checkUserPermission session <= 4)%Z.
Proof.
  unfold checkUserPermission.
  destruct (Session.isDirect session), (Session.author session); try lia.
  repeat match goal with |- context [if ?x then _ else _] => destruct x end; lia.
Qed.

Lemma deleteEmoji_denied (config : Config.t) (session : Session.t) (index : Z) (w : World) :
  isAlbumEnabledForGroup config (Session.channelId session) = true ->
  (deleteEmoji config session index w = (w, deleteDeniedLine config) <->
   hasDeletePermission config session = false).
Proof.
  intros En. unfold deleteEmoji. rewrite En. cbn [negb].
  destruct (hasDeletePermission config session); cbn [negb]; [|tauto].
  split; [|discriminate]. intros E. exfalso. revert E.
  destruct (outOfRange _ _); [|destruct (jsIndex _ _)]; discriminate.
Qed.

Lemma clearAlbum_denied (config : Config.t) (session : Session.t) (env : ClearEnv) (w : World) :
  isAlbumEnabledForGroup config (Session.channelId session) = true ->
  (clearAlbum config session env w = (w, Ok (clearDeniedLine config)) <->
   hasDeletePermission config session = false).
Proof.
  intros En. unfold clearAlbum, clearAlbumAsk. rewrite En. cbn [negb].
  destruct (hasDeletePermission config session); cbn [negb]; [|tauto].
  split; [|discriminate]. intros E. exfalso. revert E.
  destruct (dbSelect _ w) as [|r records]; [discriminate|].
  destruct (sessionSend _ _); [|discriminate].
  unfold clearAlbumResolve. destruct (negb (confirmed _)); discriminate.
Qed.

(** C3: the level is 1 in a direct context or without an author; otherwise
    the highest of owner (4), admin (3), trusted (2) among the roles, and 1
    when none is present; and, in a channel with the album enabled, delete
    and clear are refused exactly when the level is below
    [deletePermissionLevel]. *)
Theorem permission_gate (config : Config.t) (session : Session.t)
    (index : Z) (env : ClearEnv) (w : World) :
  isAlbumEnabledForGroup config (Session.channelId session) = true ->
  let level := checkUserPermission session in
  let roles := rolesOf session in
  let group := Session.isDirect session = false /\ Session.author session <> None in
  (level = 4%Z <-> group /\ ("owner" ∈ roles)) /\
  (level = 3%Z <-> group /\ ("owner" ∉ roles) /\ ("admin" ∈ roles)) /\
  (level = 2%Z <-> group /\ ("owner" ∉ roles) /\ ("admin" ∉ roles) /\ ("trusted" ∈ roles)) /\
  (level = 1%Z <->
   ~ group \/ (("owner" ∉ roles) /\ ("admin" ∉ roles) /\ ("trusted" ∉ roles))) /\
  (hasDeletePermission config session = true <->
   (Config.deletePermissionLevel config <= level)%Z) /\
  (deleteEmoji config session index w = (w, deleteDeniedLine config) <->
   (level < Config.deletePermissionLevel config)%Z) /\
  (clearAlbum config session env w = (w, Ok (clearDeniedLine config)) <->
   (level < Config.deletePermissionLevel config)%Z).
Proof.
  intros En level roles group.
  assert (G : hasDeletePermission config session = true <->
              (Config.deletePermissionLevel config <= level)%Z).
  { unfold hasDeletePermission. apply Z.leb_le. }
  assert (G' : hasDeletePermission config session = false <->
               (level < Config.deletePermissionLevel config)%Z).
  { unfold hasDeletePermission. apply Z.leb_gt. }
  assert (L : level = if Session.isDirect session then 1%Z
                      else match Session.author session with
                           | None => 1%Z
                           | Some _ =>
                               if bool_decide ("owner" ∈ roles) then 4%Z
                               else if bool_decide ("admin" ∈ roles) then 3%Z
                               else if bool_decide ("trusted" ∈ roles) then 2%Z
                               else 1%Z
                           end).
  { subst level roles. unfold checkUserPermission, rolesOf, includes.
    destruct (Session.isDirect session), (Session.author session); reflexivity. }
  split; [|split; [|split; [|split; [|split; [exact G|split]]]]].
  5: { rewrite <- G'. apply deleteEmoji_denied, En. }
  5: { rewrite <- G'. apply clearAlbum_denied, En. }
  all: rewrite L; subst group; clear L G G';
    destruct (Session.isDirect session), (Session.author session) as [a|];
    repeat case_bool_decide;
    intuition (try discriminate; try congruence).
Qed.

Lemma permission_gate_witness :
  isAlbumEnabledForGroup defaultConfig "g1" = true /\
  checkUserPermission (groupSession "g1" ["admin"]) = 3%Z /\
  hasDeletePermission defaultConfig (groupSession "g1" ["admin"]) = true /\
  checkUserPermission directSession = 1%Z /\
  hasDeletePermission defaultConfig directSession = false.
Proof.
  split; [reflexivity|].
  pose proof (permission_gate defaultConfig (groupSession "g1" ["admin"]) 1
                {| promptSend := None; promptReply := None |} emptyWorld eq_refl) as H.
  cbv zeta in H. destruct H as (_ & H3 & _ & _ & HG & _).
  split.
  { apply H3. split; [split; [reflexivity|discriminate]|].
    change (rolesOf (groupSession "g1" ["admin"])) with ["admin"]. split.
    - intros In. apply list_elem_of_singleton in In. discriminate In.
    - apply list_elem_of_singleton. reflexivity. }
  split; [apply HG; vm_compute; discriminate|].
  split; reflexivity.
Defined.

(** ** Rows: filtering and ordering *)

Lemma filter_filter_comm {A : Type} (p q : A -> bool) (l : list A) :
  List.filter p (List.filter q l) = List.filter q (List.filter p l).
Proof.
  induction l as [|x l IH]; [reflexivity|]. simpl.
  destruct (p x) eqn:P, (q x) eqn:Q; simpl; rewrite ?P, ?Q, IH; reflexivity.
Qed.

Lemma filter_filter_and {A : Type} (p q : A -> bool) (l : list A) :
  List.filter p (List.filter q l) = List.filter (fun x => q x && p x) l.
Proof.
  induction l as [|x l IH]; [reflexivity|]. simpl.
  destruct (q x) eqn:Q; simpl; destruct (p x); simpl; rewrite IH; reflexivity.
Qed.

Lemma filter_all {A : Type} (p : A -> bool) (l : list A) :
  Forall (fun x => p x = true) l -> List.filter p l = l.
Proof.
  induction 1 as [|x l Hx _ IH]; [reflexivity|]. simpl. rewrite Hx, IH. reflexivity.
Qed.

Lemma filter_none {A : Type} (p : A -> bool) (l : list A) :
  Forall (fun x => p x = false) l -> List.filter p l = [].
Proof.
  induction 1 as [|x l Hx _ IH]; [reflexivity|]. simpl. rewrite Hx, IH. reflexivity.
Qed.

Lemma filter_ext_Forall {A : Type} (p q : A -> bool) (l : list A) :
  Forall (fun x => p x = q x) l -> List.filter p l = List.filter q l.
Proof.
  induction 1 as [|x l Hx _ IH]; [reflexivity|]. simpl. rewrite Hx, IH. reflexivity.
Qed.

Lemma elem_of_filter_bool {A : Type} (p : A -> bool) (l : list A) (x : A) :
  x ∈ List.filter p l <-> x ∈ l /\ p x = true.
Proof. rewrite !list_elem_of_In, filter_In. tauto. Qed.

Lemma insertDesc_perm (r : StickerRecord.t) (l : list StickerRecord.t) :
  insertDesc r l ≡ₚ r :: l.
Proof.
  induction l as [|x l IH]; [reflexivity|]. simpl.
  destruct (_ <? _)%Z; [|reflexivity]. rewrite IH. apply Permutation_swap.
Qed.

Lemma orderBy_perm (l : list StickerRecord.t) : orderByCreatedAtDesc l ≡ₚ l.
Proof.
  induction l as [|x l IH]; [reflexivity|]. simpl.
  rewrite insertDesc_perm, IH. reflexivity.
Qed.

Lemma orderBy_length (l : list StickerRecord.t) :
  length (orderByCreatedAtDesc l) = length l.
Proof. apply Permutation_length, orderBy_perm. Qed.

Lemma orderBy_elem (l : list StickerRecord.t) (r : StickerRecord.t) :
  r ∈ orderByCreatedAtDesc l <-> r ∈ l.
Proof. rewrite (orderBy_perm l). reflexivity. Qed.

Lemma insertDesc_first (r : StickerRecord.t) (l : list StickerRecord.t) :
  Forall (fun x => (StickerRecord.createdAt x <= StickerRecord.createdAt r)%Z) l ->
  insertDesc r l = r :: l.
Proof.
  intros H. destruct H as [|x l Hx _]; [reflexivity|]. simpl.
  apply Z.ltb_ge in Hx. rewrite Hx. reflexivity.
Qed.

Lemma insertDesc_sorted (r : StickerRecord.t) (l : list StickerRecord.t) :
  StronglySorted newerFirst l -> StronglySorted newerFirst (insertDesc r l).
Proof.
  induction 1 as [|x l Hl IH Hx]; simpl; [repeat constructor|].
  destruct (_ <? _)%Z eqn:C.
  - apply Z.ltb_lt in C. constructor; [exact IH|].
    rewrite (insertDesc_perm r l). constructor; [unfold newerFirst; lia|exact Hx].
  - apply Z.ltb_ge in C. constructor; [constructor; assumption|].
    constructor; [exact C|].
    eapply Forall_impl; [exact Hx|]. unfold newerFirst. intros y Hy. cbn in Hy. lia.
Qed.

Lemma orderBy_sorted (l : list StickerRecord.t) :
  StronglySorted newerFirst (orderByCreatedAtDesc l).
Proof.
  induction l as [|x l IH]; simpl; [constructor|]. apply insertDesc_sorted, IH.
Qed.

Lemma insertDesc_filter (p : StickerRecord.t -> bool) (r : StickerRecord.t)
    (l : list StickerRecord.t) :
  StronglySorted newerFirst l ->
  List.filter p (insertDesc r l) =
    if p r then insertDesc r (List.filter p l) else List.filter p l.
Proof.
  induction 1 as [|x l Hl IH Hx]; simpl.
  - destruct (p r); reflexivity.
  - destruct (_ <? _)%Z eqn:C; simpl.
    + rewrite IH. destruct (p x) eqn:Px, (p r); simpl; rewrite ?C; reflexivity.
    + destruct (p r), (p x) eqn:Px; simpl; rewrite ?C; try reflexivity.
      symmetry. apply insertDesc_first. apply Z.ltb_ge in C.
      apply List.Forall_forall. intros y Hy. apply filter_In in Hy as [Hy _].
      rewrite List.Forall_forall in Hx. specialize (Hx y Hy). unfold newerFirst in Hx. lia.
Qed.

Lemma orderBy_filter (p : StickerRecord.t -> bool) (l : list StickerRecord.t) :
  List.filter p (orderByCreatedAtDesc l) = orderByCreatedAtDesc (List.filter p l).
Proof.
  induction l as [|x l IH]; [reflexivity|]. simpl.
  rewrite insertDesc_filter by apply orderBy_sorted.
  destruct (p x); simpl; rewrite IH; reflexivity.
Qed.

Lemma insertDesc_last (r x : StickerRecord.t) (l : list StickerRecord.t) :
  (StickerRecord.createdAt r < StickerRecord.createdAt x)%Z ->
  insertDesc r (x :: l) = x :: insertDesc r l.
Proof. intros C. simpl. apply Z.ltb_lt in C. rewrite C. reflexivity. Qed.

(** A record later than all the others sorts first. *)
Lemma orderBy_snoc (l : list StickerRecord.t) (x : StickerRecord.t) :
  laterThanAll (StickerRecord.createdAt x) l ->
  orderByCreatedAtDesc (l ++ [x]) = x :: orderByCreatedAtDesc l.
Proof.
  induction 1 as [|y l Hy Hl IH]; [reflexivity|].
  cbn [app orderByCreatedAtDesc fold_right]. fold (orderByCreatedAtDesc (l ++ [x])).
  fold (orderByCreatedAtDesc l). rewrite IH. apply insertDesc_last, Hy.
Qed.

(** With a unique key, dropping the records of a suffix keeps the prefix. *)
Lemma filter_not_in_suffix (a b : list StickerRecord.t) :
  NoDup (ids (a ++ b)) ->
  List.filter (fun r => negb (idIn b r)) (a ++ b) = a.
Proof.
  intros ND. unfold ids in ND. rewrite map_app in ND.
  apply NoDup_app in ND as (_ & Hdisj & _).
  rewrite List.filter_app. rewrite (filter_all _ a), (filter_none _ b).
  - apply app_nil_r.
  - apply List.Forall_forall. intros r Hr. apply negb_false_iff, bool_decide_eq_true.
    apply list_elem_of_In in Hr. apply list_elem_of_fmap. exists r. auto.
  - apply List.Forall_forall. intros r Hr. apply negb_true_iff, bool_decide_eq_false.
    apply list_elem_of_In in Hr. apply Hdisj. apply list_elem_of_fmap. exists r. auto.
Qed.

Lemma filter_not_in_drop (k : nat) (l : list StickerRecord.t) :
  NoDup (ids l) ->
  List.filter (fun r => negb (idIn (drop k l) r)) l = take k l.
Proof.
  intros ND. rewrite <- (take_drop k l) in ND.
  pose proof (filter_not_in_suffix _ _ ND) as H. rewrite take_drop in H. exact H.
Qed.

(** ** The world under the store and file operations *)

Lemma files_unlinkIfExists (path : string) (w : World) :
  files (unlinkIfExists path w) = delete path (files w).
Proof.
  unfold unlinkIfExists, existsSync. case_bool_decide as E; [reflexivity|].
  symmetry. apply delete_id. destruct (files w !! path) eqn:L; [|reflexivity].
  exfalso. apply E. eauto.
Qed.

Lemma rows_unlinkIfExists (path : string) (w : World) :
  rows (unlinkIfExists path w) = rows w.
Proof. unfold unlinkIfExists. destruct (existsSync path w); reflexivity. Qed.

Lemma nextId_unlinkIfExists (path : string) (w : World) :
  nextId (unlinkIfExists path w) = nextId w.
Proof. unfold unlinkIfExists. destruct (existsSync path w); reflexivity. Qed.

Lemma rows_evict (l : list StickerRecord.t) (w : World) :
  rows (fold_left evictRecord l w) = List.filter (fun r => negb (idIn l r)) (rows w).
Proof.
  revert w. induction l as [|x l IH]; intros w.
  - simpl. symmetry. apply filter_all, List.Forall_forall. intros r _. reflexivity.
  - cbn [fold_left]. rewrite IH. unfold evictRecord. cbn [rows dbRemoveId].
    rewrite rows_unlinkIfExists, filter_filter_and. apply filter_ext_Forall, List.Forall_forall.
    intros r _. unfold idIn, ids. cbn [map].
    destruct (Nat.eqb_spec (StickerRecord.id r) (StickerRecord.id x)) as [E|NE]; cbn [negb andb].
    + symmetry. apply negb_false_iff, bool_decide_eq_true. rewrite E. apply list_elem_of_here.
    + f_equal. apply bool_decide_ext. rewrite elem_of_cons. tauto.
Qed.

Lemma nextId_evict (l : list StickerRecord.t) (w : World) :
  nextId (fold_left evictRecord l w) = nextId w.
Proof.
  revert w. induction l as [|x l IH]; intros w; [reflexivity|].
  cbn [fold_left]. rewrite IH. unfold evictRecord. cbn [nextId dbRemoveId].
  apply nextId_unlinkIfExists.
Qed.

Lemma files_evict (l : list StickerRecord.t) (w : World) (path : string) :
  files (fold_left evictRecord l w) !! path =
    if bool_decide (path ∈ map StickerRecord.filePath l) then None else files w !! path.
Proof.
  revert w. induction l as [|x l IH]; intros w.
  - reflexivity.
  - cbn [fold_left map]. rewrite IH. unfold evictRecord. cbn [files dbRemoveId].
    rewrite files_unlinkIfExists.
    destruct (decide (path = StickerRecord.filePath x)) as [->|NE].
    + rewrite lookup_delete_eq. rewrite (bool_decide_eq_true_2 (_ ∈ _ :: _)) by apply list_elem_of_here.
      destruct (bool_decide _); reflexivity.
    + rewrite lookup_delete_ne by congruence.
      apply (f_equal (fun b : bool => if b then None else files w !! path)).
      apply bool_decide_ext. rewrite elem_of_cons. tauto.
Qed.

Lemma checkAndCleanAlbum_evicted (config : Config.t) (channelId : string) (w : World) :
  checkAndCleanAlbum config channelId w = fold_left evictRecord (evicted config channelId w) w.
Proof.
  unfold checkAndCleanAlbum, evicted. destruct (_ <=? _)%Z; reflexivity.
Qed.

Lemma evicted_in_channel (config : Config.t) (channelId : string) (w : World) (r : StickerRecord.t) :
  r ∈ evicted config channelId w -> r ∈ rows w /\ inChannel channelId r = true.
Proof.
  unfold evicted. destruct (_ <=? _)%Z; [|intros H; apply elem_of_nil in H; tauto].
  intros H. apply elem_of_filter_bool. unfold dbSelect in H.
  apply orderBy_elem. unfold jsSliceFrom in H.
  destruct (_ <? 0)%Z; (eapply elem_of_sublist; [exact H|apply sublist_drop]).
Qed.

Lemma ids_filter_NoDup (p : StickerRecord.t -> bool) (l : list StickerRecord.t) :
  NoDup (ids l) -> NoDup (ids (List.filter p l)).
Proof.
  induction l as [|x l IH]; [auto|]. cbn. intros ND. apply NoDup_cons in ND as [Hx ND].
  destruct (p x); [|auto]. cbn. apply NoDup_cons. split; [|auto].
  intros Hin. apply Hx. apply list_elem_of_fmap in Hin as (y & E & Hy).
  apply elem_of_filter_bool in Hy as [Hy _]. apply list_elem_of_fmap. eauto.
Qed.

Lemma wf_filter (p : StickerRecord.t -> bool) (w w' : World) :
  rows w' = List.filter p (rows w) -> nextId w' = nextId w -> wfWorld w -> wfWorld w'.
Proof.
  intros R N [ND LT]. split; rewrite R.
  - apply ids_filter_NoDup, ND.
  - rewrite N. apply List.Forall_forall. intros r Hr. apply filter_In in Hr as [Hr _].
    rewrite List.Forall_forall in LT. auto.
Qed.

Lemma wf_files (w w' : World) :
  rows w' = rows w -> nextId w' = nextId w -> wfWorld w -> wfWorld w'.
Proof. intros R N [ND LT]. split; rewrite R, ?N; assumption. Qed.

Lemma wf_dbCreate (row : NewRow) (w : World) :
  (forall id, StickerRecord.id (row id) = id) -> wfWorld w -> wfWorld (dbCreate row w).
Proof.
  intros Hid [ND LT]. split; cbn [rows nextId dbCreate].
  - unfold ids. rewrite map_app. cbn [map]. rewrite Hid. apply NoDup_app. repeat split.
    + exact ND.
    + intros x Hx Hx'. apply list_elem_of_singleton in Hx'. subst x.
      apply list_elem_of_fmap in Hx as (r & E & Hr). rewrite List.Forall_forall in LT.
      apply list_elem_of_In in Hr. specialize (LT r Hr). cbn in LT. lia.
    + apply NoDup_singleton.
  - apply Forall_app. split.
    + eapply Forall_impl; [exact LT|]. intros r Hr. cbn in Hr. lia.
    + constructor; [rewrite Hid; lia|constructor].
Qed.

Lemma wf_evict (l : list StickerRecord.t) (w : World) :
  wfWorld w -> wfWorld (fold_left evictRecord l w).
Proof. apply wf_filter with (p := fun r => negb (idIn l r)); [apply rows_evict|apply nextId_evict]. Qed.

Lemma wf_checkAndCleanAlbum (config : Config.t) (channelId : string) (w : World) :
  wfWorld w -> wfWorld (checkAndCleanAlbum config channelId w).
Proof. rewrite checkAndCleanAlbum_evicted. apply wf_evict. Qed.

Lemma wf_emptyWorld : wfWorld emptyWorld.
Proof. split; cbn; constructor. Qed.

Lemma ids_inj (l : list StickerRecord.t) (x y : StickerRecord.t) :
  NoDup (ids l) -> x ∈ l -> y ∈ l -> StickerRecord.id x = StickerRecord.id y -> x = y.
Proof.
  induction l as [|z l IH]; intros ND Hx Hy E; [apply elem_of_nil in Hx; tauto|].
  cbn in ND. apply NoDup_cons in ND as [Hz ND].
  apply elem_of_cons in Hx as [->|Hx], Hy as [->|Hy]; auto.
  - exfalso. apply Hz. rewrite E. apply list_elem_of_fmap. eauto.
  - exfalso. apply Hz. rewrite <- E. apply list_elem_of_fmap. eauto.
Qed.

Lemma ids_perm_NoDup (l l' : list StickerRecord.t) :
  l ≡ₚ l' -> NoDup (ids l') -> NoDup (ids l).
Proof. intros P. unfold ids. rewrite P. auto. Qed.

Lemma newestFirst_NoDup (channelId : string) (w : World) :
  wfWorld w -> NoDup (ids (newestFirst channelId w)).
Proof.
  intros [ND _]. unfold newestFirst. eapply ids_perm_NoDup; [apply orderBy_perm|].
  apply ids_filter_NoDup, ND.
Qed.

Lemma newestFirst_length (channelId : string) (w : World) :
  length (newestFirst channelId w) = length (dbSelect channelId w).
Proof. apply orderBy_length. Qed.

Lemma newestFirst_elem (channelId : string) (w : World) (r : StickerRecord.t) :
  r ∈ newestFirst channelId w <-> r ∈ rows w /\ inChannel channelId r = true.
Proof. unfold newestFirst, dbSelect. rewrite orderBy_elem. apply elem_of_filter_bool. Qed.

(** What the eviction leaves in the channel: nothing changes below the
    bound; at or above it the [albumMaxSize - 1] newest records stay. *)
Lemma newestFirst_checkAndCleanAlbum (config : Config.t) (channelId : string) (w : World) :
  wfWorld w -> (1 <= Config.albumMaxSize config)%Z ->
  newestFirst channelId (checkAndCleanAlbum config channelId w) =
    if (Config.albumMaxSize config <=? Z.of_nat (length (newestFirst channelId w)))%Z
    then take (Z.to_nat (Config.albumMaxSize config - 1)) (newestFirst channelId w)
    else newestFirst channelId w.
Proof.
  intros WF M. rewrite checkAndCleanAlbum_evicted.
  unfold newestFirst at 1. unfold dbSelect. rewrite rows_evict, filter_filter_comm.
  rewrite <- orderBy_filter. fold (dbSelect channelId w). fold (newestFirst channelId w).
  unfold evicted. fold (newestFirst channelId w).
  destruct (_ <=? _)%Z.
  - unfold jsSliceFrom. rewrite (proj2 (Z.ltb_ge _ _)) by lia.
    apply filter_not_in_drop, newestFirst_NoDup, WF.
  - apply filter_all, List.Forall_forall. intros r _. reflexivity.
Qed.

(** The eviction in one channel keeps the rows of every other channel. *)
Lemma filter_checkAndCleanAlbum (config : Config.t) (channelId : string) (w : World)
    (q : StickerRecord.t -> bool) :
  wfWorld w ->
  (forall r, q r = true -> inChannel channelId r = false) ->
  List.filter q (rows (checkAndCleanAlbum config channelId w)) = List.filter q (rows w).
Proof.
  intros [ND _] Hq. rewrite checkAndCleanAlbum_evicted, rows_evict, filter_filter_and.
  apply filter_ext_Forall, List.Forall_forall. intros r Hr.
  destruct (q r) eqn:Q; [|apply andb_false_r]. rewrite andb_true_r.
  apply negb_true_iff, bool_decide_eq_false. intros Hin.
  apply list_elem_of_fmap in Hin as (x & E & Hx).
  apply evicted_in_channel in Hx as [Hx Cx].
  apply list_elem_of_In in Hr.
  assert (r = x) as -> by (eapply ids_inj; eauto).
  rewrite (Hq x Q) in Cx. discriminate Cx.
Qed.

Lemma rows_checkAndCleanAlbum_elem (config : Config.t) (channelId : string) (w : World)
    (r : StickerRecord.t) :
  r ∈ rows (checkAndCleanAlbum config channelId w) -> r ∈ rows w.
Proof.
  rewrite checkAndCleanAlbum_evicted, rows_evict. intros H.
  apply elem_of_filter_bool in H. tauto.
Qed.

Lemma nextId_checkAndCleanAlbum (config : Config.t) (channelId : string) (w : World) :
  nextId (checkAndCleanAlbum config channelId w) = nextId w.
Proof. rewrite checkAndCleanAlbum_evicted. apply nextId_evict. Qed.

Lemma dbGet_checkAndCleanAlbum (config : Config.t) (channelId ch md5 : string) (w : World) :
  dbGet ch md5 w = [] -> dbGet ch md5 (checkAndCleanAlbum config channelId w) = [].
Proof.
  unfold dbGet. rewrite checkAndCleanAlbum_evicted, rows_evict, filter_filter_comm.
  intros ->. reflexivity.
Qed.

(** ** One iteration of the storing loop *)

(** The opening of an iteration whose URL is good and whose download gave
    a buffer: the tests pass and the fingerprint is computed. *)
Ltac open_item U R :=
  rewrite U, R;
  cbn [negb downloadImage tryCatch bind fingerprint dl_buffer dl_mime dl_size
         fp_md5 fp_mime fp_ext fp_isGif fp_size].

Lemma storeItem_stored_inv `{Runtime} (config : Config.t) (session : Session.t)
    (quote : Quote.t) (img : Element.t) (env : ItemEnv) (b : Batch) :
  stored config session quote img env b ->
  exists content line payload,
    truthy (imageUrl img) = true /\
    response env = Ok content /\
    dbGet (Session.channelId session) (md5hex content) (world b) = [] /\
    deliver config (transport env) content (detectMime content)
      (String.eqb (detectMime content) "image/gif")
      (basename (blobPath content (saveClock env)))
      (Some (blobPath content (saveClock env))) false = Ok (line, payload) /\
    storeItem config session quote img env b =
      storedBatch config session quote content env line payload b.
Proof.
  unfold stored, storeItem.
  destruct (truthy (imageUrl img)); cbn [negb]; [|cbn; lia].
  destruct (response env) as [content|message]; cbn [downloadImage tryCatch bind]; [|cbn; lia].
  cbn [fingerprint dl_buffer dl_mime dl_size fp_md5 fp_mime fp_ext fp_isGif fp_size].
  destruct (dbGet _ _ _) as [|existing0 rest] eqn:G; [|cbn; lia].
  cbn [saveFile]. fold (blobPath content (saveClock env)).
  destruct (deliver _ _ _ _ _ _ _ _) as [[line payload]|message] eqn:D; [|cbn; lia].
  intros _. exists content, line, payload. repeat split; first [reflexivity|assumption].
Qed.

Lemma dbGet_storedBatch `{Runtime} (config : Config.t) (session : Session.t) (quote : Quote.t)
    (content : Buffer) (env : ItemEnv) (line : string) (payload : Payload) (b : Batch) :
  dbGet (Session.channelId session) (md5hex content) (world b) = [] ->
  dbGet (Session.channelId session) (md5hex content)
    (world (storedBatch config session quote content env line payload b)) =
  [recordOf session quote content env (nextId (world b))].
Proof.
  intros G. unfold dbGet. cbn [world storedBatch rows dbCreate writeFile nextId].
  rewrite List.filter_app, nextId_checkAndCleanAlbum.
  fold (dbGet (Session.channelId session) (md5hex content)
          (checkAndCleanAlbum config (Session.channelId session) (world b))).
  rewrite dbGet_checkAndCleanAlbum by exact G.
  cbn [List.filter app]. unfold inChannel.
  cbn [recordOf StickerRecord.channelId StickerRecord.md5]. rewrite !String.eqb_refl.
  reflexivity.
Qed.

(** ** Deduplication *)

(** C1: when a content has just been stored in a channel, a second ingest
    of the same bytes into that channel (in the same batch or in a later
    one over the same world) finds the one record of the first ingest,
    leaves the world as it is (no blob, no row), reports the id of that
    record on a line that is not a failure line, and is not counted as a
    success; the channel holds exactly one record for the hash. *)
Theorem dedup_second_ingest `{Runtime} (config : Config.t) (s1 s2 : Session.t)
    (q1 q2 : Quote.t) (img1 img2 : Element.t) (env1 env2 : ItemEnv) (content : Buffer)
    (b again : Batch) :
  Session.channelId s2 = Session.channelId s1 ->
  response env1 = Ok content ->
  response env2 = Ok content ->
  truthy (imageUrl img2) = true ->
  stored config s1 q1 img1 env1 b ->
  world again = world (storeItem config s1 q1 img1 env1 b) ->
  let first := recordOf s1 q1 content env1 (nextId (world b)) in
  let b2 := storeItem config s2 q2 img2 env2 again in
  dbGet (Session.channelId s1) (md5hex content) (world again) = [first] /\
  b2 = pushLine (existsLine (StickerRecord.id first)) again /\
  world b2 = world again /\
  successCount b2 = successCount again /\
  sent b2 = sent again /\
  dbGet (Session.channelId s1) (md5hex content) (world b2) = [first] /\
  isFailureLine (existsLine (StickerRecord.id first)) = false.
Proof.
  intros Ch R1 R2 U2 St Same first b2.
  destruct (storeItem_stored_inv _ _ _ _ _ _ St) as (c & line & payload & _ & R & G & _ & E).
  rewrite R1 in R. injection R as <-.
  assert (G1 : dbGet (Session.channelId s1) (md5hex content) (world again) = [first]).
  { rewrite Same, E. apply dbGet_storedBatch, G. }
  assert (E2 : b2 = pushLine (existsLine (StickerRecord.id first)) again).
  { subst b2. unfold storeItem at 1. open_item U2 R2. rewrite Ch, G1. reflexivity. }
  split; [exact G1|]. split; [exact E2|]. rewrite E2. cbn [world successCount sent pushLine].
  split; [reflexivity|]. split; [reflexivity|]. split; [reflexivity|].
  split; [exact G1|reflexivity].
Qed.

Lemma dedup_second_ingest_witness :
  let s := groupSession "g1" [] in
  let b := startBatch emptyWorld in
  let b1 := @storeItem sampleRuntime defaultConfig s sampleQuote sampleImg
              (arrives (pngBytes x01) t0 quiet) b in
  let b2 := @storeItem sampleRuntime defaultConfig s sampleQuote sampleImg
              (arrives (pngBytes x01) (t0 + 5) quiet) (startBatch (world b1)) in
  length (@dbGet "g1" (hexDigest (pngBytes x01)) (world b2)) = 1%nat /\
  b2 = pushLine (existsLine 1) (startBatch (world b1)).
Proof.
  intros s b b1 b2.
  destruct (@dedup_second_ingest sampleRuntime defaultConfig s s sampleQuote sampleQuote
              sampleImg sampleImg (arrives (pngBytes x01) t0 quiet)
              (arrives (pngBytes x01) (t0 + 5) quiet) (pngBytes x01) b
              (startBatch (world b1))
              eq_refl eq_refl eq_refl eq_refl ltac:(vm_compute; reflexivity) eq_refl)
    as (_ & E & _ & _ & _ & G & _).
  split; [|exact E].
  change (Session.channelId s) with "g1" in G. change (@md5hex sampleRuntime) with hexDigest in G.
  fold b1 b2 in G. rewrite G. reflexivity.
Defined.

(** ** Capacity *)

Lemma wf_storeItem `{Runtime} (config : Config.t) (session : Session.t) (quote : Quote.t)
    (img : Element.t) (env : ItemEnv) (b : Batch) :
  wfWorld (world b) -> wfWorld (world (storeItem config session quote img env b)).
Proof.
  intros WF. unfold storeItem.
  destruct (truthy (imageUrl img)); cbn [negb]; [|exact WF].
  destruct (downloadImage (response env)) as [d|message]; [|exact WF].
  destruct (dbGet _ _ _); [|exact WF].
  cbn [saveFile].
  assert (WF1 : wfWorld (writeFile (resolvePath (isoDate (saveClock env) ++ "-" ++
                  fp_md5 (fingerprint d) ++ "." ++ fp_ext (fingerprint d))) (dl_buffer d)
                  (checkAndCleanAlbum config (Session.channelId session) (world b)))).
  { eapply wf_files; [reflexivity|reflexivity|]. apply wf_checkAndCleanAlbum, WF. }
  destruct (deliver _ _ _ _ _ _ _ _) as [[line payload]|message]; cbn [world]; [|exact WF1].
  apply wf_dbCreate; [reflexivity|exact WF1].
Qed.

Lemma take_succ_of_Z (M : Z) {A : Type} (x : A) (l : list A) :
  (1 <= M)%Z -> take (Z.to_nat M) (x :: l) = x :: take (Z.to_nat (M - 1)) l.
Proof.
  intros HM. replace (Z.to_nat M) with (S (Z.to_nat (M - 1))) by lia. reflexivity.
Qed.

(** One stored ingest puts the new record first and keeps the bound. *)
Lemma newestFirst_stored `{Runtime} (config : Config.t) (session : Session.t) (quote : Quote.t)
    (img : Element.t) (env : ItemEnv) (b : Batch) :
  (1 <= Config.albumMaxSize config)%Z ->
  wfWorld (world b) ->
  laterThanAll (createClock env) (dbSelect (Session.channelId session) (world b)) ->
  stored config session quote img env b ->
  newestFirst (Session.channelId session) (world (storeItem config session quote img env b)) =
    take (Z.to_nat (Config.albumMaxSize config))
      (recordOf session quote (contentOf env) env (nextId (world b))
       :: newestFirst (Session.channelId session) (world b)).
Proof.
  intros HM WF Later St.
  destruct (storeItem_stored_inv _ _ _ _ _ _ St) as (c & line & payload & _ & R & _ & _ & E).
  rewrite E. unfold contentOf. rewrite R.
  set (ch := Session.channelId session) in *.
  set (w1 := checkAndCleanAlbum config ch (world b)).
  unfold newestFirst at 1. unfold dbSelect.
  cbn [world storedBatch rows dbCreate writeFile nextId]. fold w1.
  rewrite List.filter_app. cbn [List.filter]. unfold inChannel at 2.
  cbn [recordOf StickerRecord.channelId]. fold ch. rewrite String.eqb_refl.
  subst w1. rewrite nextId_checkAndCleanAlbum.
  fold (dbSelect ch (checkAndCleanAlbum config ch (world b))).
  rewrite orderBy_snoc.
  - fold (newestFirst ch (checkAndCleanAlbum config ch (world b))).
    rewrite take_succ_of_Z by exact HM. f_equal.
    rewrite newestFirst_checkAndCleanAlbum by assumption.
    destruct (_ <=? _)%Z eqn:C; [reflexivity|].
    apply Z.leb_gt in C. symmetry. apply take_ge. lia.
  - cbn [recordOf StickerRecord.createdAt]. unfold laterThanAll in *.
    apply List.Forall_forall. intros r Hr. rewrite List.Forall_forall in Later. apply Later.
    unfold dbSelect in *. apply filter_In in Hr as [Hr C]. apply filter_In. split; [|exact C].
    apply list_elem_of_In. apply list_elem_of_In in Hr.
    eapply rows_checkAndCleanAlbum_elem, Hr.
Qed.

Lemma take_app_take {A : Type} (n : nat) (a b : list A) :
  take n (a ++ take n b) = take n (a ++ b).
Proof.
  rewrite !take_app. f_equal. rewrite take_take. f_equal. lia.
Qed.

Lemma nextId_stored `{Runtime} (config : Config.t) (session : Session.t) (quote : Quote.t)
    (img : Element.t) (env : ItemEnv) (b : Batch) :
  stored config session quote img env b ->
  nextId (world (storeItem config session quote img env b)) = S (nextId (world b)).
Proof.
  intros St.
  destruct (storeItem_stored_inv _ _ _ _ _ _ St) as (c & line & payload & _ & _ & _ & _ & E).
  rewrite E. cbn. f_equal. apply nextId_checkAndCleanAlbum.
Qed.

Lemma laterThanAll_stored `{Runtime} (config : Config.t) (session : Session.t)
    (quote : Quote.t) (img : Element.t) (env : ItemEnv) (b : Batch) (t : Z) :
  (1 <= Config.albumMaxSize config)%Z ->
  wfWorld (world b) ->
  laterThanAll (createClock env) (dbSelect (Session.channelId session) (world b)) ->
  stored config session quote img env b ->
  (createClock env < t)%Z ->
  laterThanAll t (dbSelect (Session.channelId session) (world b)) ->
  laterThanAll t (dbSelect (Session.channelId session)
                    (world (storeItem config session quote img env b))).
Proof.
  intros HM WF Later St Lt Later'.
  pose proof (newestFirst_stored _ _ _ _ _ _ HM WF Later St) as E.
  unfold laterThanAll in *. apply List.Forall_forall. intros r Hr.
  apply list_elem_of_In in Hr.
  assert (Hr' : r ∈ newestFirst (Session.channelId session)
                      (world (storeItem config session quote img env b))).
  { unfold newestFirst. apply orderBy_elem, Hr. }
  rewrite E in Hr'. eapply elem_of_sublist in Hr'; [|apply sublist_take].
  apply elem_of_cons in Hr' as [->|Hr'].
  - exact Lt.
  - rewrite List.Forall_forall in Later'. apply Later'.
    apply list_elem_of_In. unfold newestFirst in Hr'.
    apply (proj1 (orderBy_elem _ _)) in Hr'. exact Hr'.
Qed.

Lemma newestFirst_ingestAll `{Runtime} (config : Config.t) (channelId : string)
    (i : Ingest) (steps : list Ingest) (b : Batch) :
  (1 <= Config.albumMaxSize config)%Z ->
  wfWorld (world b) ->
  Forall (fun i => Session.channelId (by_session i) = channelId) (i :: steps) ->
  clockAdvances channelId (world b) (i :: steps) ->
  allStored config (i :: steps) b ->
  newestFirst channelId (world (ingestAll config (i :: steps) b)) =
    take (Z.to_nat (Config.albumMaxSize config))
      (rev (created (i :: steps) (nextId (world b))) ++ newestFirst channelId (world b)).
Proof.
  intros HM. revert i b.
  induction steps as [|j steps IH]; intros i b WF Ch [Inc Later] [St Rest].
  - apply Forall_cons in Ch as [<- _]. apply Forall_cons in Later as [Later _].
    cbn [ingestAll fold_left created rev app]. unfold ingest.
    apply newestFirst_stored; assumption.
  - pose proof Ch as Ch'. apply Forall_cons in Ch' as [Ei Ch'].
    pose proof Later as Later'. apply Forall_cons in Later' as [Li Later'].
    apply StronglySorted_inv in Inc as [Inc Lt]. subst channelId.
    change (ingestAll config (i :: j :: steps) b)
      with (ingestAll config (j :: steps) (ingest config b i)).
    rewrite IH; try assumption.
    + unfold ingest at 2. rewrite newestFirst_stored by assumption.
      unfold ingest. rewrite nextId_stored by assumption.
      rewrite take_app_take. f_equal.
      change (created (i :: j :: steps) (nextId (world b)))
        with (recordOf (by_session i) (of_quote i) (contentOf (answers i)) (answers i)
                (nextId (world b)) :: created (j :: steps) (S (nextId (world b)))).
      cbn [rev]. rewrite <- !app_assoc. reflexivity.
    + apply wf_storeItem, WF.
    + split; [exact Inc|].
      apply List.Forall_forall. intros k Hk.
      apply laterThanAll_stored; try assumption.
      * rewrite List.Forall_forall in Lt. apply (Lt (createdAtOf k)).
        apply (in_map createdAtOf (j :: steps)), Hk.
      * rewrite List.Forall_forall in Later'. apply Later', Hk.
Qed.

Lemma created_length `{Runtime} (steps : list Ingest) (n : nat) :
  length (created steps n) = length steps.
Proof. revert n. induction steps as [|i steps IH]; intros n; cbn; [|rewrite IH]; reflexivity. Qed.

(** The eviction step on a channel at or above the bound. *)
Lemma checkAndCleanAlbum_frees_one_slot (config : Config.t) (channelId : string) (w : World) :
  (1 <= Config.albumMaxSize config)%Z ->
  wfWorld w ->
  (Config.albumMaxSize config <= Z.of_nat (length (dbSelect channelId w)))%Z ->
  let w1 := checkAndCleanAlbum config channelId w in
  let keep := Z.to_nat (Config.albumMaxSize config - 1) in
  newestFirst channelId w1 = take keep (newestFirst channelId w) /\
  Z.of_nat (length (dbSelect channelId w1)) = (Config.albumMaxSize config - 1)%Z /\
  forall r, r ∈ drop keep (newestFirst channelId w) ->
            (r ∉ rows w1) /\ files w1 !! StickerRecord.filePath r = None.
Proof.
  intros HM WF Full w1 keep.
  assert (E : newestFirst channelId w1 = take keep (newestFirst channelId w)).
  { subst w1. rewrite newestFirst_checkAndCleanAlbum by assumption.
    rewrite newestFirst_length. rewrite (proj2 (Z.leb_le _ _)) by exact Full. reflexivity. }
  assert (Ev : evicted config channelId w = drop keep (newestFirst channelId w)).
  { unfold evicted. fold (newestFirst channelId w). rewrite newestFirst_length.
    rewrite (proj2 (Z.leb_le _ _)) by exact Full. unfold jsSliceFrom.
    rewrite (proj2 (Z.ltb_ge _ _)) by lia. reflexivity. }
  split; [exact E|]. split.
  - rewrite <- newestFirst_length, E, length_take, newestFirst_length. subst keep. lia.
  - intros r Hr. subst w1. rewrite checkAndCleanAlbum_evicted, Ev. split.
    + rewrite rows_evict. intros Hin. apply elem_of_filter_bool in Hin as [_ Hin].
      apply negb_true_iff, bool_decide_eq_false in Hin. apply Hin.
      apply list_elem_of_fmap. eauto.
    + rewrite files_evict. rewrite bool_decide_eq_true_2; [reflexivity|].
      apply list_elem_of_fmap. eauto.
Qed.

(** C2: with bound M, after more than M stored ingests into one channel,
    made one after the other while the clock advances, the channel holds
    exactly M records, and they are the records of the last M ingests,
    newest first; and the eviction step, on a channel at or above the
    bound, removes the oldest records, blob then row, and leaves M - 1. *)
Theorem capacity_bound `{Runtime} (config : Config.t) (channelId : string)
    (steps : list Ingest) (b : Batch) :
  let M := Config.albumMaxSize config in
  (1 <= M)%Z ->
  wfWorld (world b) ->
  Forall (fun i => Session.channelId (by_session i) = channelId) steps ->
  clockAdvances channelId (world b) steps ->
  allStored config steps b ->
  (M < Z.of_nat (length steps))%Z ->
  let w' := world (ingestAll config steps b) in
  Z.of_nat (length (dbSelect channelId w')) = M /\
  newestFirst channelId w' = take (Z.to_nat M) (rev (created steps (nextId (world b)))) /\
  forall w, wfWorld w -> (M <= Z.of_nat (length (dbSelect channelId w)))%Z ->
    let w1 := checkAndCleanAlbum config channelId w in
    newestFirst channelId w1 = take (Z.to_nat (M - 1)) (newestFirst channelId w) /\
    Z.of_nat (length (dbSelect channelId w1)) = (M - 1)%Z /\
    forall r, r ∈ drop (Z.to_nat (M - 1)) (newestFirst channelId w) ->
              (r ∉ rows w1) /\ files w1 !! StickerRecord.filePath r = None.
Proof.
  intros M HM WF Ch Clock St Many w'.
  assert (E : newestFirst channelId w' =
              take (Z.to_nat M) (rev (created steps (nextId (world b))))).
  { subst w'. destruct steps as [|i steps]; [cbn in Many; lia|].
    rewrite newestFirst_ingestAll by assumption.
    apply take_app_le. rewrite length_rev, created_length. lia. }
  split; [|split; [exact E|]].
  - rewrite <- newestFirst_length, E, length_take, length_rev, created_length. lia.
  - intros w WFw Full. apply checkAndCleanAlbum_frees_one_slot; assumption.
Qed.

Lemma capacity_bound_witness :
  let w' := world (@ingestAll sampleRuntime smallConfig sampleIngests (startBatch emptyWorld)) in
  length (dbSelect "g1" w') = 5%nat /\
  map StickerRecord.md5 (newestFirst "g1" w') =
    ["89504e4706"; "89504e4705"; "89504e4704"; "89504e4703"; "89504e4702"].
Proof.
  intros w'.
  destruct (@capacity_bound sampleRuntime smallConfig "g1" sampleIngests (startBatch emptyWorld))
    as (L & E & _).
  - vm_compute. discriminate.
  - exact wf_emptyWorld.
  - repeat constructor.
  - split.
    + repeat (constructor; [|repeat (constructor; [vm_compute; reflexivity|]); constructor]).
      constructor.
    + repeat constructor.
  - vm_compute. repeat split.
  - vm_compute. reflexivity.
  - fold w' in L, E. split.
    + apply Nat2Z.inj. rewrite L. reflexivity.
    + rewrite E. vm_compute. reflexivity.
Defined.

(** ** Clearing a channel *)

Lemma unlinkAll_world (records : list StickerRecord.t) (w : World) :
  rows (unlinkAll records w) = rows w /\
  nextId (unlinkAll records w) = nextId w /\
  forall path, files (unlinkAll records w) !! path =
    if bool_decide (path ∈ map StickerRecord.filePath records) then None else files w !! path.
Proof.
  unfold unlinkAll. revert w. induction records as [|x l IH]; intros w.
  - repeat split.
  - cbn [fold_left map]. destruct (IH (unlinkIfExists (StickerRecord.filePath x) w)) as (R & N & F).
    rewrite R, N, rows_unlinkIfExists, nextId_unlinkIfExists. repeat split.
    intros path. rewrite F, files_unlinkIfExists.
    destruct (decide (path = StickerRecord.filePath x)) as [->|NE].
    + rewrite lookup_delete_eq.
      rewrite (bool_decide_eq_true_2 (_ ∈ _ :: _)) by apply list_elem_of_here.
      destruct (bool_decide _); reflexivity.
    + rewrite lookup_delete_ne by congruence.
      apply (f_equal (fun b : bool => if b then None else files w !! path)).
      apply bool_decide_ext. rewrite elem_of_cons. tauto.
Qed.

Lemma clearAlbumResolve_unlinkAll (session : Session.t) (records : list StickerRecord.t)
    (reply : option JsString) (w : World) :
  clearAlbumResolve session records reply w =
    if negb (confirmed reply) then (w, "❌ 操作已取消")
    else (dbRemoveChannel (Session.channelId session) (unlinkAll records w),
          "✅ 已清空相册，删除了 " ++ pretty (length records) ++ " 个表情").
Proof. reflexivity. Qed.

Lemma clearAlbum_unconfirmed (config : Config.t) (session : Session.t) (env : ClearEnv)
    (w : World) :
  confirmed (promptReply env) = false -> fst (clearAlbum config session env w) = w.
Proof.
  intros C. unfold clearAlbum. destruct (clearAlbumAsk config session w); [reflexivity|].
  destruct (sessionSend _ _); [|reflexivity].
  rewrite clearAlbumResolve_unlinkAll, C. reflexivity.
Qed.

(** C4: in a channel with the album enabled, for a requester who may
    delete, on a non-empty album and once the prompt is out: without a
    reply within the wait, or with a reply whose trimmed text is not the
    confirmation word, the world stays as it is and the answer is the
    cancellation line; with the confirmation word, every blob of the
    channel's records is gone, then every row of the channel, and the rows
    of the other channels stay. *)
Theorem clear_requires_confirmation (config : Config.t) (session : Session.t)
    (env : ClearEnv) (w : World) :
  let channel := Session.channelId session in
  isAlbumEnabledForGroup config channel = true ->
  hasDeletePermission config session = true ->
  dbSelect channel w <> [] ->
  promptSend env = None ->
  let w' := fst (clearAlbum config session env w) in
  let answer := snd (clearAlbum config session env w) in
  (promptReply env = None -> w' = w /\ answer = Ok "❌ 操作已取消") /\
  (forall t, promptReply env = Some t -> trim t <> confirmWord ->
             w' = w /\ answer = Ok "❌ 操作已取消") /\
  (forall t, promptReply env = Some t -> trim t = confirmWord ->
     dbSelect channel w' = [] /\
     (forall r, r ∈ dbSelect channel w -> files w' !! StickerRecord.filePath r = None) /\
     rows w' = List.filter (fun r => negb (inChannel channel r)) (rows w) /\
     (forall path, path ∉ map StickerRecord.filePath (dbSelect channel w) ->
                   files w' !! path = files w !! path) /\
     nextId w' = nextId w /\
     answer = Ok ("✅ 已清空相册，删除了 " ++ pretty (length (dbSelect channel w)) ++ " 个表情")).
Proof.
  intros channel En Perm NonEmpty Sent w' answer.
  assert (E : clearAlbum config session env w =
              let '(w1, line) := clearAlbumResolve session (dbSelect channel w)
                                   (promptReply env) w in (w1, Ok line)).
  { unfold clearAlbum, clearAlbumAsk. fold channel. rewrite En, Perm. cbn [negb].
    destruct (dbSelect channel w) eqn:S; [congruence|]. rewrite Sent. reflexivity. }
  subst w' answer. rewrite E, clearAlbumResolve_unlinkAll. clear E.
  split; [|split].
  - intros ->. cbn. auto.
  - intros t -> Ht. cbn [confirmed]. rewrite bool_decide_eq_false_2 by exact Ht. cbn. auto.
  - intros t -> Ht. cbn [confirmed]. rewrite bool_decide_eq_true_2 by exact Ht.
    cbn [negb fst snd]. fold channel.
    destruct (unlinkAll_world (dbSelect channel w) w) as (R & N & F).
    repeat split.
    + unfold dbSelect at 1. cbn [rows dbRemoveChannel]. rewrite R.
      apply filter_none, List.Forall_forall. intros r Hr.
      apply filter_In in Hr as [_ Hr]. apply negb_true_iff in Hr. exact Hr.
    + intros r Hr. cbn [files dbRemoveChannel]. rewrite F.
      rewrite bool_decide_eq_true_2; [reflexivity|]. apply list_elem_of_fmap. eauto.
    + cbn [rows dbRemoveChannel]. rewrite R. reflexivity.
    + intros path Hp. cbn [files dbRemoveChannel]. rewrite F.
      rewrite bool_decide_eq_false_2 by exact Hp. reflexivity.
    + cbn [nextId dbRemoveChannel]. exact N.
Qed.

Lemma clear_requires_confirmation_witness :
  let s := groupSession "g1" ["admin"] in
  fst (clearAlbum defaultConfig s {| promptSend := None; promptReply := None |} sampleWorld)
    = sampleWorld /\
  dbSelect "g1" (fst (clearAlbum defaultConfig s
                        {| promptSend := None; promptReply := Some paddedConfirm |}
                        sampleWorld)) = [] /\
  length (dbSelect "g1" sampleWorld) = 2%nat.
Proof.
  intros s.
  assert (En : isAlbumEnabledForGroup defaultConfig (Session.channelId s) = true)
    by reflexivity.
  assert (P : hasDeletePermission defaultConfig s = true) by reflexivity.
  assert (NE : dbSelect (Session.channelId s) sampleWorld <> []) by (vm_compute; discriminate).
  split; [|split].
  - destruct (clear_requires_confirmation defaultConfig s
                {| promptSend := None; promptReply := None |} sampleWorld En P NE eq_refl)
      as (T & _ & _).
    apply T. reflexivity.
  - destruct (clear_requires_confirmation defaultConfig s
                {| promptSend := None; promptReply := Some paddedConfirm |} sampleWorld
                En P NE eq_refl) as (_ & _ & C).
    apply (C paddedConfirm); [reflexivity|vm_compute; reflexivity].
  - vm_compute. reflexivity.
Defined.

(** ** Delivery *)

Lemma sendFileWithName_throws (config : Config.t) (message : string) (buffer : Buffer)
    (fileName : string) (filePath : option string) (forceBuffer : bool) :
  exists message', sendFileWithName config (Some message) buffer fileName filePath forceBuffer
                   = Throw message'.
Proof.
  unfold sendFileWithName. destruct (_ || _); [eexists; reflexivity|].
  destruct filePath as [[|c path]|]; eexists; reflexivity.
Qed.

Lemma deliver_fallback (config : Config.t) (tr : Transport) (buffer : Buffer) (mime : string)
    (fileName : string) (filePath : option string) (forceBuffer : bool) (message : string) :
  let isGif := String.eqb mime "image/gif" in
  modeFor config isGif = Config.file ->
  fileSend tr = Some message ->
  deliver config tr buffer mime isGif fileName filePath forceBuffer =
    match imageSend tr with
    | None => Ok (degradedLine isGif, Image buffer mime)
    | Some m => Throw m
    end.
Proof.
  intros isGif Mode Send. unfold deliver, modeFor in *. rewrite Send.
  destruct (sendFileWithName_throws config message buffer fileName filePath forceBuffer)
    as [m' ->].
  subst isGif. destruct (String.eqb_spec mime "image/gif") as [->|NE];
    rewrite Mode; cbn [tryCatch bind]; destruct (imageSend tr); reflexivity.
Qed.

Lemma deliver_file_sent (config : Config.t) (tr : Transport) (buffer : Buffer) (mime : string)
    (fileName : string) (filePath : option string) (forceBuffer : bool) (p : Payload) :
  let isGif := String.eqb mime "image/gif" in
  modeFor config isGif = Config.file ->
  sendFileWithName config (fileSend tr) buffer fileName filePath forceBuffer = Ok p ->
  deliver config tr buffer mime isGif fileName filePath forceBuffer
    = Ok (fileLine isGif fileName, p).
Proof.
  intros isGif Mode Send. unfold deliver, modeFor, fileLine in *.
  subst isGif. destruct (mime =? "image/gif")%string; rewrite Mode, Send; reflexivity.
Qed.

(** C5: when the kind of the content is configured for file delivery and
    the file send throws, both loops send the same bytes with the same
    mime type as an image.  If that send resolves, the item gets the
    fallback line, which is neither a failure line nor the line of a file
    delivery, and is counted as a success (in the storing loop the row is
    created too); a failure line appears, and the item is not counted, only
    if the image send throws as well. *)
Theorem delivery_fallback `{Runtime} (config : Config.t) (session : Session.t)
    (quote : Quote.t) (img : Element.t) (env : ItemEnv) (b : Batch) (content : Buffer)
    (message : string) :
  let isGif := String.eqb (detectMime content) "image/gif" in
  truthy (imageUrl img) = true ->
  response env = Ok content ->
  modeFor config isGif = Config.file ->
  fileSend (transport env) = Some message ->
  let converted := convertItem config img env b in
  let kept := storeItem config session quote img env b in
  let fallback := Image content (detectMime content) in
  match imageSend (transport env) with
  | None =>
      results converted = (results b ++ [degradedLine isGif])%list /\
      successCount converted = S (successCount b) /\
      sent converted = (sent b ++ [fallback])%list /\
      (dbGet (Session.channelId session) (md5hex content) (world b) = [] ->
       kept = storedBatch config session quote content env (degradedLine isGif) fallback b)
  | Some m =>
      results converted = (results b ++ [convertFailedLine m])%list /\
      successCount converted = successCount b /\
      sent converted = sent b /\
      (dbGet (Session.channelId session) (md5hex content) (world b) = [] ->
       results kept = (results b ++ [storeFailedLine m])%list /\
       successCount kept = successCount b /\
       sent kept = sent b /\
       rows (world kept) =
         rows (checkAndCleanAlbum config (Session.channelId session) (world b)))
  end /\
  isFailureLine (degradedLine isGif) = false /\
  (forall fileName, degradedLine isGif <> fileLine isGif fileName) /\
  (forall m, isFailureLine (convertFailedLine m) = true /\
             isFailureLine (storeFailedLine m) = true).
Proof.
  intros isGif U R Mode Send converted kept fallback.
  assert (C : converted =
    match imageSend (transport env) with
    | None => {| world := world b; results := (results b ++ [degradedLine isGif])%list;
                 successCount := S (successCount b); sent := (sent b ++ [fallback])%list |}
    | Some m => pushLine (convertFailedLine m) b
    end).
  { subst converted. unfold convertItem. open_item U R.
    rewrite (deliver_fallback _ _ _ _ _ _ _ message) by assumption.
    destruct (imageSend (transport env)); reflexivity. }
  assert (K : dbGet (Session.channelId session) (md5hex content) (world b) = [] ->
    kept =
    match imageSend (transport env) with
    | None => storedBatch config session quote content env (degradedLine isGif) fallback b
    | Some m =>
        {| world := writeFile (blobPath content (saveClock env)) content
                      (checkAndCleanAlbum config (Session.channelId session) (world b));
           results := (results b ++ [storeFailedLine m])%list;
           successCount := successCount b; sent := sent b |}
    end).
  { intros G. subst kept. unfold storeItem. open_item U R.
    rewrite G. cbn [saveFile]. fold (blobPath content (saveClock env)).
    rewrite (deliver_fallback _ _ _ _ _ _ _ message) by assumption.
    destruct (imageSend (transport env)); reflexivity. }
  split; [|split; [|split]].
  - destruct (imageSend (transport env)) as [m|]; rewrite C;
      cbn [results successCount sent pushLine];
      (split; [reflexivity|split; [reflexivity|split; [reflexivity|]]]);
      intros G; rewrite (K G); cbn; auto.
  - destruct isGif; reflexivity.
  - intros fileName. unfold degradedLine, fileLine. destruct isGif; discriminate.
  - intros m. split; reflexivity.
Qed.

Lemma delivery_fallback_witness :
  let s := groupSession "g1" [] in
  let b := startBatch emptyWorld in
  let env := arrives (gifBytes x01) t0 fileDown in
  results (@convertItem sampleRuntime defaultConfig sampleImg env b)
    = ["🎞️ GIF 已转换（作为图片发送）"] /\
  successCount (@convertItem sampleRuntime defaultConfig sampleImg env b) = 1%nat /\
  sent (@convertItem sampleRuntime defaultConfig sampleImg env b)
    = [Image (gifBytes x01) "image/gif"] /\
  successCount (@storeItem sampleRuntime defaultConfig s sampleQuote sampleImg env b) = 1%nat.
Proof.
  intros s b env.
  pose proof (@delivery_fallback sampleRuntime defaultConfig s sampleQuote sampleImg env b
                (gifBytes x01) "send failed" eq_refl eq_refl eq_refl eq_refl) as T.
  cbv zeta in T. change (imageSend (transport env)) with (@None string) in T.
  destruct T as ((Rs & Cn & Sn & K) & _).
  split; [exact Rs|]. split; [exact Cn|]. split; [exact Sn|].
  rewrite K by reflexivity. reflexivity.
Defined.

(** ** How commands move the world *)

Lemma grows_refl (w : World) : grows w w.
Proof. split; [lia|auto]. Qed.

Lemma grows_trans (w1 w2 w3 : World) : grows w1 w2 -> grows w2 w3 -> grows w1 w3.
Proof.
  intros [N1 R1] [N2 R2]. split; [lia|]. intros r Hr.
  destruct (R2 r Hr) as [Hr2|Hr2]; [|right; lia]. apply R1, Hr2.
Qed.

Lemma grows_filter (p : StickerRecord.t -> bool) (w w' : World) :
  rows w' = List.filter p (rows w) -> nextId w' = nextId w -> grows w w'.
Proof.
  intros R N. split; [lia|]. intros r Hr. left. rewrite R in Hr.
  apply elem_of_filter_bool in Hr. tauto.
Qed.

Lemma grows_same_rows (w w' : World) :
  rows w' = rows w -> nextId w' = nextId w -> grows w w'.
Proof. intros R N. split; [lia|]. intros r Hr. left. rewrite <- R. exact Hr. Qed.

Lemma grows_dbCreate (row : NewRow) (w : World) :
  (forall id, StickerRecord.id (row id) = id) -> grows w (dbCreate row w).
Proof.
  intros Hid. split; [cbn; lia|]. intros r Hr. cbn in Hr.
  apply elem_of_app in Hr as [Hr|Hr]; [auto|].
  apply list_elem_of_singleton in Hr. subst r. right. rewrite Hid. lia.
Qed.

Lemma grows_checkAndCleanAlbum (config : Config.t) (channelId : string) (w : World) :
  grows w (checkAndCleanAlbum config channelId w).
Proof.
  rewrite checkAndCleanAlbum_evicted.
  eapply grows_filter; [apply rows_evict|apply nextId_evict].
Qed.

Lemma grows_storeItem `{Runtime} (config : Config.t) (session : Session.t) (quote : Quote.t)
    (img : Element.t) (env : ItemEnv) (b : Batch) :
  grows (world b) (world (storeItem config session quote img env b)).
Proof.
  unfold storeItem.
  destruct (truthy (imageUrl img)); cbn [negb]; [|apply grows_refl].
  destruct (downloadImage (response env)) as [d|message]; [|apply grows_refl].
  destruct (dbGet _ _ _); [|apply grows_refl].
  cbn [saveFile].
  assert (G1 : grows (world b)
                 (writeFile (resolvePath (isoDate (saveClock env) ++ "-" ++
                    fp_md5 (fingerprint d) ++ "." ++ fp_ext (fingerprint d))) (dl_buffer d)
                    (checkAndCleanAlbum config (Session.channelId session) (world b)))).
  { eapply grows_trans; [apply grows_checkAndCleanAlbum|].
    apply grows_same_rows; reflexivity. }
  destruct (deliver _ _ _ _ _ _ _ _) as [[line payload]|message]; cbn [world]; [|exact G1].
  eapply grows_trans; [exact G1|]. apply grows_dbCreate. reflexivity.
Qed.

Lemma storeLoop_invariant `{Runtime} (P : World -> Prop) (config : Config.t)
    (session : Session.t) (quote : Quote.t) (items : list (Element.t * ItemEnv)) (b : Batch) :
  (forall img env b', P (world b') -> P (world (storeItem config session quote img env b'))) ->
  P (world b) -> P (world (storeLoop config session quote items b)).
Proof.
  intros Step. unfold storeLoop. revert b.
  induction items as [|[img env] items IH]; intros b Pb; [exact Pb|].
  cbn [fold_left fst snd]. apply IH, Step, Pb.
Qed.

Lemma world_convertItem `{Runtime} (config : Config.t) (img : Element.t) (env : ItemEnv)
    (b : Batch) :
  world (convertItem config img env b) = world b.
Proof.
  unfold convertItem. destruct (negb _); [reflexivity|].
  destruct (downloadImage _); [|reflexivity].
  destruct (deliver _ _ _ _ _ _ _ _) as [[line payload]|message]; reflexivity.
Qed.

Lemma world_convertLoop `{Runtime} (config : Config.t) (items : list (Element.t * ItemEnv))
    (b : Batch) :
  world (convertLoop config items b) = world b.
Proof.
  unfold convertLoop. revert b. induction items as [|[img env] items IH]; intros b;
    [reflexivity|].
  cbn [fold_left fst snd]. rewrite IH. apply world_convertItem.
Qed.

Lemma world_summarize (summary : nat -> string) (b : Batch) :
  world (summarize summary b) = world b.
Proof. unfold summarize. destruct (_ <? _)%nat; reflexivity. Qed.

(** The conversion without storing leaves the world alone. *)
Lemma after_convertEmojiOnly `{Runtime} (config : Config.t) (session : Session.t)
    (env : nat -> ItemEnv) (w : World) :
  after (convertEmojiOnly config session env w) = w.
Proof.
  unfold convertEmojiOnly. destruct (negb _); [reflexivity|].
  destruct (Session.quote session) as [quote|]; [|reflexivity].
  destruct (allImageLike quote) eqn:A; [reflexivity|].
  cbn [after finish]. rewrite world_summarize, world_convertLoop. reflexivity.
Qed.

Lemma after_convertEmoji `{Runtime} (P : World -> Prop) (config : Config.t)
    (session : Session.t) (env : nat -> ItemEnv) (w : World) :
  (forall s q img e b', P (world b') -> P (world (storeItem config s q img e b'))) ->
  P w -> P (after (convertEmoji config session env w)).
Proof.
  intros Step Pw. unfold convertEmoji. destruct (negb _); [exact Pw|].
  destruct (negb _); [exact Pw|].
  destruct (Session.quote session) as [quote|]; [|exact Pw].
  destruct (allImageLike quote) eqn:A; [exact Pw|].
  cbn [after finish]. rewrite world_summarize.
  apply storeLoop_invariant; [apply Step|exact Pw].
Qed.

Lemma grows_deleteEmoji (config : Config.t) (session : Session.t) (index : Z) (w : World) :
  grows w (fst (deleteEmoji config session index w)).
Proof.
  unfold deleteEmoji. destruct (negb _); [apply grows_refl|].
  destruct (negb _); [apply grows_refl|].
  destruct (outOfRange _ _); [apply grows_refl|].
  destruct (jsIndex _ _) as [record|]; [|apply grows_refl].
  cbn [fst]. eapply grows_filter; cbn [rows nextId dbRemoveId].
  - rewrite rows_unlinkIfExists. reflexivity.
  - apply nextId_unlinkIfExists.
Qed.

Lemma grows_clearAlbum (config : Config.t) (session : Session.t) (env : ClearEnv) (w : World) :
  grows w (fst (clearAlbum config session env w)).
Proof.
  unfold clearAlbum. destruct (clearAlbumAsk _ _ _) as [line|records]; [apply grows_refl|].
  destruct (sessionSend _ _); [|apply grows_refl].
  rewrite clearAlbumResolve_unlinkAll. destruct (negb _); [apply grows_refl|].
  cbn [fst]. destruct (unlinkAll_world records w) as (R & N & _).
  eapply grows_filter; cbn [rows nextId dbRemoveChannel]; [rewrite R; reflexivity|exact N].
Qed.

Lemma grows_exec `{Runtime} (config : Config.t) (w : World) (c : Command) :
  grows w (exec config w c).
Proof.
  destruct c; cbn [exec]; try apply grows_refl.
  - rewrite after_convertEmojiOnly. apply grows_refl.
  - apply (after_convertEmoji (grows w)); [|apply grows_refl].
    intros s q img e b' G. eapply grows_trans; [exact G|apply grows_storeItem].
  - destruct (missing index); [apply grows_refl|apply grows_deleteEmoji].
  - apply grows_clearAlbum.
Qed.

Lemma grows_run `{Runtime} (config : Config.t) (cmds : list Command) (w : World) :
  grows w (run config w cmds).
Proof.
  unfold run. revert w. induction cmds as [|c cmds IH]; intros w; [apply grows_refl|].
  cbn [fold_left]. eapply grows_trans; [apply grows_exec|apply IH].
Qed.

(** ** Indexing *)

Lemma outOfRange_spec (index : Z) (total : nat) :
  outOfRange index total = true <-> (index < 1 \/ Z.of_nat total < index)%Z.
Proof. unfold outOfRange. rewrite orb_true_iff, !Z.ltb_lt. reflexivity. Qed.

Lemma outOfRange_false (index : Z) (total : nat) :
  outOfRange index total = false <-> (1 <= index <= Z.of_nat total)%Z.
Proof. unfold outOfRange. rewrite orb_false_iff, !Z.ltb_ge. lia. Qed.

Lemma jsIndex_in_range {A : Type} (l : list A) (index : Z) :
  (1 <= index <= Z.of_nat (length l))%Z -> exists x, jsIndex l (index - 1) = Some x.
Proof.
  intros R. unfold jsIndex. rewrite (proj2 (Z.ltb_ge _ _)) by lia.
  destruct (l !! Z.to_nat (index - 1)) as [x|] eqn:L; [eauto|].
  apply lookup_ge_None in L. lia.
Qed.

Lemma jsIndex_elem {A : Type} (l : list A) (i : Z) (x : A) :
  jsIndex l i = Some x -> x ∈ l.
Proof.
  unfold jsIndex. destruct (_ <? _)%Z; [discriminate|]. apply list_elem_of_lookup_2.
Qed.

Lemma sendEmoji_invalid (config : Config.t) (session : Session.t) (index : Z)
    (tr : Transport) (w : World) :
  isAlbumEnabledForGroup config (Session.channelId session) = true ->
  let total := length (dbSelect (Session.channelId session) w) in
  sendEmoji config session index tr w = Ok (invalidIndexLine total, []) <->
  outOfRange index total = true.
Proof.
  intros En total. unfold sendEmoji. rewrite En. cbn [negb].
  rewrite newestFirst_length. fold total.
  destruct (outOfRange index total); [tauto|].
  split; [|discriminate]. intros E. exfalso. revert E.
  destruct (jsIndex _ _) as [record|]; [|discriminate].
  destruct (negb _); [discriminate|].
  destruct (readFile _ _) as [fileData|message]; cbn [tryCatch bind]; [|discriminate].
  destruct (StickerRecord.isGif record);
    [destruct (Config.gifMode config)|destruct (Config.staticImageMode config)];
    try destruct (sendFileWithName _ _ _ _ _ _); cbn [tryCatch bind];
    destruct (imageSend tr); cbn [sessionSend tryCatch bind]; discriminate.
Qed.

Lemma deleteEmoji_invalid (config : Config.t) (session : Session.t) (index : Z) (w : World) :
  isAlbumEnabledForGroup config (Session.channelId session) = true ->
  hasDeletePermission config session = true ->
  let total := length (dbSelect (Session.channelId session) w) in
  deleteEmoji config session index w = (w, invalidIndexLine total) <->
  outOfRange index total = true.
Proof.
  intros En Perm total. unfold deleteEmoji. rewrite En, Perm. cbn [negb].
  rewrite newestFirst_length. fold total.
  destruct (outOfRange index total); [tauto|].
  split; [|discriminate]. destruct (jsIndex _ _); discriminate.
Qed.

Lemma length_filter_other (l : list StickerRecord.t) (r : StickerRecord.t) :
  NoDup (ids l) -> r ∈ l ->
  (length (List.filter (fun x => negb (Nat.eqb (StickerRecord.id x) (StickerRecord.id r))) l)
   + 1 = length l)%nat.
Proof.
  induction l as [|y l IH]; intros ND Hr; [apply elem_of_nil in Hr; tauto|].
  cbn in ND. apply NoDup_cons in ND as [Hy ND]. cbn [List.filter length].
  apply elem_of_cons in Hr as [->|Hr].
  - rewrite Nat.eqb_refl. cbn [negb]. rewrite filter_all; [lia|].
    apply List.Forall_forall. intros x Hx. apply negb_true_iff, Nat.eqb_neq.
    intros E. apply Hy. rewrite <- E. apply list_elem_of_fmap. exists x.
    split; [reflexivity|apply list_elem_of_In, Hx].
  - destruct (Nat.eqb_spec (StickerRecord.id y) (StickerRecord.id r)) as [E|NE]; cbn [negb].
    + exfalso. apply Hy. rewrite E. apply list_elem_of_fmap. eauto.
    + cbn [length]. rewrite <- (IH ND Hr). lia.
Qed.

(** Once a row is gone and the counter is past its id, no command brings a
    row with that id back. *)
Lemma id_stays_out `{Runtime} (config : Config.t) (cmds : list Command) (w : World) (id : nat) :
  (id < nextId w)%nat ->
  (forall x, x ∈ rows w -> StickerRecord.id x <> id) ->
  forall x, x ∈ rows (run config w cmds) -> StickerRecord.id x <> id.
Proof.
  intros Lt Out x Hx. destruct (grows_run config cmds w) as [_ G].
  destruct (G x Hx) as [Hw|Hn]; [apply Out, Hw|lia].
Qed.

Lemma albumPage_elem (channelId : string) (page : Z) (w : World) (x : StickerRecord.t) :
  x ∈ albumPage channelId page w -> x ∈ rows w.
Proof.
  unfold albumPage. intros Hx.
  eapply elem_of_sublist in Hx; [|apply sublist_take].
  eapply elem_of_sublist in Hx; [|apply sublist_drop].
  apply newestFirst_elem in Hx. tauto.
Qed.

(** C6: in a channel with the album enabled (and, for the deletion, for a
    requester who may delete), sending and deleting by index answer with
    the invalid-index line exactly when the index is below 1 or above the
    number of records of the channel, and then the world is unchanged; for
    an index in range the deletion removes the file and the row of the
    record at that place in the newest-first order and nothing else, the
    channel has one record less, and no later command makes a record with
    that id appear in a page of the album again. *)
Theorem index_bounds `{Runtime} (config : Config.t) (session : Session.t) (index : Z)
    (tr : Transport) (w : World) :
  let channel := Session.channelId session in
  let total := length (dbSelect channel w) in
  isAlbumEnabledForGroup config channel = true ->
  hasDeletePermission config session = true ->
  wfWorld w ->
  (sendEmoji config session index tr w = Ok (invalidIndexLine total, []) <->
   (index < 1 \/ Z.of_nat total < index)%Z) /\
  (deleteEmoji config session index w = (w, invalidIndexLine total) <->
   (index < 1 \/ Z.of_nat total < index)%Z) /\
  ((1 <= index <= Z.of_nat total)%Z ->
   exists r, jsIndex (newestFirst channel w) (index - 1) = Some r /\
     let w' := fst (deleteEmoji config session index w) in
     files w' = delete (StickerRecord.filePath r) (files w) /\
     (forall x, x ∈ rows w' <-> x ∈ rows w /\ x <> r) /\
     (length (dbSelect channel w') + 1 = total)%nat /\
     forall cmds page x, x ∈ albumPage channel page (run config w' cmds) ->
                         StickerRecord.id x <> StickerRecord.id r).
Proof.
  intros channel total En Perm WF.
  split; [|split].
  - rewrite <- outOfRange_spec. apply sendEmoji_invalid, En.
  - rewrite <- outOfRange_spec. apply deleteEmoji_invalid; assumption.
  - intros Range.
    destruct (jsIndex_in_range (newestFirst channel w) index) as [r Hr].
    { rewrite newestFirst_length. exact Range. }
    exists r. split; [exact Hr|].
    assert (E : deleteEmoji config session index w =
                (dbRemoveId (StickerRecord.id r) (unlinkIfExists (StickerRecord.filePath r) w),
                 "✅ 已删除表情: " ++ StickerRecord.fileName r)).
    { unfold deleteEmoji. fold channel. rewrite En, Perm. cbn [negb].
      rewrite newestFirst_length. fold total.
      rewrite (proj2 (outOfRange_false index total)) by exact Range.
      rewrite Hr. reflexivity. }
    rewrite E. cbn [fst]. clear E.
    apply jsIndex_elem, newestFirst_elem in Hr as [Hr Cr].
    pose proof WF as [ND LT].
    assert (Rows : forall x, x ∈ rows (dbRemoveId (StickerRecord.id r)
                                 (unlinkIfExists (StickerRecord.filePath r) w))
                             <-> x ∈ rows w /\ x <> r).
    { intros x. cbn [rows dbRemoveId]. rewrite rows_unlinkIfExists, elem_of_filter_bool.
      rewrite negb_true_iff, Nat.eqb_neq. split; intros [Hx Nx]; (split; [exact Hx|]).
      - intros ->. apply Nx. reflexivity.
      - intros Eid. apply Nx. eapply ids_inj; eauto. }
    split; [|split; [exact Rows|split]].
    + cbn [files dbRemoveId]. apply files_unlinkIfExists.
    + unfold dbSelect at 1. cbn [rows dbRemoveId]. rewrite rows_unlinkIfExists.
      rewrite filter_filter_comm. fold (dbSelect channel w).
      apply length_filter_other.
      * apply ids_filter_NoDup, ND.
      * apply elem_of_filter_bool. auto.
    + intros cmds page x Hx. apply albumPage_elem in Hx. revert x Hx.
      apply id_stays_out.
      * cbn [nextId dbRemoveId]. rewrite nextId_unlinkIfExists.
        rewrite List.Forall_forall in LT. apply LT, list_elem_of_In, Hr.
      * intros x Hx. apply Rows in Hx as [Hx Nx]. intros Eid. apply Nx.
        eapply ids_inj; eauto.
Qed.

Lemma index_bounds_witness :
  let s := groupSession "g1" ["admin"] in
  snd (deleteEmoji defaultConfig s 3 sampleWorld) = invalidIndexLine 2 /\
  length (dbSelect "g1" (fst (deleteEmoji defaultConfig s 1 sampleWorld))) = 1%nat.
Proof.
  intros s.
  destruct (@index_bounds sampleRuntime defaultConfig s 3 quiet sampleWorld)
    as (_ & D & _); [reflexivity|reflexivity| |].
  { repeat apply wf_storeItem. exact wf_emptyWorld. }
  destruct (@index_bounds sampleRuntime defaultConfig s 1 quiet sampleWorld)
    as (_ & _ & R); [reflexivity|reflexivity| |].
  { repeat apply wf_storeItem. exact wf_emptyWorld. }
  split.
  - change (length (dbSelect (Session.channelId s) sampleWorld)) with 2%nat in D.
    rewrite (proj2 D); [reflexivity|]. right. reflexivity.
  - destruct R as (r & _ & _ & _ & L & _).
    { change (length (dbSelect (Session.channelId s) sampleWorld)) with 2%nat. lia. }
    change (Session.channelId s) with "g1" in L.
    change (length (dbSelect "g1" sampleWorld)) with 2%nat in L. lia.
Defined.

(** ** Round trip *)

Lemma newestFirst_stored_head `{Runtime} (config : Config.t) (session : Session.t)
    (quote : Quote.t) (img : Element.t) (env : ItemEnv) (b : Batch) :
  laterThanAll (createClock env) (dbSelect (Session.channelId session) (world b)) ->
  stored config session quote img env b ->
  newestFirst (Session.channelId session) (world (storeItem config session quote img env b)) =
    recordOf session quote (contentOf env) env (nextId (world b))
    :: newestFirst (Session.channelId session)
         (checkAndCleanAlbum config (Session.channelId session) (world b)).
Proof.
  intros Later St.
  destruct (storeItem_stored_inv _ _ _ _ _ _ St) as (c & line & payload & _ & R & _ & _ & E).
  rewrite E. unfold contentOf. rewrite R.
  set (ch := Session.channelId session) in *.
  unfold newestFirst at 1. unfold dbSelect.
  cbn [world storedBatch rows dbCreate writeFile nextId].
  rewrite List.filter_app. cbn [List.filter]. unfold inChannel at 2.
  cbn [recordOf StickerRecord.channelId]. fold ch. rewrite String.eqb_refl.
  rewrite nextId_checkAndCleanAlbum.
  fold (dbSelect ch (checkAndCleanAlbum config ch (world b))).
  rewrite orderBy_snoc; [reflexivity|].
  cbn [recordOf StickerRecord.createdAt]. unfold laterThanAll in *.
  apply List.Forall_forall. intros r Hr. rewrite List.Forall_forall in Later. apply Later.
  unfold dbSelect in *. apply filter_In in Hr as [Hr C]. apply filter_In. split; [|exact C].
  apply list_elem_of_In. apply list_elem_of_In in Hr.
  eapply rows_checkAndCleanAlbum_elem, Hr.
Qed.

(** C8: after a stored ingest of a content, made when the clock is past
    every record of the channel, index 1 of the newest-first order is the
    record of that ingest; its blob exists and reading it gives back the
    content, so the hash of what is read is the hash kept in the record;
    and when the image send resolves, what [sendEmoji] sends for index 1
    carries these bytes or points at that blob. *)
Theorem ingest_then_get `{Runtime} (config : Config.t) (session reader : Session.t)
    (quote : Quote.t) (img : Element.t) (env : ItemEnv) (b : Batch) (content : Buffer)
    (tr : Transport) :
  response env = Ok content ->
  stored config session quote img env b ->
  laterThanAll (createClock env) (dbSelect (Session.channelId session) (world b)) ->
  Session.channelId reader = Session.channelId session ->
  isAlbumEnabledForGroup config (Session.channelId session) = true ->
  let w' := world (storeItem config session quote img env b) in
  exists r,
    jsIndex (newestFirst (Session.channelId session) w') (1 - 1) = Some r /\
    r = recordOf session quote content env (nextId (world b)) /\
    existsSync (StickerRecord.filePath r) w' = true /\
    readFile (StickerRecord.filePath r) w' = Ok content /\
    StickerRecord.md5 r = md5hex content /\
    (imageSend tr = None ->
     exists line p,
       sendEmoji config reader 1 tr w' = Ok (line, [p]) /\
       (payloadBytes p = Some content \/
        p = File ("file://" ++ StickerRecord.filePath r)
              (basename (StickerRecord.filePath r)))).
Proof.
  intros R St Later Ch En w'.
  pose proof (newestFirst_stored_head _ _ _ _ _ _ Later St) as Hd.
  destruct (storeItem_stored_inv _ _ _ _ _ _ St) as (c & line & payload & _ & R' & _ & _ & E).
  rewrite R in R'. injection R' as <-.
  unfold contentOf in Hd. rewrite R in Hd. fold w' in Hd.
  set (r := recordOf session quote content env (nextId (world b))) in *.
  assert (F : files w' !! StickerRecord.filePath r = Some content).
  { subst w'. rewrite E. cbn [world storedBatch files dbCreate writeFile].
    apply lookup_insert_eq. }
  assert (Ex : existsSync (StickerRecord.filePath r) w' = true).
  { unfold existsSync. apply bool_decide_eq_true. rewrite F. eauto. }
  assert (Rd : readFile (StickerRecord.filePath r) w' = Ok content).
  { unfold readFile. rewrite F. reflexivity. }
  exists r. split; [rewrite Hd; reflexivity|]. split; [reflexivity|].
  split; [exact Ex|]. split; [exact Rd|]. split; [reflexivity|].
  intros Img. unfold sendEmoji. rewrite Ch, En. cbn [negb]. rewrite Hd.
  replace (outOfRange 1 (length (r :: _))) with false
    by (symmetry; apply outOfRange_false; cbn [length]; lia).
  change (jsIndex (r :: ?l) (1 - 1)) with (Some r).
  cbn [jsIndex]. rewrite Ex, Rd. cbn [negb tryCatch bind].
  unfold sendFileWithName. rewrite Img. cbn [sessionSend].
  destruct (StickerRecord.isGif r);
    [destruct (Config.gifMode config)|destruct (Config.staticImageMode config)];
    cbn [tryCatch bind]; try (eexists _, _; split; [reflexivity|left; reflexivity]);
    destruct (isBufferMode (Config.fileTransferMode config)); cbn [orb];
    try destruct (fileSend tr); cbn [sessionSend tryCatch bind];
    try (eexists _, _; split; [reflexivity|left; reflexivity]);
    destruct (StickerRecord.filePath r) as [|ch1 path] eqn:P; cbn [tryCatch bind];
    try (eexists _, _; split; [reflexivity|left; reflexivity]);
    (eexists _, _; split; [reflexivity|right; reflexivity]).
Qed.

Lemma ingest_then_get_witness :
  let s := groupSession "g1" [] in
  let env := arrives (pngBytes x07) (t0 + 9) quiet in
  let w' := world (@storeItem sampleRuntime defaultConfig s sampleQuote sampleImg env
                     (startBatch sampleWorld)) in
  exists r, (newestFirst "g1" w') !! 0%nat = Some r /\
            files w' !! StickerRecord.filePath r = Some (pngBytes x07) /\
            StickerRecord.md5 r = hexDigest (pngBytes x07).
Proof.
  intros s env w'.
  destruct (@ingest_then_get sampleRuntime defaultConfig s s sampleQuote sampleImg env
              (startBatch sampleWorld) (pngBytes x07) quiet)
    as (r & I & _ & _ & Rd & M & _).
  - reflexivity.
  - vm_compute. reflexivity.
  - repeat constructor.
  - reflexivity.
  - reflexivity.
  - exists r. split; [exact I|]. split; [|exact M].
    fold w' in Rd. unfold readFile in Rd.
    destruct (files w' !! StickerRecord.filePath r); [congruence|discriminate].
Defined.

(** ** Blob before row *)

Lemma deliver_fails (config : Config.t) (tr : Transport) (buffer : Buffer) (mime : string)
    (fileName : string) (filePath : option string) (forceBuffer : bool) (m : string) :
  let isGif := String.eqb mime "image/gif" in
  imageSend tr = Some m ->
  (modeFor config isGif = Config.file -> fileSend tr <> None) ->
  deliver config tr buffer mime isGif fileName filePath forceBuffer = Throw m.
Proof.
  intros isGif Img FileDown.
  destruct (modeFor config isGif) eqn:Mode.
  - unfold deliver, modeFor in *. subst isGif.
    destruct (mime =? "image/gif")%string; rewrite Mode, Img; reflexivity.
  - destruct (fileSend tr) as [e|] eqn:Send; [|exfalso; apply FileDown; reflexivity].
    subst isGif. rewrite (deliver_fallback _ _ _ _ _ _ _ e) by assumption.
    rewrite Img. reflexivity.
Qed.

(** C9: the loop writes the blob, then sends, then creates the row.  When
    the delivery fails after the blob was written, no row is created (the
    rows are those the eviction left, the counter does not move), the blob
    stays on disk and the item gets a failure line; and every row an
    iteration adds is a row whose blob that iteration wrote and left in
    place. *)
Theorem blob_before_row `{Runtime} (config : Config.t) (session : Session.t)
    (quote : Quote.t) (img : Element.t) (env : ItemEnv) (b : Batch) :
  let b' := storeItem config session quote img env b in
  let channel := Session.channelId session in
  (forall content m,
     truthy (imageUrl img) = true ->
     response env = Ok content ->
     dbGet channel (md5hex content) (world b) = [] ->
     imageSend (transport env) = Some m ->
     (modeFor config (String.eqb (detectMime content) "image/gif") = Config.file ->
      fileSend (transport env) <> None) ->
     rows (world b') = rows (checkAndCleanAlbum config channel (world b)) /\
     nextId (world b') = nextId (world b) /\
     (forall r, r ∈ rows (world b') -> r ∈ rows (world b)) /\
     files (world b') !! blobPath content (saveClock env) = Some content /\
     results b' = (results b ++ [storeFailedLine m])%list /\
     successCount b' = successCount b) /\
  (forall r, r ∈ rows (world b') -> r ∉ rows (world b) ->
     exists content,
       response env = Ok content /\
       r = recordOf session quote content env (nextId (world b)) /\
       files (world b') !! StickerRecord.filePath r = Some content /\
       stored config session quote img env b).
Proof.
  intros b' channel. split.
  - intros content m U R G Img FileDown.
    assert (E : b' = {| world := writeFile (blobPath content (saveClock env)) content
                                   (checkAndCleanAlbum config channel (world b));
                        results := results b ++ [storeFailedLine m];
                        successCount := successCount b; sent := sent b |}).
    { subst b'. unfold storeItem. open_item U R.
      fold channel. rewrite G. cbn [saveFile]. fold (blobPath content (saveClock env)).
      rewrite (deliver_fails _ _ _ _ _ _ _ m) by assumption. reflexivity. }
    rewrite E. cbn [world results successCount rows nextId files writeFile].
    split; [reflexivity|]. split; [apply nextId_checkAndCleanAlbum|].
    split; [intros r; apply rows_checkAndCleanAlbum_elem|].
    split; [apply lookup_insert_eq|]. split; reflexivity.
  - intros r In Out. subst b'. unfold stored, storeItem in *.
    destruct (truthy (imageUrl img)); cbn [negb] in *; [|contradiction].
    destruct (response env) as [content|message];
      cbn [downloadImage tryCatch bind] in *; [|contradiction].
    cbn [fingerprint dl_buffer dl_mime dl_size fp_md5 fp_mime fp_ext fp_isGif fp_size] in *.
    destruct (dbGet _ _ _) as [|existing0 rest]; [|contradiction].
    cbn [saveFile] in *. fold (blobPath content (saveClock env)) in *.
    destruct (deliver _ _ _ _ _ _ _ _) as [[line payload]|message]; cbn [world] in *.
    + cbn [rows dbCreate writeFile] in In. apply elem_of_app in In as [In|In].
      * exfalso. apply Out. eapply rows_checkAndCleanAlbum_elem, In.
      * apply list_elem_of_singleton in In. exists content.
        cbn [nextId writeFile] in In. rewrite nextId_checkAndCleanAlbum in In.
        split; [reflexivity|]. split; [exact In|]. split; [|reflexivity].
        rewrite In. cbn [files dbCreate writeFile recordOf StickerRecord.filePath].
        apply lookup_insert_eq.
    + exfalso. apply Out. cbn [rows writeFile] in In.
      eapply rows_checkAndCleanAlbum_elem, In.
Qed.

Lemma blob_before_row_witness :
  let s := groupSession "g1" [] in
  let env := arrives (gifBytes x09) (t0 + 9) allDown in
  let b' := @storeItem sampleRuntime defaultConfig s sampleQuote sampleImg env
              (startBatch sampleWorld) in
  rows (world b') = rows sampleWorld /\
  files (world b') !! "/koishi/data/sticker-convert/2023-11-14-4749463809.gif"
    = Some (gifBytes x09) /\
  successCount b' = 0%nat.
Proof.
  intros s env b'.
  destruct (@blob_before_row sampleRuntime defaultConfig s sampleQuote sampleImg env
              (startBatch sampleWorld)) as [Fail _].
  destruct (Fail (gifBytes x09) "offline") as (Rw & _ & _ & Fl & _ & Cn).
  - reflexivity.
  - reflexivity.
  - vm_compute. reflexivity.
  - reflexivity.
  - intros _. discriminate.
  - fold b' in Rw, Fl, Cn. split; [|split; [exact Fl|exact Cn]].
    rewrite Rw. vm_compute. reflexivity.
Defined.

(** ** One blob for two channels *)

Lemma deleteEmoji_in_range (config : Config.t) (session : Session.t) (index : Z) (w : World)
    (r : StickerRecord.t) :
  isAlbumEnabledForGroup config (Session.channelId session) = true ->
  hasDeletePermission config session = true ->
  (1 <= index <= Z.of_nat (length (dbSelect (Session.channelId session) w)))%Z ->
  jsIndex (newestFirst (Session.channelId session) w) (index - 1) = Some r ->
  deleteEmoji config session index w =
    (dbRemoveId (StickerRecord.id r) (unlinkIfExists (StickerRecord.filePath r) w),
     "✅ 已删除表情: " ++ StickerRecord.fileName r).
Proof.
  intros En Perm Range Hr. unfold deleteEmoji. rewrite En, Perm. cbn [negb].
  rewrite newestFirst_length.
  rewrite (proj2 (outOfRange_false index _)) by exact Range.
  rewrite Hr. reflexivity.
Qed.

Lemma dbSelect_other_checkAndCleanAlbum (config : Config.t) (channelId other : string)
    (w : World) :
  wfWorld w -> other <> channelId ->
  dbSelect other (checkAndCleanAlbum config channelId w) = dbSelect other w.
Proof.
  intros WF NE. unfold dbSelect. apply filter_checkAndCleanAlbum; [exact WF|].
  intros r Hr. unfold inChannel in *. apply String.eqb_eq in Hr.
  apply String.eqb_neq. congruence.
Qed.

(** C10: the path of a blob is made of the date of the clock, the hash
    and the extension, and of nothing of the channel.  So when the same
    bytes are stored on the same day in two channels, the two records name
    one file; and deleting the record of the first channel by its index
    unlinks that file while the record of the second channel stays, with a
    path at which there is no file any more. *)
Theorem shared_blob_dangles `{Runtime} (config : Config.t) (sA sB : Session.t)
    (qA qB : Quote.t) (imgA imgB : Element.t) (envA envB : ItemEnv) (content : Buffer)
    (b : Batch) :
  let chA := Session.channelId sA in
  let chB := Session.channelId sB in
  let b1 := storeItem config sA qA imgA envA b in
  let w2 := world (storeItem config sB qB imgB envB b1) in
  let rA := recordOf sA qA content envA (nextId (world b)) in
  let rB := recordOf sB qB content envB (nextId (world b1)) in
  chA <> chB ->
  response envA = Ok content ->
  response envB = Ok content ->
  isoDate (saveClock envA) = isoDate (saveClock envB) ->
  wfWorld (world b) ->
  stored config sA qA imgA envA b ->
  stored config sB qB imgB envB b1 ->
  isAlbumEnabledForGroup config chA = true ->
  hasDeletePermission config sA = true ->
  StickerRecord.filePath rA = StickerRecord.filePath rB /\
  rA ∈ dbSelect chA w2 /\
  rB ∈ dbSelect chB w2 /\
  files w2 !! StickerRecord.filePath rB = Some content /\
  exists index,
    jsIndex (newestFirst chA w2) (index - 1) = Some rA /\
    let w3 := fst (deleteEmoji config sA index w2) in
    (rA ∉ rows w3) /\
    rB ∈ dbSelect chB w3 /\
    files w3 !! StickerRecord.filePath rB = None /\
    existsSync (StickerRecord.filePath rB) w3 = false.
Proof.
  intros chA chB b1 w2 rA rB NE RA RB Day WF StA StB En Perm.
  destruct (storeItem_stored_inv _ _ _ _ _ _ StA)
    as (cA & lineA & pA & _ & RA' & _ & _ & EA).
  rewrite RA in RA'. injection RA' as <-.
  destruct (storeItem_stored_inv _ _ _ _ _ _ StB)
    as (cB & lineB & pB & _ & RB' & _ & _ & EB).
  rewrite RB in RB'. injection RB' as <-.
  fold b1 in EA, EB. fold chA in EA. fold chB in EB.
  assert (WF1 : wfWorld (world b1)) by (apply wf_storeItem, WF).
  assert (Path : StickerRecord.filePath rA = StickerRecord.filePath rB).
  { subst rA rB. cbn [recordOf StickerRecord.filePath]. unfold blobPath. rewrite Day.
    reflexivity. }
  assert (InA1 : rA ∈ dbSelect chA (world b1)).
  { rewrite EA. unfold dbSelect. cbn [world storedBatch rows dbCreate writeFile nextId].
    rewrite nextId_checkAndCleanAlbum. fold rA. apply elem_of_filter_bool. split.
    - apply elem_of_app. right. apply list_elem_of_singleton. reflexivity.
    - unfold inChannel. subst rA. cbn. apply String.eqb_refl. }
  assert (Rows2 : rows w2 = (rows (checkAndCleanAlbum config chB (world b1)) ++ [rB])%list).
  { subst w2. rewrite EB. cbn [world storedBatch rows dbCreate writeFile nextId].
    rewrite nextId_checkAndCleanAlbum. reflexivity. }
  assert (InA2 : rA ∈ dbSelect chA w2).
  { unfold dbSelect. rewrite Rows2, List.filter_app. apply elem_of_app. left.
    fold (dbSelect chA (checkAndCleanAlbum config chB (world b1))).
    rewrite dbSelect_other_checkAndCleanAlbum by assumption. exact InA1. }
  assert (InB2 : rB ∈ dbSelect chB w2).
  { unfold dbSelect. rewrite Rows2, List.filter_app. apply elem_of_app. right.
    subst rB. cbn. unfold inChannel. cbn. fold chB. rewrite String.eqb_refl.
    apply list_elem_of_singleton. reflexivity. }
  assert (F2 : files w2 !! StickerRecord.filePath rB = Some content).
  { subst w2. rewrite EB. cbn [world storedBatch files dbCreate writeFile].
    subst rB. cbn [recordOf StickerRecord.filePath]. apply lookup_insert_eq. }
  split; [exact Path|]. split; [exact InA2|]. split; [exact InB2|]. split; [exact F2|].
  assert (InN : rA ∈ newestFirst chA w2) by (unfold newestFirst; apply orderBy_elem, InA2).
  apply list_elem_of_lookup in InN as [i Hi].
  exists (Z.of_nat i + 1)%Z.
  assert (J : jsIndex (newestFirst chA w2) (Z.of_nat i + 1 - 1) = Some rA).
  { unfold jsIndex. rewrite (proj2 (Z.ltb_ge _ _)) by lia.
    replace (Z.to_nat (Z.of_nat i + 1 - 1)) with i by lia. exact Hi. }
  split; [exact J|].
  rewrite (deleteEmoji_in_range config sA _ w2 rA); try assumption.
  2: { apply lookup_lt_Some in Hi. rewrite newestFirst_length in Hi. fold chA. lia. }
  cbn [fst].
  assert (Ids : StickerRecord.id rB <> StickerRecord.id rA).
  { subst rA rB. cbn [recordOf StickerRecord.id]. subst b1.
    rewrite nextId_stored by exact StA. lia. }
  split; [|split; [|split]].
  - cbn [rows dbRemoveId]. rewrite rows_unlinkIfExists. intros Hin.
    apply elem_of_filter_bool in Hin as [_ Hin].
    rewrite Nat.eqb_refl in Hin. discriminate Hin.
  - unfold dbSelect. cbn [rows dbRemoveId]. rewrite rows_unlinkIfExists.
    rewrite filter_filter_comm. apply elem_of_filter_bool. split; [exact InB2|].
    apply negb_true_iff, Nat.eqb_neq, Ids.
  - cbn [files dbRemoveId]. rewrite files_unlinkIfExists, Path. apply lookup_delete_eq.
  - unfold existsSync. apply bool_decide_eq_false. cbn [files dbRemoveId].
    rewrite files_unlinkIfExists, Path, lookup_delete_eq. intros [x Hx]. discriminate Hx.
Qed.

Lemma shared_blob_dangles_witness :
  let sA := groupSession "g1" ["admin"] in
  let sB := groupSession "g2" [] in
  let b1 := @storeItem sampleRuntime defaultConfig sA sampleQuote sampleImg
              (arrives (pngBytes x05) t0 quiet) (startBatch emptyWorld) in
  let w2 := world (@storeItem sampleRuntime defaultConfig sB sampleQuote sampleImg
                     (arrives (pngBytes x05) (t0 + 60000) quiet) b1) in
  let w3 := fst (deleteEmoji defaultConfig sA 1 w2) in
  map StickerRecord.filePath (rows w2) =
    ["/koishi/data/sticker-convert/2023-11-14-89504e4705.png";
     "/koishi/data/sticker-convert/2023-11-14-89504e4705.png"] /\
  map StickerRecord.filePath (rows w3) =
    ["/koishi/data/sticker-convert/2023-11-14-89504e4705.png"] /\
  files w3 !! "/koishi/data/sticker-convert/2023-11-14-89504e4705.png" = None.
Proof.
  intros sA sB b1 w2 w3.
  destruct (@shared_blob_dangles sampleRuntime defaultConfig sA sB sampleQuote sampleQuote
              sampleImg sampleImg (arrives (pngBytes x05) t0 quiet)
              (arrives (pngBytes x05) (t0 + 60000) quiet) (pngBytes x05)
              (startBatch emptyWorld))
    as (_ & _ & _ & _ & index & J & _ & _ & F & _).
  - discriminate.
  - reflexivity.
  - reflexivity.
  - vm_compute. reflexivity.
  - exact wf_emptyWorld.
  - vm_compute. reflexivity.
  - vm_compute. reflexivity.
  - reflexivity.
  - reflexivity.
  - split; [vm_compute; reflexivity|]. split; vm_compute; reflexivity.
Defined.

(** ** Reachable worlds *)

Lemma wf_deleteEmoji (config : Config.t) (session : Session.t) (index : Z) (w : World) :
  wfWorld w -> wfWorld (fst (deleteEmoji config session index w)).
Proof.
  intros WF. unfold deleteEmoji. destruct (negb _); [exact WF|].
  destruct (negb _); [exact WF|]. destruct (outOfRange _ _); [exact WF|].
  destruct (jsIndex _ _) as [record|]; [|exact WF]. cbn [fst].
  eapply wf_filter; [| |exact WF]; cbn [rows nextId dbRemoveId].
  - rewrite rows_unlinkIfExists. reflexivity.
  - apply nextId_unlinkIfExists.
Qed.

Lemma wf_clearAlbum (config : Config.t) (session : Session.t) (env : ClearEnv) (w : World) :
  wfWorld w -> wfWorld (fst (clearAlbum config session env w)).
Proof.
  intros WF. unfold clearAlbum. destruct (clearAlbumAsk _ _ _) as [line|records]; [exact WF|].
  destruct (sessionSend _ _); [|exact WF].
  rewrite clearAlbumResolve_unlinkAll. destruct (negb _); [exact WF|].
  cbn [fst]. destruct (unlinkAll_world records w) as (R & N & _).
  eapply wf_filter; [| |exact WF]; cbn [rows nextId dbRemoveChannel];
    [rewrite R; reflexivity|exact N].
Qed.

(** Every world the commands reach from the empty one is well formed. *)
Lemma wf_run `{Runtime} (config : Config.t) (cmds : list Command) (w : World) :
  wfWorld w -> wfWorld (run config w cmds).
Proof.
  unfold run. revert w. induction cmds as [|c cmds IH]; intros w WF; [exact WF|].
  cbn [fold_left]. apply IH. destruct c; cbn [exec]; try exact WF.
  - rewrite after_convertEmojiOnly. exact WF.
  - apply (after_convertEmoji wfWorld); [|exact WF].
    intros s q img e b'. apply wf_storeItem.
  - destruct (missing index); [exact WF|apply wf_deleteEmoji, WF].
  - apply wf_clearAlbum, WF.
Qed.

(** Deduplication is an invariant: no command makes a second row for a
    channel and a hash. *)
Lemma uniqueKeys_filter (p : StickerRecord.t -> bool) (w w' : World) :
  rows w' = List.filter p (rows w) -> uniqueKeys w -> uniqueKeys w'.
Proof.
  intros R U ch h. unfold dbGet. rewrite R, filter_filter_comm.
  etransitivity; [|apply (U ch h)]. unfold dbGet.
  generalize (List.filter (fun r => inChannel ch r && (StickerRecord.md5 r =? h)%string) (rows w)).
  intros l. induction l as [|x l IH]; cbn; [lia|]. destruct (p x); cbn; lia.
Qed.

Lemma uniqueKeys_same_rows (w w' : World) :
  rows w' = rows w -> uniqueKeys w -> uniqueKeys w'.
Proof. intros R U ch h. unfold dbGet. rewrite R. apply U. Qed.

Lemma uniqueKeys_storeItem `{Runtime} (config : Config.t) (session : Session.t)
    (quote : Quote.t) (img : Element.t) (env : ItemEnv) (b : Batch) :
  uniqueKeys (world b) -> uniqueKeys (world (storeItem config session quote img env b)).
Proof.
  intros U. unfold storeItem.
  destruct (truthy (imageUrl img)); cbn [negb]; [|exact U].
  destruct (downloadImage (response env)) as [d|message]; [|exact U].
  destruct (dbGet _ _ _) eqn:G; [|exact U].
  cbn [saveFile].
  assert (U1 : uniqueKeys (checkAndCleanAlbum config (Session.channelId session) (world b))).
  { rewrite checkAndCleanAlbum_evicted. eapply uniqueKeys_filter; [apply rows_evict|exact U]. }
  destruct (deliver _ _ _ _ _ _ _ _) as [[line payload]|message]; cbn [world].
  - intros ch h. unfold dbGet. cbn [rows dbCreate writeFile]. rewrite List.filter_app.
    rewrite length_app. cbn [List.filter].
    fold (dbGet ch h (checkAndCleanAlbum config (Session.channelId session) (world b))).
    destruct (_ && _) eqn:M; cbn [length]; [|specialize (U1 ch h); lia].
    apply andb_true_iff in M as [M1 M2]. unfold inChannel in M1.
    cbn [StickerRecord.channelId StickerRecord.md5] in M1, M2.
    apply String.eqb_eq in M1, M2. subst ch h.
    rewrite dbGet_checkAndCleanAlbum by exact G. cbn. lia.
  - eapply uniqueKeys_same_rows; [|exact U1]. reflexivity.
Qed.

Lemma uniqueKeys_run `{Runtime} (config : Config.t) (cmds : list Command) (w : World) :
  uniqueKeys w -> uniqueKeys (run config w cmds).
Proof.
  unfold run. revert w. induction cmds as [|c cmds IH]; intros w U; [exact U|].
  cbn [fold_left]. apply IH. destruct c; cbn [exec]; try exact U.
  - rewrite after_convertEmojiOnly. exact U.
  - apply (after_convertEmoji uniqueKeys); [|exact U].
    intros s q img e b'. apply uniqueKeys_storeItem.
  - destruct (missing index); [exact U|]. unfold deleteEmoji.
    destruct (negb _); [exact U|]. destruct (negb _); [exact U|].
    destruct (outOfRange _ _); [exact U|].
    destruct (jsIndex _ _) as [record|]; [|exact U]. cbn [fst].
    eapply uniqueKeys_filter; [|exact U]. cbn [rows dbRemoveId].
    rewrite rows_unlinkIfExists. reflexivity.
  - unfold clearAlbum. destruct (clearAlbumAsk _ _ _) as [line|records]; [exact U|].
    destruct (sessionSend _ _); [|exact U].
    rewrite clearAlbumResolve_unlinkAll. destruct (negb _); [exact U|]. cbn [fst].
    destruct (unlinkAll_world records w) as (R & _ & _).
    eapply uniqueKeys_filter; [|exact U]. cbn [rows dbRemoveChannel]. rewrite R. reflexivity.
Qed.

(** ** Worked examples *)

Example utcDate_samples :
  utcDate 0 = "1970-01-01" /\ utcDate (-1) = "1969-12-31" /\
  utcDate 951782400000 = "2000-02-29" /\ utcDate t0 = "2023-11-14".
Proof. repeat apply conj; vm_compute; reflexivity. Qed.

Example basename_samples :
  basename "/koishi/data/sticker-convert/2023-11-14-ab.png" = "2023-11-14-ab.png" /\
  basename "C:\data\x.gif" = "x.gif" /\ basename "plain" = "plain".
Proof. repeat apply conj; vm_compute; reflexivity. Qed.

Example detectMime_samples :
  detectMime (pngBytes x00) = "image/png" /\
  detectMime [xff; xd8; xff; xe0] = "image/jpeg" /\
  detectMime [xff; xd8; xff] = "image/unknown" /\
  detectMime (gifBytes x00) = "image/gif" /\
  detectMime [x52; x49; x46; x46; x00] = "image/webp" /\
  detectMime [] = "image/unknown".
Proof. repeat apply conj; vm_compute; reflexivity. Qed.

Example trim_samples :
  trim paddedConfirm = confirmWord /\ confirmed (Some [0x786E; 0x20; 0x8BA4]%N) = false /\
  confirmed None = false.
Proof. repeat apply conj; vm_compute; reflexivity. Qed.

(** Six distinct contents into an album of five: the first one is gone,
    with its blob. *)
Example fifo_eviction_scenario :
  let b := @ingestAll sampleRuntime smallConfig sampleIngests (startBatch emptyWorld) in
  map StickerRecord.md5 (rows (world b)) =
    ["89504e4702"; "89504e4703"; "89504e4704"; "89504e4705"; "89504e4706"] /\
  files (world b) !! "/koishi/data/sticker-convert/2023-11-14-89504e4701.png" = None /\
  successCount b = 6%nat.
Proof. repeat apply conj; vm_compute; reflexivity. Qed.

Example convertEmoji_reply :
  text (@convertEmoji sampleRuntime defaultConfig (groupSession "g1" [])
          (fun _ => arrives (pngBytes x01) t0 quiet) emptyWorld)
  = "✅ 成功转存 1 个表情" ++ newline ++ "🖼️ 图片已转换".
Proof. vm_compute. reflexivity. Qed.

(** * Part 3: further properties *)

(** ** Detection, byte by byte *)

(** X1: the detected type in terms of the bytes.  PNG, JPEG (with a
    fourth byte present) and GIF are recognised by their prefix; WEBP by
    four bytes that spell RIFF once the high bit of each is cleared; every
    other buffer, and every buffer shorter than four bytes, is unknown. *)
Theorem detectMime_exact (buffer : Buffer) :
  (detectMime buffer = "image/png" <-> exists rest, buffer = (pngMagic ++ rest)%list) /\
  (detectMime buffer = "image/jpeg" <-> exists b rest, buffer = (jpegMagic ++ b :: rest)%list) /\
  (detectMime buffer = "image/gif" <-> exists rest, buffer = (gifMagic ++ rest)%list) /\
  (detectMime buffer = "image/webp" <->
   (4 <= length buffer)%nat /\ riffUpToHighBit buffer = true) /\
  (detectMime buffer = "image/unknown" <->
   (length buffer < 4)%nat \/
   (startsWith pngMagic buffer = false /\ startsWith jpegMagic buffer = false /\
    startsWith gifMagic buffer = false /\ riffUpToHighBit buffer = false)).
Proof.
  split; [apply detectMime_png|]. split; [apply detectMime_jpeg|].
  split; [apply detectMime_gif|]. split; [apply detectMime_webp|].
  rewrite detectMime_bytes.
  destruct (4 <=? length buffer)%nat eqn:L.
  - apply Nat.leb_le in L.
    destruct (startsWith pngMagic buffer), (startsWith jpegMagic buffer),
      (startsWith gifMagic buffer), (riffUpToHighBit buffer);
      split; intros E; try discriminate E; try tauto;
      destruct E as [E|E]; try lia; intuition discriminate.
  - apply Nat.leb_gt in L. split; [left; exact L|reflexivity].
Qed.

(** ** The album switch and the guards of the conversions *)

(** X2: the album of a channel is enabled exactly when the feature is on
    and the list of groups is empty or names the channel; in a channel
    where it is not, storing, viewing, sending, deleting and clearing all
    answer at once, send nothing and leave the world as it is. *)
Theorem album_switch_gates_commands `{Runtime} (config : Config.t) (session : Session.t)
    (env : nat -> ItemEnv) (index page : Z) (tr : Transport) (cenv : ClearEnv) (w : World) :
  let channel := Session.channelId session in
  (isAlbumEnabledForGroup config channel = true <->
   Config.enableAlbum config = true /\
   (Config.albumEnabledGroups config = [] \/ channel ∈ Config.albumEnabledGroups config)) /\
  (isAlbumEnabledForGroup config channel = false ->
   after (convertEmoji config session env w) = w /\
   delivered (convertEmoji config session env w) = [] /\
   viewAlbum config session page w = ViewDisabled /\
   sendEmoji config session index tr w = Ok (disabledLine, []) /\
   deleteEmoji config session index w = (w, disabledLine) /\
   clearAlbum config session cenv w = (w, Ok disabledLine)).
Proof.
  intros channel. split.
  - unfold isAlbumEnabledForGroup.
    destruct (Config.enableAlbum config); cbn [negb]; [|intuition discriminate].
    destruct (Config.albumEnabledGroups config) as [|g groups] eqn:G; cbn [length Nat.eqb].
    + intuition.
    + rewrite bool_decide_eq_true. split.
      * intros E. split; [reflexivity|right; exact E].
      * intros [_ [E|E]]; [discriminate E|exact E].
  - intros Off. fold channel.
    unfold convertEmoji, viewAlbum, sendEmoji, deleteEmoji, clearAlbum, clearAlbumAsk.
    fold channel. rewrite Off. cbn [negb].
    destruct (negb (isOneBotPlatform session)); repeat apply conj; reflexivity.
Qed.

Lemma album_switch_gates_commands_witness :
  let config := {| Config.enableAlbum := true; Config.albumEnabledGroups := ["g1"];
                   Config.albumMaxSize := 20; Config.albumShowImages := true;
                   Config.deletePermissionLevel := 3;
                   Config.staticImageMode := Config.buffer; Config.gifMode := Config.file;
                   Config.fileTransferMode := Config.buffer; Config.debug := false |} in
  isAlbumEnabledForGroup config "g2" = false /\
  deleteEmoji config (groupSession "g2" ["owner"]) 1 sampleWorld = (sampleWorld, disabledLine).
Proof.
  intros config. split; [reflexivity|].
  destruct (@album_switch_gates_commands sampleRuntime config (groupSession "g2" ["owner"])
              (fun _ => arrives (pngBytes x01) t0 quiet) 1 1 quiet
              {| promptSend := None; promptReply := None |} sampleWorld) as [_ Off].
  destruct (Off eq_refl) as (_ & _ & _ & _ & D & _). exact D.
Defined.

(** X3: both conversions answer at once, send nothing and leave the world
    as it is when the platform is not onebot, when no message is quoted,
    and when the quoted message has no img, image or mface element. *)
Theorem conversion_guards `{Runtime} (config : Config.t) (session : Session.t)
    (env : nat -> ItemEnv) (w : World) :
  isOneBotPlatform session = false \/
  Session.quote session = None \/
  (exists quote, Session.quote session = Some quote /\ allImageLike quote = []) ->
  let kept := convertEmoji config session env w in
  let converted := convertEmojiOnly config session env w in
  after kept = w /\ delivered kept = [] /\
  after converted = w /\ delivered converted = [] /\
  (isOneBotPlatform session = false ->
   text kept = "此插件仅支持 QQ 平台（OneBot 适配器）" /\ text converted = text kept) /\
  (isOneBotPlatform session = true -> Session.quote session = None ->
   text converted = "请回复包含表情的消息后使用此命令") /\
  (isOneBotPlatform session = true ->
   (exists quote, Session.quote session = Some quote /\ allImageLike quote = []) ->
   text converted = "被回复的消息中没有找到图片表情").
Proof.
  intros Guard kept converted. subst kept converted.
  unfold convertEmoji, convertEmojiOnly.
  destruct (isOneBotPlatform session); cbn [negb].
  - destruct Guard as [G|[G|(quote & G & A)]]; [discriminate G| |].
    + rewrite G. destruct (negb _); repeat apply conj; try reflexivity;
        try (intros; congruence); intros _ (quote & Q & _); discriminate Q.
    + rewrite G, A. destruct (negb _); repeat apply conj; try reflexivity;
        intros; congruence.
  - repeat apply conj; try reflexivity; try (intros; congruence).
    intros _. split; reflexivity.
Qed.

Lemma conversion_guards_witness :
  text (@convertEmojiOnly sampleRuntime defaultConfig directSession
          (fun _ => arrives (pngBytes x01) t0 quiet) sampleWorld)
  = "请回复包含表情的消息后使用此命令".
Proof.
  destruct (@conversion_guards sampleRuntime defaultConfig directSession
              (fun _ => arrives (pngBytes x01) t0 quiet) sampleWorld
              (or_intror (or_introl eq_refl))) as (_ & _ & _ & _ & _ & Q & _).
  apply Q; reflexivity.
Defined.

(** X4: an element without a usable link is skipped with the invalid-link
    line: nothing is downloaded, stored, sent or counted.  For an mface
    element only [url] counts, whatever [src] holds; for the others [src]
    counts first and an empty [src] falls back to [url]. *)
Theorem invalid_link_skipped `{Runtime} (config : Config.t) (session : Session.t)
    (quote : Quote.t) (img : Element.t) (env : ItemEnv) (b : Batch) :
  (truthy (imageUrl img) = false <->
   if String.eqb (Element.type img) "mface" then truthy (Element.url img) = false
   else truthy (Element.src img) = false /\ truthy (Element.url img) = false) /\
  (truthy (imageUrl img) = false ->
   storeItem config session quote img env b = pushLine "⚠️ 发现无效图片链接" b /\
   convertItem config img env b = pushLine "⚠️ 发现无效图片链接" b).
Proof.
  split.
  - unfold imageUrl. destruct (String.eqb _ _); [tauto|].
    destruct (truthy (Element.src img)) eqn:S; intuition congruence.
  - intros U. unfold storeItem, convertItem. rewrite U. split; reflexivity.
Qed.

Lemma invalid_link_skipped_witness :
  let sticker := {| Element.type := "mface"; Element.src := Some "https://example/a";
                    Element.url := Some "" |} in
  results (@storeItem sampleRuntime defaultConfig (groupSession "g1" []) sampleQuote sticker
             (arrives (pngBytes x01) t0 quiet) (startBatch emptyWorld))
  = ["⚠️ 发现无效图片链接"].
Proof.
  intros sticker.
  destruct (@invalid_link_skipped sampleRuntime defaultConfig (groupSession "g1" [])
              sampleQuote sticker (arrives (pngBytes x01) t0 quiet) (startBatch emptyWorld))
    as [_ Skip].
  destruct (Skip eq_refl) as [E _]. rewrite E. reflexivity.
Defined.

(** X5: an iteration of the storing loop touches the world only for a
    fresh item: with a bad link, a failed download or a content the channel
    already holds, the rows, the counter and the files are what they were
    (in particular nothing is evicted) and nothing is sent or counted. *)
Theorem only_fresh_items_touch_the_world `{Runtime} (config : Config.t)
    (session : Session.t) (quote : Quote.t) (img : Element.t) (env : ItemEnv) (b : Batch) :
  truthy (imageUrl img) = false \/
  (exists message, response env = Throw message) \/
  (exists content, response env = Ok content /\
     dbGet (Session.channelId session) (md5hex content) (world b) <> []) ->
  let b' := storeItem config session quote img env b in
  world b' = world b /\ sent b' = sent b /\ successCount b' = successCount b /\
  (forall message, response env = Throw message -> truthy (imageUrl img) = true ->
     results b' = (results b ++ [storeFailedLine ("下载失败: " ++ message)])%list).
Proof.
  intros Cause b'. subst b'. unfold storeItem.
  destruct (truthy (imageUrl img)) eqn:U; cbn [negb].
  2: { repeat apply conj; try reflexivity. intros m _ E. discriminate E. }
  destruct (response env) as [content|message] eqn:R; cbn [downloadImage tryCatch bind].
  2: { repeat apply conj; try reflexivity. intros m E _. injection E as <-. reflexivity. }
  destruct Cause as [C|[(m & C)|(c & C & G)]]; try discriminate C.
  injection C as <-. cbn [fingerprint dl_buffer fp_md5].
  destruct (dbGet _ _ _); [congruence|].
  repeat apply conj; try reflexivity. intros m E. discriminate E.
Qed.

Lemma only_fresh_items_touch_the_world_witness :
  world (@storeItem sampleRuntime smallConfig (groupSession "g1" []) sampleQuote sampleImg
           {| response := Throw "timeout"; saveClock := t0; transport := quiet;
              createClock := t0 |} (startBatch sampleWorld))
  = sampleWorld.
Proof.
  destruct (@only_fresh_items_touch_the_world sampleRuntime smallConfig (groupSession "g1" [])
              sampleQuote sampleImg
              {| response := Throw "timeout"; saveClock := t0; transport := quiet;
                 createClock := t0 |} (startBatch sampleWorld)
              (or_intror (or_introl (ex_intro _ "timeout" eq_refl)))) as (E & _).
  exact E.
Defined.

(** ** Accounting of a batch *)

Lemma storeItem_accounting `{Runtime} (config : Config.t) (session : Session.t)
    (quote : Quote.t) (img : Element.t) (env : ItemEnv) (b : Batch) :
  let b' := storeItem config session quote img env b in
  length (results b') = S (length (results b)) /\
  (successCount b' + length (sent b) = successCount b + length (sent b'))%nat /\
  (nextId (world b') + successCount b = nextId (world b) + successCount b')%nat /\
  (length (rows (world b')) + successCount b <= length (rows (world b)) + successCount b')%nat /\
  (successCount b <= successCount b' <= S (successCount b))%nat.
Proof.
  intros b'. subst b'. unfold storeItem.
  assert (P : forall line, length (results (pushLine line b)) = S (length (results b))).
  { intros line. cbn. rewrite length_app. cbn. lia. }
  destruct (truthy (imageUrl img)); cbn [negb];
    [|rewrite P; cbn [pushLine world successCount sent]; lia].
  destruct (downloadImage (response env)) as [d|message];
    [|rewrite P; cbn [pushLine world successCount sent]; lia].
  destruct (dbGet _ _ _); [|rewrite P; cbn [pushLine world successCount sent]; lia].
  cbn [saveFile].
  assert (L : (length (rows (checkAndCleanAlbum config (Session.channelId session) (world b)))
               <= length (rows (world b)))%nat).
  { rewrite checkAndCleanAlbum_evicted, rows_evict. apply List.filter_length_le. }
  destruct (deliver _ _ _ _ _ _ _ _) as [[line payload]|message];
    cbn [world results successCount sent rows nextId dbCreate writeFile];
    rewrite ?length_app, ?nextId_checkAndCleanAlbum; cbn [length]; lia.
Qed.

(** X6: the storing loop pushes exactly one line per image, whatever
    happens to it; it counts an item exactly when it sent a payload for it
    and created a row for it, so the payloads sent, the ids consumed and
    the success count of a batch agree, and the table grows by at most that
    count. *)
Theorem storeLoop_accounting `{Runtime} (config : Config.t) (session : Session.t)
    (quote : Quote.t) (items : list (Element.t * ItemEnv)) (b : Batch) :
  let b' := storeLoop config session quote items b in
  length (results b') = (length (results b) + length items)%nat /\
  (successCount b' + length (sent b) = successCount b + length (sent b'))%nat /\
  (nextId (world b') + successCount b = nextId (world b) + successCount b')%nat /\
  (length (rows (world b')) + successCount b <= length (rows (world b)) + successCount b')%nat /\
  (successCount b <= successCount b' <= successCount b + length items)%nat.
Proof.
  unfold storeLoop. revert b. induction items as [|[img env] items IH]; intros b.
  - cbn. lia.
  - cbn [fold_left fst snd length].
    specialize (IH (storeItem config session quote img env b)).
    pose proof (storeItem_accounting config session quote img env b) as S1.
    cbv zeta in IH, S1. cbv zeta. lia.
Qed.


(** ** The bound as an invariant *)

Lemma dbSelect_length_filter (p : StickerRecord.t -> bool) (channelId : string) (w w' : World) :
  rows w' = List.filter p (rows w) ->
  (length (dbSelect channelId w') <= length (dbSelect channelId w))%nat.
Proof.
  intros R. unfold dbSelect. rewrite R, filter_filter_comm. apply List.filter_length_le.
Qed.

Lemma withinCapacity_filter (config : Config.t) (p : StickerRecord.t -> bool) (w w' : World) :
  rows w' = List.filter p (rows w) -> withinCapacity config w -> withinCapacity config w'.
Proof.
  intros R C ch. specialize (C ch). pose proof (dbSelect_length_filter p ch w w' R). lia.
Qed.

Lemma checkAndCleanAlbum_room (config : Config.t) (channelId : string) (w : World) :
  (1 <= Config.albumMaxSize config)%Z -> wfWorld w ->
  (Z.of_nat (length (dbSelect channelId (checkAndCleanAlbum config channelId w)))
   <= Z.max (Config.albumMaxSize config - 1) (Z.of_nat (length (dbSelect channelId w)) ))%Z /\
  ((Z.of_nat (length (dbSelect channelId w)) <= Config.albumMaxSize config)%Z ->
   (Z.of_nat (length (dbSelect channelId (checkAndCleanAlbum config channelId w)))
    <= Config.albumMaxSize config - 1)%Z).
Proof.
  intros HM WF. rewrite <- !newestFirst_length.
  rewrite newestFirst_checkAndCleanAlbum by assumption.
  destruct (_ <=? _)%Z eqn:C.
  - apply Z.leb_le in C. rewrite length_take. lia.
  - apply Z.leb_gt in C. lia.
Qed.

Lemma withinCapacity_storeItem `{Runtime} (config : Config.t) (session : Session.t)
    (quote : Quote.t) (img : Element.t) (env : ItemEnv) (b : Batch) :
  (1 <= Config.albumMaxSize config)%Z ->
  wfWorld (world b) -> withinCapacity config (world b) ->
  withinCapacity config (world (storeItem config session quote img env b)).
Proof.
  intros HM WF Cap. unfold storeItem.
  destruct (truthy (imageUrl img)); cbn [negb]; [|exact Cap].
  destruct (downloadImage (response env)) as [d|message]; [|exact Cap].
  destruct (dbGet _ _ _); [|exact Cap].
  cbn [saveFile]. set (ch := Session.channelId session).
  assert (Room : forall c,
            (Z.of_nat (length (dbSelect c (checkAndCleanAlbum config ch (world b))))
             <= Config.albumMaxSize config - (if String.eqb ch c then 1 else 0))%Z).
  { intros c. destruct (String.eqb_spec ch c) as [<-|NE].
    - apply checkAndCleanAlbum_room; [assumption|assumption|apply Cap].
    - rewrite dbSelect_other_checkAndCleanAlbum by (auto; congruence).
      specialize (Cap c). lia. }
  destruct (deliver _ _ _ _ _ _ _ _) as [[line payload]|message]; cbn [world].
  - intros c. unfold dbSelect. cbn [rows dbCreate writeFile]. rewrite List.filter_app, length_app.
    fold (dbSelect c (checkAndCleanAlbum config ch (world b))).
    specialize (Room c). cbn [List.filter]. unfold inChannel.
    cbn [StickerRecord.channelId]. fold ch. fold (inChannel c).
    destruct (String.eqb ch c); cbn [length]; lia.
  - intros c. specialize (Room c). unfold dbSelect in *. cbn [rows writeFile].
    destruct (String.eqb ch c); lia.
Qed.

(** X8: with a bound of at least 1 and unique ids, if no channel holds
    more records than [albumMaxSize], then after any sequence of commands
    no channel does, and the ids are still unique. *)
Theorem capacity_invariant `{Runtime} (config : Config.t) (cmds : list Command) (w : World) :
  (1 <= Config.albumMaxSize config)%Z ->
  wfWorld w ->
  withinCapacity config w ->
  withinCapacity config (run config w cmds) /\ wfWorld (run config w cmds).
Proof.
  intros HM. unfold run. revert w.
  induction cmds as [|c cmds IH]; intros w WF Cap; [split; assumption|].
  cbn [fold_left].
  assert (Step : withinCapacity config (exec config w c) /\ wfWorld (exec config w c)).
  { destruct c; cbn [exec]; try (split; assumption).
    - rewrite after_convertEmojiOnly. split; assumption.
    - apply (after_convertEmoji (fun x => withinCapacity config x /\ wfWorld x));
        [|split; assumption].
      intros s q img e b' [C' W']. split;
        [apply withinCapacity_storeItem; assumption|apply wf_storeItem, W'].
    - destruct (missing index); [split; assumption|].
      split; [|apply wf_deleteEmoji, WF].
      unfold deleteEmoji. destruct (negb _); [exact Cap|]. destruct (negb _); [exact Cap|].
      destruct (outOfRange _ _); [exact Cap|].
      destruct (jsIndex _ _) as [record|]; [|exact Cap]. cbn [fst].
      eapply withinCapacity_filter; [|exact Cap]. cbn [rows dbRemoveId].
      rewrite rows_unlinkIfExists. reflexivity.
    - split; [|apply wf_clearAlbum, WF].
      unfold clearAlbum. destruct (clearAlbumAsk _ _ _) as [line|records]; [exact Cap|].
      destruct (sessionSend _ _); [|exact Cap].
      rewrite clearAlbumResolve_unlinkAll. destruct (negb _); [exact Cap|]. cbn [fst].
      destruct (unlinkAll_world records w) as (R & _ & _).
      eapply withinCapacity_filter; [|exact Cap]. cbn [rows dbRemoveChannel].
      rewrite R. reflexivity. }
  destruct Step as [C' W']. apply IH; assumption.
Qed.

Lemma capacity_invariant_witness :
  let cmds := [CmdConvert (groupSession "g1" [])
                 (fun k => arrives (pngBytes x0a) (t0 + 100 + Z.of_nat k) quiet);
               CmdDelete (groupSession "g1" ["admin"]) (Some 1%Z)] in
  withinCapacity smallConfig (@run sampleRuntime smallConfig emptyWorld cmds).
Proof.
  intros cmds.
  apply (@capacity_invariant sampleRuntime smallConfig cmds emptyWorld).
  - vm_compute. discriminate.
  - exact wf_emptyWorld.
  - intros ch. vm_compute. discriminate.
Defined.

(** ** Failure after the eviction *)

Lemma wf_ingestAll `{Runtime} (config : Config.t) (steps : list Ingest) (b : Batch) :
  wfWorld (world b) -> wfWorld (world (ingestAll config steps b)).
Proof.
  unfold ingestAll. revert b. induction steps as [|i steps IH]; intros b WF; [exact WF|].
  cbn [fold_left]. apply IH. unfold ingest. apply wf_storeItem, WF.
Qed.

(** X9: the eviction runs before the blob is written and the item sent.
    So when a fresh item meets a full album and its delivery fails, the
    oldest records are gone all the same: the channel is left with
    [albumMaxSize - 1] records, the newest ones, and the failed item is
    not among the rows. *)
Theorem failed_delivery_still_evicts `{Runtime} (config : Config.t) (session : Session.t)
    (quote : Quote.t) (img : Element.t) (env : ItemEnv) (b : Batch) (content : Buffer) :
  let channel := Session.channelId session in
  let M := Config.albumMaxSize config in
  (1 <= M)%Z ->
  wfWorld (world b) ->
  (M <= Z.of_nat (length (dbSelect channel (world b))))%Z ->
  truthy (imageUrl img) = true ->
  response env = Ok content ->
  dbGet channel (md5hex content) (world b) = [] ->
  deliveryDown config (String.eqb (detectMime content) "image/gif") (transport env) ->
  let b' := storeItem config session quote img env b in
  newestFirst channel (world b') = take (Z.to_nat (M - 1)) (newestFirst channel (world b)) /\
  Z.of_nat (length (dbSelect channel (world b'))) = (M - 1)%Z /\
  (forall r, r ∈ drop (Z.to_nat (M - 1)) (newestFirst channel (world b)) ->
             r ∉ rows (world b')) /\
  dbGet channel (md5hex content) (world b') = [] /\
  successCount b' = successCount b.
Proof.
  intros channel M HM WF Full U R G [Img FileDown] b'.
  destruct (imageSend (transport env)) as [m|] eqn:I; [clear Img|congruence].
  assert (E : b' = {| world := writeFile (blobPath content (saveClock env)) content
                                 (checkAndCleanAlbum config channel (world b));
                      results := results b ++ [storeFailedLine m];
                      successCount := successCount b; sent := sent b |}).
  { subst b'. unfold storeItem. open_item U R.
    fold channel. rewrite G. cbn [saveFile]. fold (blobPath content (saveClock env)).
    rewrite (deliver_fails _ _ _ _ _ _ _ m) by assumption. reflexivity. }
  destruct (checkAndCleanAlbum_frees_one_slot config channel (world b) HM WF Full)
    as (N & L & Gone).
  rewrite E. cbn [world successCount].
  split; [exact N|]. split; [exact L|]. split; [intros r Hr; apply (Gone r Hr)|].
  split; [|reflexivity].
  unfold dbGet. cbn [rows writeFile].
  fold (dbGet channel (md5hex content) (checkAndCleanAlbum config channel (world b))).
  apply dbGet_checkAndCleanAlbum, G.
Qed.

Lemma failed_delivery_still_evicts_witness :
  let full := @ingestAll sampleRuntime smallConfig sampleIngests (startBatch emptyWorld) in
  let b' := @storeItem sampleRuntime smallConfig (groupSession "g1" []) sampleQuote sampleImg
              (arrives (gifBytes x09) (t0 + 50) allDown) full in
  Z.of_nat (length (dbSelect "g1" (world b'))) = 4%Z.
Proof.
  intros full b'.
  destruct (@failed_delivery_still_evicts sampleRuntime smallConfig (groupSession "g1" [])
              sampleQuote sampleImg (arrives (gifBytes x09) (t0 + 50) allDown)
              full (gifBytes x09)) as (_ & L & _).
  - vm_compute. discriminate.
  - apply wf_ingestAll. exact wf_emptyWorld.
  - vm_compute. discriminate.
  - reflexivity.
  - reflexivity.
  - vm_compute. reflexivity.
  - split; [discriminate|intros _; discriminate].
  - exact L.
Defined.

(** ** Deduplication as an invariant *)

(** X10: if no channel holds two rows with one hash, no sequence of
    commands makes it so: the existence check of the storing loop is the
    only way to a new row. *)
Theorem dedup_invariant `{Runtime} (config : Config.t) (cmds : list Command) (w : World) :
  uniqueKeys w -> uniqueKeys (run config w cmds).
Proof. apply uniqueKeys_run. Qed.

Lemma dedup_invariant_witness :
  let cmds := [CmdConvert (groupSession "g1" []) (fun _ => arrives (pngBytes x01) t0 quiet);
               CmdConvert (groupSession "g1" [])
                 (fun _ => arrives (pngBytes x01) (t0 + 9) quiet)] in
  length (dbGet "g1" (hexDigest (pngBytes x01))
            (@run sampleRuntime defaultConfig emptyWorld cmds)) = 1%nat.
Proof.
  intros cmds.
  assert (U : uniqueKeys emptyWorld) by (intros ch h; cbn; lia).
  pose proof (@dedup_invariant sampleRuntime defaultConfig cmds emptyWorld U
                "g1" (hexDigest (pngBytes x01))) as L.
  assert (P : (1 <= length (dbGet "g1" (hexDigest (pngBytes x01))
                            (@run sampleRuntime defaultConfig emptyWorld cmds)))%nat)
    by (vm_compute; lia).
  lia.
Defined.

(** X11: deleting a record frees its hash: in a world without duplicate
    keys, after the deletion of the record at an index the channel holds no
    row with that record's hash, so the same content can be stored again. *)
Theorem delete_frees_hash (config : Config.t) (session : Session.t) (index : Z) (w : World)
    (r : StickerRecord.t) :
  let channel := Session.channelId session in
  isAlbumEnabledForGroup config channel = true ->
  hasDeletePermission config session = true ->
  uniqueKeys w ->
  (1 <= index <= Z.of_nat (length (dbSelect channel w)))%Z ->
  jsIndex (newestFirst channel w) (index - 1) = Some r ->
  dbGet channel (StickerRecord.md5 r) w = [r] /\
  dbGet channel (StickerRecord.md5 r) (fst (deleteEmoji config session index w)) = [].
Proof.
  intros channel En Perm U Range Hr.
  rewrite (deleteEmoji_in_range config session index w r) by assumption. cbn [fst].
  pose proof Hr as In. apply jsIndex_elem, newestFirst_elem in In as [In Cr].
  assert (G : dbGet channel (StickerRecord.md5 r) w = [r]).
  { assert (Hin : r ∈ dbGet channel (StickerRecord.md5 r) w).
    { unfold dbGet. apply elem_of_filter_bool. split; [exact In|].
      rewrite Cr, String.eqb_refl. reflexivity. }
    specialize (U channel (StickerRecord.md5 r)).
    destruct (dbGet channel (StickerRecord.md5 r) w) as [|x [|y l]]; cbn in U; try lia.
    - apply elem_of_nil in Hin. contradiction.
    - apply list_elem_of_singleton in Hin. subst x. reflexivity. }
  split; [exact G|].
  unfold dbGet. cbn [rows dbRemoveId]. rewrite rows_unlinkIfExists, filter_filter_comm.
  fold (dbGet channel (StickerRecord.md5 r) w). rewrite G. cbn [List.filter].
  rewrite Nat.eqb_refl. reflexivity.
Qed.

Lemma delete_frees_hash_witness :
  dbGet "g1" "4749463802"
    (fst (deleteEmoji defaultConfig (groupSession "g1" ["admin"]) 1 sampleWorld)) = [].
Proof.
  assert (U : uniqueKeys sampleWorld).
  { apply (@uniqueKeys_run sampleRuntime defaultConfig
             [CmdConvert (groupSession "g1" ["admin"])
                (fun _ => arrives (pngBytes x01) t0 quiet);
              CmdConvert (groupSession "g2" [])
                (fun _ => arrives (pngBytes x01) (t0 + 1) quiet);
              CmdConvert (groupSession "g1" ["admin"])
                (fun _ => arrives (gifBytes x02) (t0 + 2) quiet)] emptyWorld).
    intros ch h. cbn. lia. }
  destruct (newestFirst "g1" sampleWorld) as [|r rest] eqn:N; [vm_compute in N; discriminate N|].
  assert (M : StickerRecord.md5 r = "4749463802").
  { vm_compute in N. injection N as <- _. reflexivity. }
  assert (Range : (1 <= 1 <= Z.of_nat (length (dbSelect "g1" sampleWorld)))%Z)
    by (vm_compute; split; discriminate).
  assert (Hr : jsIndex (newestFirst "g1" sampleWorld) (1 - 1) = Some r)
    by (rewrite N; reflexivity).
  destruct (delete_frees_hash defaultConfig (groupSession "g1" ["admin"]) 1 sampleWorld r
              eq_refl eq_refl U Range Hr) as [_ G].
  rewrite M in G. exact G.
Defined.

(** ** The album view *)

Lemma albumPage_lookup (channelId : string) (page : Z) (w : World) (i : nat)
    (r : StickerRecord.t) :
  (1 <= page)%Z ->
  albumPage channelId page w !! i = Some r ->
  (i < 8)%nat /\
  jsIndex (newestFirst channelId w) ((page - 1) * 8 + Z.of_nat i) = Some r.
Proof.
  intros P L. unfold albumPage in L. apply lookup_take_Some in L as [L I].
  rewrite lookup_drop in L. split; [exact I|].
  unfold jsIndex. rewrite (proj2 (Z.ltb_ge _ _)) by lia.
  replace (Z.to_nat ((page - 1) * 8 + Z.of_nat i)) with (Z.to_nat ((page - 1) * 8) + i)%nat
    by lia.
  exact L.
Qed.

(** X12: what a page of the album shows, for a page number of at least 1.
    A page lists between one and eight records; the number printed beside
    a record is its place in the newest-first order, so it is an index
    that sending and deleting accept for that very record; the page count
    is the record count divided by eight, rounded up, and the page shown is
    not beyond it; an image is sent only for a listed record whose blob
    exists, with the bytes of that blob.  The empty answer is given on
    page 1 of an empty album, the no-more answer on a later page beyond the
    records. *)
Theorem album_numbers_are_indices (config : Config.t) (session : Session.t) (page : Z)
    (w : World) :
  let channel := Session.channelId session in
  let count := length (dbSelect channel w) in
  (1 <= page)%Z ->
  match viewAlbum config session page w with
  | ViewDisabled => isAlbumEnabledForGroup config channel = false
  | ViewEmpty => page = 1%Z /\ dbSelect channel w = []
  | ViewNoMore => (1 < page)%Z /\ (Z.of_nat count <= (page - 1) * 8)%Z
  | ViewPage total totalPages entries images =>
      total = count /\
      totalPages = ((Z.of_nat count + 7) / 8)%Z /\
      (1 <= length entries <= 8)%nat /\
      (page <= totalPages)%Z /\
      (forall num r, (num, r) ∈ entries ->
         ((page - 1) * 8 < num <= page * 8)%Z /\
         outOfRange num count = false /\
         jsIndex (newestFirst channel w) (num - 1) = Some r) /\
      (forall p, p ∈ images ->
         exists num r data, (num, r) ∈ entries /\
           files w !! StickerRecord.filePath r = Some data /\
           p = Image data (StickerRecord.mime r))
  end.
Proof.
  intros channel count P. unfold viewAlbum. fold channel.
  destruct (isAlbumEnabledForGroup config channel); cbn [negb]; [|reflexivity].
  assert (Len : length (albumPage channel page w)
                = min 8 (count - Z.to_nat ((page - 1) * 8))).
  { unfold albumPage. rewrite length_take, length_drop, newestFirst_length. reflexivity. }
  destruct (albumPage channel page w) as [|r0 records] eqn:A.
  - cbn [length] in Len.
    destruct (page =? 1)%Z eqn:P1.
    + apply Z.eqb_eq in P1. subst page. split; [reflexivity|].
      apply nil_length_inv. fold count. change (Z.to_nat ((1 - 1) * 8)) with 0%nat in Len. lia.
    + apply Z.eqb_neq in P1. split; lia.
  - assert (Pos : (0 < length (r0 :: records))%nat) by (cbn; lia).
    revert Len Pos. rewrite <- A. clear r0 records A. intros Len Pos. fold count.
    split; [reflexivity|]. split; [reflexivity|]. rewrite length_imap.
    split; [lia|]. split.
    { apply Z.div_le_lower_bound; lia. }
    split.
    + intros num r In. apply elem_of_lookup_imap in In as (i & rec & E & L).
      injection E as -> ->.
      destruct (albumPage_lookup channel page w i rec P L) as [I J].
      assert (Bound : (Z.of_nat (Z.to_nat ((page - 1) * 8) + i) < Z.of_nat count)%Z).
      { unfold jsIndex in J. destruct (_ <? 0)%Z; [discriminate|].
        apply lookup_lt_Some in J. rewrite newestFirst_length in J. fold count in J. lia. }
      split; [lia|]. split.
      * apply outOfRange_false. lia.
      * replace ((page - 1) * 8 + Z.of_nat i + 1 - 1)%Z
          with ((page - 1) * 8 + Z.of_nat i)%Z by lia. exact J.
    + intros p In. unfold viewImages in In.
      destruct (Config.albumShowImages config); [|apply elem_of_nil in In; contradiction].
      apply list_elem_of_omap in In as (rec & Hrec & F).
      destruct (files w !! StickerRecord.filePath rec) as [data|] eqn:D; [|discriminate].
      injection F as <-. apply list_elem_of_lookup in Hrec as [i L].
      exists ((page - 1) * 8 + Z.of_nat i + 1)%Z, rec, data.
      split; [|split; [exact D|reflexivity]].
      apply (elem_of_lookup_imap_2
               (fun i record => (((page - 1) * 8 + Z.of_nat i + 1)%Z, record)) _ rec i L).
Qed.

Lemma album_numbers_are_indices_witness :
  match viewAlbum defaultConfig (groupSession "g1" []) 1 sampleWorld with
  | ViewPage total totalPages entries _ =>
      total = 2%nat /\ totalPages = 1%Z /\ map fst entries = [1%Z; 2%Z]
  | _ => False
  end.
Proof.
  pose proof (album_numbers_are_indices defaultConfig (groupSession "g1" []) 1 sampleWorld
                ltac:(lia)) as V.
  cbv zeta in V.
  destruct (viewAlbum defaultConfig (groupSession "g1" []) 1 sampleWorld)
    as [| | |total totalPages entries images] eqn:E;
    try (vm_compute in E; discriminate E).
  destruct V as (T & TP & _).
  split; [rewrite T; vm_compute; reflexivity|]. split; [rewrite TP; vm_compute; reflexivity|].
  vm_compute in E. injection E as _ _ <- _. reflexivity.
Defined.

(** ** Sending again *)

Lemma sendEmoji_at (config : Config.t) (session : Session.t) (index : Z) (tr : Transport)
    (w : World) (r : StickerRecord.t) :
  isAlbumEnabledForGroup config (Session.channelId session) = true ->
  (1 <= index <= Z.of_nat (length (dbSelect (Session.channelId session) w)))%Z ->
  jsIndex (newestFirst (Session.channelId session) w) (index - 1) = Some r ->
  sendEmoji config session index tr w =
    let name := StickerRecord.fileName r in
    if negb (existsSync (StickerRecord.filePath r) w)
    then Ok ("❌ 文件不存在，可能已被删除", [])
    else
      tryCatch
        (try! fileData := readFile (StickerRecord.filePath r) w in
         match modeFor config (StickerRecord.isGif r) with
         | Config.file =>
             tryCatch
               (try! p := sendFileWithName config (fileSend tr) fileData name
                            (Some (StickerRecord.filePath r)) false in
                Ok ((if StickerRecord.isGif r then "🎞️ 已发送 GIF 文件: "
                     else "📁 已发送图片文件: ") ++ name, [p]))
               (fun _ =>
                try! p := sessionSend (imageSend tr) (Image fileData (resendMime r)) in
                Ok (resendFallbackLine r, [p]))
         | Config.buffer =>
             try! p := sessionSend (imageSend tr) (Image fileData (resendMime r)) in
             Ok ((if StickerRecord.isGif r then "🎞️ 已发送 GIF 图片: "
                  else "🖼️ 已发送图片: ") ++ name, [p])
         end)
        (fun message => Ok ("❌ 发送失败: " ++ message, [])).
Proof.
  intros En Range Hr. unfold sendEmoji. rewrite En. cbn [negb].
  rewrite newestFirst_length. rewrite (proj2 (outOfRange_false index _)) by exact Range.
  rewrite Hr. cbv zeta. unfold modeFor, resendMime, resendFallbackLine.
  destruct (negb _); [reflexivity|].
  destruct (readFile _ _); [|reflexivity]. cbn [tryCatch bind].
  destruct (StickerRecord.isGif r);
    [destruct (Config.gifMode config)|destruct (Config.staticImageMode config)]; reflexivity.
Qed.

(** X13: sending a record whose blob is no longer on disk answers with
    the file-missing line and sends nothing, whatever the transfer modes
    and the transport. *)
Theorem sendEmoji_missing_blob (config : Config.t) (session : Session.t) (index : Z)
    (tr : Transport) (w : World) (r : StickerRecord.t) :
  isAlbumEnabledForGroup config (Session.channelId session) = true ->
  (1 <= index <= Z.of_nat (length (dbSelect (Session.channelId session) w)))%Z ->
  jsIndex (newestFirst (Session.channelId session) w) (index - 1) = Some r ->
  files w !! StickerRecord.filePath r = None ->
  sendEmoji config session index tr w = Ok ("❌ 文件不存在，可能已被删除", []).
Proof.
  intros En Range Hr Gone. rewrite (sendEmoji_at _ _ _ _ _ r) by assumption. cbv zeta.
  unfold existsSync. rewrite Gone.
  rewrite bool_decide_eq_false_2; [reflexivity|]. intros [x Hx]. discriminate Hx.
Qed.

Lemma sendEmoji_missing_blob_witness :
  let w := unlinkSync "/koishi/data/sticker-convert/2023-11-14-4749463802.gif" sampleWorld in
  sendEmoji defaultConfig (groupSession "g1" []) 1 quiet w
  = Ok ("❌ 文件不存在，可能已被删除", []).
Proof.
  intros w.
  destruct (newestFirst "g1" w) as [|r rest] eqn:N; [vm_compute in N; discriminate N|].
  assert (P : StickerRecord.filePath r
              = "/koishi/data/sticker-convert/2023-11-14-4749463802.gif").
  { vm_compute in N. injection N as <- _. reflexivity. }
  apply (sendEmoji_missing_blob defaultConfig (groupSession "g1" []) 1 quiet w r).
  - reflexivity.
  - vm_compute. split; discriminate.
  - change (Session.channelId (groupSession "g1" [])) with "g1". rewrite N. reflexivity.
  - rewrite P. vm_compute. reflexivity.
Defined.

(** X14: sending a stored record reads its blob and sends those bytes.
    In the embedded mode they go as an image; in the file mode a throwing
    file send is followed by an image with the same bytes (a GIF always as
    image/gif, a static image with the mime of the record) and the answer
    says so; only when the image send throws does the answer carry the
    failure line, and then nothing was sent. *)
Theorem sendEmoji_delivers_blob (config : Config.t) (session : Session.t) (index : Z)
    (tr : Transport) (w : World) (r : StickerRecord.t) (data : Buffer) :
  isAlbumEnabledForGroup config (Session.channelId session) = true ->
  (1 <= index <= Z.of_nat (length (dbSelect (Session.channelId session) w)))%Z ->
  jsIndex (newestFirst (Session.channelId session) w) (index - 1) = Some r ->
  files w !! StickerRecord.filePath r = Some data ->
  let answer := sendEmoji config session index tr w in
  (modeFor config (StickerRecord.isGif r) = Config.buffer -> imageSend tr = None ->
   exists line, answer = Ok (line, [Image data (resendMime r)])) /\
  (modeFor config (StickerRecord.isGif r) = Config.file -> fileSend tr <> None ->
   imageSend tr = None ->
   answer = Ok (resendFallbackLine r, [Image data (resendMime r)])) /\
  (modeFor config (StickerRecord.isGif r) = Config.file -> fileSend tr = None ->
   StickerRecord.filePath r <> EmptyString ->
   exists line,
     answer = Ok (line, [if isBufferMode (Config.fileTransferMode config)
                         then TempFile data (StickerRecord.fileName r)
                         else File ("file://" ++ StickerRecord.filePath r)
                                (basename (StickerRecord.filePath r))])) /\
  (forall message, imageSend tr = Some message ->
   modeFor config (StickerRecord.isGif r) = Config.buffer \/ fileSend tr <> None ->
   answer = Ok ("❌ 发送失败: " ++ message, [])).
Proof.
  intros En Range Hr F answer. subst answer.
  rewrite (sendEmoji_at _ _ _ _ _ r) by assumption. cbv zeta.
  unfold existsSync, readFile. rewrite F.
  rewrite bool_decide_eq_true_2 by eauto. cbn [negb tryCatch bind].
  split; [|split; [|split]].
  - intros -> ->. cbn. eexists. reflexivity.
  - intros -> Down ->. destruct (fileSend tr) as [e|] eqn:S; [|congruence].
    destruct (sendFileWithName_throws config e data (StickerRecord.fileName r)
                (Some (StickerRecord.filePath r)) false) as [m' ->].
    reflexivity.
  - intros -> -> NonEmpty. unfold sendFileWithName.
    destruct (isBufferMode _); cbn [orb sessionSend tryCatch bind].
    + eexists. reflexivity.
    + destruct (StickerRecord.filePath r) as [|c path] eqn:P; [congruence|].
      cbn [tryCatch bind]. eexists. reflexivity.
  - intros message I [->|Down].
    + rewrite I. reflexivity.
    + destruct (modeFor config (StickerRecord.isGif r)); [rewrite I; reflexivity|].
      destruct (fileSend tr) as [e|] eqn:S; [|congruence].
      destruct (sendFileWithName_throws config e data (StickerRecord.fileName r)
                  (Some (StickerRecord.filePath r)) false) as [m' ->].
      cbn [tryCatch bind]. rewrite I. reflexivity.
Qed.

Lemma sendEmoji_delivers_blob_witness :
  sendEmoji defaultConfig (groupSession "g1" []) 1 fileDown sampleWorld
  = Ok ("🎞️ 已发送 GIF（作为图片）: 2023-11-14-4749463802.gif",
        [Image (gifBytes x02) "image/gif"]).
Proof.
  destruct (newestFirst "g1" sampleWorld) as [|r rest] eqn:N;
    [vm_compute in N; discriminate N|].
  assert (R : r = recordOf (H := sampleRuntime) (groupSession "g1" ["admin"]) sampleQuote
                    (gifBytes x02) (arrives (gifBytes x02) (t0 + 2) quiet) 3).
  { vm_compute in N. injection N as <- _. vm_compute. reflexivity. }
  destruct (sendEmoji_delivers_blob defaultConfig (groupSession "g1" []) 1 fileDown
              sampleWorld r (gifBytes x02)) as (_ & Fb & _).
  - reflexivity.
  - vm_compute. split; discriminate.
  - change (Session.channelId (groupSession "g1" [])) with "g1". rewrite N. reflexivity.
  - rewrite R. vm_compute. reflexivity.
  - rewrite Fb; [rewrite R; vm_compute; reflexivity|rewrite R; reflexivity|discriminate
                 |reflexivity].
Defined.

(** ** Clearing: the edges *)

(** X15: clearing an empty album answers that it is empty without asking
    for a confirmation, whatever reply is at hand; and when the prompt
    itself cannot be sent on a non-empty album, the exception leaves the
    function and nothing is deleted, even with a confirming reply. *)
Theorem clear_edge_cases (config : Config.t) (session : Session.t) (env : ClearEnv)
    (w : World) :
  let channel := Session.channelId session in
  isAlbumEnabledForGroup config channel = true ->
  hasDeletePermission config session = true ->
  (dbSelect channel w = [] ->
   clearAlbum config session env w = (w, Ok "相册已经是空的了")) /\
  (forall message, dbSelect channel w <> [] -> promptSend env = Some message ->
   clearAlbum config session env w = (w, Throw message)).
Proof.
  intros channel En Perm. unfold clearAlbum, clearAlbumAsk. fold channel.
  rewrite En, Perm. cbn [negb]. split.
  - intros ->. reflexivity.
  - intros message NE S. destruct (dbSelect channel w); [congruence|].
    rewrite S. reflexivity.
Qed.

Lemma clear_edge_cases_witness :
  clearAlbum defaultConfig (groupSession "g1" ["owner"])
    {| promptSend := Some "offline"; promptReply := Some confirmWord |} sampleWorld
  = (sampleWorld, Throw "offline").
Proof.
  destruct (clear_edge_cases defaultConfig (groupSession "g1" ["owner"])
              {| promptSend := Some "offline"; promptReply := Some confirmWord |} sampleWorld
              eq_refl eq_refl) as [_ T].
  apply T; [vm_compute; discriminate|reflexivity].
Defined.

Lemma trimStart_split (s : JsString) :
  exists pre, Forall (fun c => isTrimmed c = true) pre /\ s = (pre ++ trimStart s)%list /\
              (forall c rest, trimStart s = c :: rest -> isTrimmed c = false).
Proof.
  induction s as [|c s (pre & P & E & Hd)].
  - exists []. repeat split; [constructor|discriminate].
  - cbn [trimStart]. destruct (isTrimmed c) eqn:T.
    + exists (c :: pre). split; [constructor; assumption|]. split; [cbn; congruence|exact Hd].
    + exists []. split; [constructor|]. split; [reflexivity|].
      intros c' rest E'. injection E' as <- _. exact T.
Qed.

Lemma trimStart_padded (pre rest : JsString) (c : N) :
  Forall (fun c => isTrimmed c = true) pre -> isTrimmed c = false ->
  trimStart (pre ++ c :: rest)%list = c :: rest.
Proof.
  induction 1 as [|x pre Hx _ IH]; intros T; cbn [app trimStart].
  - rewrite T. reflexivity.
  - rewrite Hx. apply IH, T.
Qed.

(** X16: the reply confirms the clearing exactly when it is the
    confirmation word with nothing but white space or line ends before and
    after it; no reply does not confirm. *)
Theorem confirmed_iff_padded_word (reply : option JsString) :
  confirmed reply = true <-> exists s, reply = Some s /\ paddedWord s.
Proof.
  destruct reply as [s|]; cbn [confirmed].
  2: { split; [discriminate|]. intros (s & E & _). discriminate E. }
  rewrite bool_decide_eq_true. split.
  - intros T. exists s. split; [reflexivity|]. unfold trim in T.
    destruct (trimStart_split s) as (pre & P & E & _).
    destruct (trimStart_split (rev (trimStart s))) as (post & Q & E' & _).
    exists pre, (rev post). split; [exact P|]. split; [apply Forall_rev, Q|].
    rewrite E at 1. f_equal. rewrite <- T.
    rewrite <- rev_app_distr, <- E'. symmetry. apply rev_involutive.
  - intros (s' & E & pre & post & P & Q & ->). injection E as ->.
    unfold trim, confirmWord. cbn [app].
    rewrite (trimStart_padded pre _ _ P) by reflexivity.
    change (30830%N :: 35748%N :: post) with ([30830%N; 35748%N] ++ post)%list.
    rewrite rev_app_distr. cbn [rev app].
    rewrite (trimStart_padded (rev post) _ _) by (try apply Forall_rev; auto; reflexivity).
    reflexivity.
Qed.

(** ** The highest threshold *)

(** X17: no session reaches level 5.  So with [deletePermissionLevel] set
    to 5 nobody can delete or clear: both commands leave the world as it
    is for every session; and with the level set to 1 no session is
    refused for lack of permission, a direct one included. *)
Theorem level_five_locks_everyone (config : Config.t) (session : Session.t) (index : Z)
    (env : ClearEnv) (w : World) :
  (1 <= checkUserPermission session <= 4)%Z /\
  ((5 <= Config.deletePermissionLevel config)%Z ->
   hasDeletePermission config session = false /\
   fst (deleteEmoji config session index w) = w /\
   fst (clearAlbum config session env w) = w) /\
  ((Config.deletePermissionLevel config <= 1)%Z ->
   hasDeletePermission config session = true).
Proof.
  pose proof (checkUserPermission_range session) as R. split; [exact R|]. split.
  - intros Five.
    assert (P : hasDeletePermission config session = false).
    { unfold hasDeletePermission. apply Z.leb_gt. lia. }
    split; [exact P|]. unfold deleteEmoji, clearAlbum, clearAlbumAsk. rewrite P.
    destruct (negb (isAlbumEnabledForGroup _ _)); split; reflexivity.
  - intros One. unfold hasDeletePermission. apply Z.leb_le. lia.
Qed.

Lemma level_five_locks_everyone_witness :
  let config := {| Config.enableAlbum := true; Config.albumEnabledGroups := [];
                   Config.albumMaxSize := 20; Config.albumShowImages := true;
                   Config.deletePermissionLevel := 5;
                   Config.staticImageMode := Config.buffer; Config.gifMode := Config.file;
                   Config.fileTransferMode := Config.buffer; Config.debug := false |} in
  fst (deleteEmoji config (groupSession "g1" ["owner"]) 1 sampleWorld) = sampleWorld.
Proof.
  intros config.
  destruct (level_five_locks_everyone config (groupSession "g1" ["owner"]) 1
              {| promptSend := None; promptReply := None |} sampleWorld) as (_ & Five & _).
  destruct Five as (_ & D & _); [vm_compute; discriminate|exact D].
Defined.

(** ** The name of a saved file *)

Lemma append_assoc_cons (a : string) (c : ascii) (s : string) :
  (a ++ String c EmptyString) ++ s = a ++ String c s.
Proof.
  induction a as [|x a IH]; [reflexivity|]. rewrite !append_cons, IH. reflexivity.
Qed.

Lemma lastSegment_noSeparator (acc s : string) :
  noSeparator s = true -> lastSegment acc s = acc ++ s.
Proof.
  revert acc. induction s as [|c s IH]; intros acc N; cbn [lastSegment].
  - induction acc as [|x acc IHa]; [reflexivity|]. rewrite append_cons, <- IHa. reflexivity.
  - cbn [noSeparator] in N. apply andb_true_iff in N as [C N].
    apply negb_true_iff in C. rewrite C, (IH _ N). apply append_assoc_cons.
Qed.

Lemma lastSegment_after_separator (acc dir name : string) :
  noSeparator name = true ->
  lastSegment acc (dir ++ String "/"%char name) = name.
Proof.
  intros N. revert acc. induction dir as [|c dir IH]; intros acc.
  - rewrite append_empty. cbn [lastSegment isSeparator].
    change (Ascii.eqb "/" "/" || Ascii.eqb "/" "\")%char with true. cbv iota.
    rewrite lastSegment_noSeparator by exact N. reflexivity.
  - rewrite append_cons. cbn [lastSegment]. destruct (isSeparator c); apply IH.
Qed.

(** X18: saving writes the buffer under the storage directory and changes
    no row and no other file; when the name built from the date, the hash
    and the extension holds no path separator, the last segment of the
    returned path (the name kept in the record) is that name. *)
Theorem saved_name_round_trip `{Runtime} (buffer : Buffer) (md5 ext : string) (now : Z)
    (w : World) :
  let name := isoDate now ++ "-" ++ md5 ++ "." ++ ext in
  let path := fst (saveFile buffer md5 ext now w) in
  let w' := snd (saveFile buffer md5 ext now w) in
  noSeparator name = true ->
  basename path = name /\
  readFile path w' = Ok buffer /\
  rows w' = rows w /\ nextId w' = nextId w /\
  (forall other, other <> path -> files w' !! other = files w !! other).
Proof.
  intros name path w' N. subst path w'. cbn [saveFile fst snd]. fold name.
  split.
  - unfold basename, resolvePath.
    change ("/" ++ name) with (String "/"%char name).
    apply lastSegment_after_separator, N.
  - split.
    + unfold readFile. cbn [files writeFile]. rewrite lookup_insert_eq. reflexivity.
    + split; [reflexivity|]. split; [reflexivity|].
      intros other NE. cbn [files writeFile]. apply lookup_insert_ne. congruence.
Qed.

Lemma saved_name_round_trip_witness :
  basename (fst (@saveFile sampleRuntime (pngBytes x01) "89504e4701" "png" t0 emptyWorld))
  = "2023-11-14-89504e4701.png".
Proof.
  destruct (@saved_name_round_trip sampleRuntime (pngBytes x01) "89504e4701" "png" t0
              emptyWorld) as [B _].
  - vm_compute. reflexivity.
  - rewrite B. vm_compute. reflexivity.
Defined.

(** ** What the eviction leaves alone *)

(** X19: the eviction of one channel keeps the rows of every other channel
    and the counter, and touches no file but those at the paths of the
    records it removes; below the bound it changes nothing at all. *)
Theorem eviction_frame (config : Config.t) (channelId : string) (w : World) :
  wfWorld w ->
  let w' := checkAndCleanAlbum config channelId w in
  (forall other, other <> channelId -> dbSelect other w' = dbSelect other w) /\
  nextId w' = nextId w /\
  (forall path, path ∉ map StickerRecord.filePath (evicted config channelId w) ->
                files w' !! path = files w !! path) /\
  (forall r, r ∈ rows w' <-> r ∈ rows w /\ idIn (evicted config channelId w) r = false) /\
  ((Z.of_nat (length (dbSelect channelId w)) < Config.albumMaxSize config)%Z -> w' = w).
Proof.
  intros WF w'. subst w'. split; [|split; [|split; [|split]]].
  - intros other NE. apply dbSelect_other_checkAndCleanAlbum; assumption.
  - apply nextId_checkAndCleanAlbum.
  - intros path Out. rewrite checkAndCleanAlbum_evicted, files_evict.
    rewrite bool_decide_eq_false_2 by exact Out. reflexivity.
  - intros r. rewrite checkAndCleanAlbum_evicted, rows_evict, elem_of_filter_bool.
    rewrite negb_true_iff. reflexivity.
  - intros Below. unfold checkAndCleanAlbum. rewrite orderBy_length.
    rewrite (proj2 (Z.leb_gt _ _)) by exact Below. reflexivity.
Qed.

Lemma eviction_frame_witness :
  checkAndCleanAlbum defaultConfig "g1" sampleWorld = sampleWorld.
Proof.
  destruct (eviction_frame defaultConfig "g1" sampleWorld) as (_ & _ & _ & _ & Same).
  - repeat apply wf_storeItem. exact wf_emptyWorld.
  - apply Same. vm_compute. reflexivity.
Defined.

(** ** A working transport *)

Lemma resolvePath_cons `{Runtime} (name : string) :
  exists c rest, resolvePath name = String c rest.
Proof.
  unfold resolvePath. destruct storageDir as [|c dir].
  - rewrite append_empty. change ("/" ++ name) with (String "/"%char name). eauto.
  - rewrite append_cons. eauto.
Qed.

(** X20: when the transport answers every send, an item with a good link
    and a good download is delivered whatever the three mode settings are:
    the conversion counts it, and the storing loop stores it unless the
    channel already holds its content.  In particular the file mode never
    fails for want of a path. *)
Theorem working_transport_always_delivers `{Runtime} (config : Config.t)
    (session : Session.t) (quote : Quote.t) (img : Element.t) (env : ItemEnv) (b : Batch)
    (content : Buffer) :
  truthy (imageUrl img) = true ->
  response env = Ok content ->
  fileSend (transport env) = None ->
  imageSend (transport env) = None ->
  successCount (convertItem config img env b) = S (successCount b) /\
  (dbGet (Session.channelId session) (md5hex content) (world b) = [] ->
   stored config session quote img env b) /\
  (forall existing rest,
     dbGet (Session.channelId session) (md5hex content) (world b) = existing :: rest ->
     storeItem config session quote img env b
     = pushLine (existsLine (StickerRecord.id existing)) b).
Proof.
  intros U R FS IS.
  assert (D : forall fileName filePath forceBuffer,
            (forceBuffer = true \/ exists c rest, filePath = Some (String c rest)) ->
            exists line p,
              deliver config (transport env) content (detectMime content)
                (String.eqb (detectMime content) "image/gif") fileName filePath forceBuffer
              = Ok (line, p)).
  { intros fileName filePath forceBuffer Path. unfold deliver, sendFileWithName.
    rewrite FS, IS. cbn [sessionSend bind].
    destruct (String.eqb _ _);
      [destruct (Config.gifMode config)|destruct (Config.staticImageMode config)];
      try (eexists _, _; reflexivity);
      destruct (isBufferMode _); cbn [orb tryCatch bind];
      try (eexists _, _; reflexivity);
      destruct Path as [->|(c & rest & ->)]; try destruct forceBuffer;
      cbn [tryCatch bind]; eexists _, _; reflexivity. }
  split; [|split].
  - unfold convertItem. open_item U R.
    destruct (D ("temp-" ++ substring 0 8 (md5hex content) ++ "."
                 ++ getExtFromMime (detectMime content)) None true) as (line & p & ->);
      [left; reflexivity|]. reflexivity.
  - intros G. unfold stored, storeItem. open_item U R. rewrite G. cbn [saveFile].
    fold (blobPath content (saveClock env)).
    destruct (D (basename (blobPath content (saveClock env)))
                (Some (blobPath content (saveClock env))) false) as (line & p & ->).
    + right. unfold blobPath.
      destruct (resolvePath_cons (isoDate (saveClock env) ++ "-" ++ md5hex content ++ "."
                                  ++ getExtFromMime (detectMime content))) as (c & rest & ->).
      eauto.
    + reflexivity.
  - intros existing rest G. unfold storeItem. open_item U R. rewrite G. reflexivity.
Qed.

Lemma working_transport_always_delivers_witness :
  let config := {| Config.enableAlbum := true; Config.albumEnabledGroups := [];
                   Config.albumMaxSize := 20; Config.albumShowImages := true;
                   Config.deletePermissionLevel := 3;
                   Config.staticImageMode := Config.file; Config.gifMode := Config.file;
                   Config.fileTransferMode := Config.file; Config.debug := false |} in
  successCount (@storeItem sampleRuntime config (groupSession "g1" []) sampleQuote sampleImg
                  (arrives (pngBytes x0b) t0 quiet) (startBatch emptyWorld)) = 1%nat.
Proof.
  intros config.
  destruct (@working_transport_always_delivers sampleRuntime config (groupSession "g1" [])
              sampleQuote sampleImg (arrives (pngBytes x0b) t0 quiet) (startBatch emptyWorld)
              (pngBytes x0b) eq_refl eq_refl eq_refl eq_refl) as (_ & St & _).
  apply St. reflexivity.
Defined.

(** ** Channels do not see each other's commands *)

Lemma dbSelect_other_storeItem `{Runtime} (config : Config.t) (session : Session.t)
    (quote : Quote.t) (img : Element.t) (env : ItemEnv) (b : Batch) (other : string) :
  wfWorld (world b) -> other <> Session.channelId session ->
  dbSelect other (world (storeItem config session quote img env b)) = dbSelect other (world b).
Proof.
  intros WF NE. unfold storeItem.
  destruct (truthy (imageUrl img)); cbn [negb]; [|reflexivity].
  destruct (downloadImage (response env)) as [d|message]; [|reflexivity].
  destruct (dbGet _ _ _); [|reflexivity].
  cbn [saveFile].
  destruct (deliver _ _ _ _ _ _ _ _) as [[line payload]|message]; cbn [world].
  - unfold dbSelect. cbn [rows dbCreate writeFile]. rewrite List.filter_app.
    cbn [List.filter]. unfold inChannel at 2. cbn [StickerRecord.channelId].
    rewrite (proj2 (String.eqb_neq _ _)) by congruence. rewrite app_nil_r.
    apply (dbSelect_other_checkAndCleanAlbum config (Session.channelId session) other);
      assumption.
  - unfold dbSelect. cbn [rows writeFile].
    apply (dbSelect_other_checkAndCleanAlbum config (Session.channelId session) other);
      assumption.
Qed.

Lemma dbSelect_other_deleteEmoji (config : Config.t) (session : Session.t) (index : Z)
    (w : World) (other : string) :
  wfWorld w -> other <> Session.channelId session ->
  dbSelect other (fst (deleteEmoji config session index w)) = dbSelect other w.
Proof.
  intros [ND _] NE. unfold deleteEmoji.
  destruct (negb _); [reflexivity|]. destruct (negb _); [reflexivity|].
  destruct (outOfRange _ _); [reflexivity|].
  destruct (jsIndex _ _) as [r|] eqn:J; [|reflexivity]. cbn [fst].
  unfold dbSelect. cbn [rows dbRemoveId]. rewrite rows_unlinkIfExists, filter_filter_comm.
  apply filter_all, List.Forall_forall. intros x Hx. apply filter_In in Hx as [Hx Cx].
  apply negb_true_iff, Nat.eqb_neq. intros E.
  apply jsIndex_elem, newestFirst_elem in J as [Hr Cr].
  assert (x = r) as -> by (eapply ids_inj; eauto; apply list_elem_of_In, Hx).
  unfold inChannel in Cx, Cr. apply String.eqb_eq in Cx, Cr. congruence.
Qed.

Lemma dbSelect_other_clearAlbum (config : Config.t) (session : Session.t) (env : ClearEnv)
    (w : World) (other : string) :
  other <> Session.channelId session ->
  dbSelect other (fst (clearAlbum config session env w)) = dbSelect other w.
Proof.
  intros NE. unfold clearAlbum.
  destruct (clearAlbumAsk _ _ _) as [line|records]; [reflexivity|].
  destruct (sessionSend _ _); [|reflexivity].
  rewrite clearAlbumResolve_unlinkAll. destruct (negb _); [reflexivity|]. cbn [fst].
  destruct (unlinkAll_world records w) as (R & _ & _).
  unfold dbSelect. cbn [rows dbRemoveChannel]. rewrite R, filter_filter_comm.
  apply filter_all, List.Forall_forall. intros x Hx. apply filter_In in Hx as [_ Cx].
  apply negb_true_iff. unfold inChannel in *. apply String.eqb_eq in Cx.
  apply String.eqb_neq. congruence.
Qed.

Lemma after_convertEmoji_session `{Runtime} (P : World -> Prop) (config : Config.t)
    (session : Session.t) (env : nat -> ItemEnv) (w : World) :
  (forall q img e b', P (world b') -> P (world (storeItem config session q img e b'))) ->
  P w -> P (after (convertEmoji config session env w)).
Proof.
  intros Step Pw. unfold convertEmoji. destruct (negb _); [exact Pw|].
  destruct (negb _); [exact Pw|].
  destruct (Session.quote session) as [quote|]; [|exact Pw].
  destruct (allImageLike quote) eqn:A; [exact Pw|].
  cbn [after finish]. rewrite world_summarize.
  apply storeLoop_invariant; [intros img e b'; apply Step|exact Pw].
Qed.

(** X21: with unique ids, the rows of a channel are changed only by
    commands issued in that channel: after any sequence of commands issued
    elsewhere they are what they were, in the same order. *)
Theorem channel_isolation `{Runtime} (config : Config.t) (cmds : list Command) (w : World)
    (channelId : string) :
  wfWorld w ->
  Forall (fun c => commandChannel c <> channelId) cmds ->
  dbSelect channelId (run config w cmds) = dbSelect channelId w.
Proof.
  unfold run. revert w. induction cmds as [|c cmds IH]; intros w WF Else; [reflexivity|].
  apply Forall_cons in Else as [NE Else]. cbn [fold_left].
  assert (Step : dbSelect channelId (exec config w c) = dbSelect channelId w /\
                 wfWorld (exec config w c)).
  { destruct c; cbn [exec commandChannel] in *; try (split; [reflexivity|exact WF]).
    - rewrite after_convertEmojiOnly. split; [reflexivity|exact WF].
    - apply (after_convertEmoji_session
               (fun x => dbSelect channelId x = dbSelect channelId w /\ wfWorld x));
        [|split; [reflexivity|exact WF]].
      intros q img e b' [E W']. split; [|apply wf_storeItem, W'].
      rewrite <- E. apply dbSelect_other_storeItem; [exact W'|congruence].
    - destruct (missing index); [split; [reflexivity|exact WF]|].
      split; [apply dbSelect_other_deleteEmoji; [exact WF|congruence]|apply wf_deleteEmoji, WF].
    - split; [apply dbSelect_other_clearAlbum; congruence|apply wf_clearAlbum, WF]. }
  destruct Step as [E W']. rewrite IH by assumption. exact E.
Qed.

Lemma channel_isolation_witness :
  let cmds := [CmdConvert (groupSession "g2" [])
                 (fun _ => arrives (gifBytes x0c) (t0 + 7) quiet);
               CmdClear (groupSession "g2" ["owner"])
                 {| promptSend := None; promptReply := Some confirmWord |}] in
  dbSelect "g1" (@run sampleRuntime defaultConfig sampleWorld cmds) = dbSelect "g1" sampleWorld.
Proof.
  intros cmds. apply (@channel_isolation sampleRuntime defaultConfig cmds sampleWorld "g1").
  - repeat apply wf_storeItem. exact wf_emptyWorld.
  - repeat constructor; discriminate.
Defined.

(** ** The delete command *)

(** X22: the delete command changes the world only when it is given a
    non-zero number, the album is enabled in the channel, the requester may
    delete and the number is within the records of the channel; in a world
    with unique ids it then removes exactly one row.  A missing number or
    0 is answered as a missing argument by the delete and the send
    commands, before any other test. *)
Theorem delete_command_needs_everything (config : Config.t) (session : Session.t)
    (index : option Z) (tr : Transport) (w : World) :
  let channel := Session.channelId session in
  let w' := fst (cmdDeleteEmoji config session index w) in
  wfWorld w ->
  (missing index = true ->
   cmdDeleteEmoji config session index w = (w, missingIndexLine) /\
   cmdSendEmoji config session index tr w = Ok (missingIndexLine, [])) /\
  (w' <> w ->
   exists i, index = Some i /\
     (1 <= i <= Z.of_nat (length (dbSelect channel w)))%Z /\
     isAlbumEnabledForGroup config channel = true /\
     hasDeletePermission config session = true /\
     (length (rows w') + 1 = length (rows w))%nat).
Proof.
  intros channel w' WF. subst w'. unfold cmdDeleteEmoji, cmdSendEmoji. split.
  - intros ->. split; reflexivity.
  - destruct (missing index) eqn:Mi; [cbn; congruence|].
    destruct index as [i|]; [|discriminate Mi]. change (default 0%Z (Some i)) with i.
    intros Changed. exists i. split; [reflexivity|]. revert Changed. unfold deleteEmoji.
    fold channel.
    destruct (isAlbumEnabledForGroup config channel); cbn [negb]; [|cbn; congruence].
    destruct (hasDeletePermission config session); cbn [negb]; [|cbn; congruence].
    rewrite newestFirst_length.
    destruct (outOfRange i _) eqn:O; [cbn; congruence|].
    apply outOfRange_false in O.
    destruct (jsIndex _ _) as [r|] eqn:J; [|cbn; congruence]. cbn [fst]. intros _.
    repeat split; try lia.
    cbn [rows dbRemoveId]. rewrite rows_unlinkIfExists.
    apply length_filter_other; [apply WF|].
    apply jsIndex_elem, newestFirst_elem in J. tauto.
Qed.

Lemma delete_command_needs_everything_witness :
  cmdDeleteEmoji defaultConfig (groupSession "g1" ["owner"]) (Some 0%Z) sampleWorld
  = (sampleWorld, missingIndexLine).
Proof.
  destruct (delete_command_needs_everything defaultConfig (groupSession "g1" ["owner"])
              (Some 0%Z) quiet sampleWorld) as [Mi _].
  - repeat apply wf_storeItem. exact wf_emptyWorld.
  - apply Mi. reflexivity.
Defined.

(** ** The extension table *)


